(** * SQLBot data-source wizard: the form component of [views/ds]

    A shallow embedding of the script part of the data-source form
    component (two revisions of it are in the repository: the one with the
    [api] data-source type, and the one with the vertical-merge
    "concatenate" mode), and the properties of its selection reconciler,
    configuration builder, upload guard and step controller.

    JavaScript objects that the component treats as bags of fields (the
    reactive [form], the record handed to the backend) are finite maps from
    field names to JS values; refs are fields of a state record; handlers are
    computations in a small state-and-trace monad whose trace records the
    emitted events, the toasts and the backend requests in program order. *)

From Stdlib Require Import Ascii String ZArith QArith.
From stdpp Require Import gmap strings list pretty.

Set Warnings "-register-all".

Local Open Scope string_scope.
Local Open Scope list_scope.
Local Open Scope Z_scope.

(** ** JavaScript values *)

Module JS.

(** Numbers are the integers plus [NaN]; the component only ever computes
    with ports, timeouts, sizes and status codes. An integer beyond the safe
    ones stands for a number only if a double holds it. *)
Inductive value : Type :=
  | VUndef
  | VNull
  | VBool (b : bool)
  | VNum (n : Z)
  | VNaN
  | VStr (s : string)
  | VArr (l : list value)
  | VObj (o : list (string * value)).

(** ToBoolean. *)
Definition truthy (v : value) : bool :=
  match v with
  | VUndef | VNull | VNaN => false
  | VBool b => b
  | VNum n => negb (n =? 0)
  | VStr s => negb (String.eqb s "")
  | VArr _ | VObj _ => true
  end.

(** [a || b] *)
Definition or_else (a b : value) : value := if truthy a then a else b.

(** Property read [o.k] on an object literal or a parsed object; anything
    missing reads as [undefined]. *)
Fixpoint assoc (k : string) (o : list (string * value)) : value :=
  match o with
  | [] => VUndef
  | (k', v) :: o' => if String.eqb k k' then v else assoc k o'
  end.

Definition prop (k : string) (v : value) : value :=
  match v with
  | VObj o => assoc k o
  | _ => VUndef
  end.

(** What [JSON.parse(JSON.stringify(v))] yields for a value nested in an
    array or object: [undefined] and [NaN] come back as [null], properties
    whose value is [undefined] are dropped, everything else is copied. *)
Fixpoint json_norm (v : value) : value :=
  match v with
  | VUndef | VNaN => VNull
  | VArr l => VArr (map json_norm l)
  | VObj o =>
      VObj ((fix fields (o : list (string * value)) :=
               match o with
               | [] => []
               | (k, VUndef) :: o' => fields o'
               | (k, x) :: o' => (k, json_norm x) :: fields o'
               end) o)
  | _ => v
  end.

(** The properties of an object after the round trip. *)
Definition norm_fields : list (string * value) → list (string * value) :=
  fix fields (o : list (string * value)) :=
    match o with
    | [] => []
    | (k, VUndef) :: o' => fields o'
    | (k, x) :: o' => (k, json_norm x) :: fields o'
    end.

(** The same for a property that is read back from the parsed object: a
    dropped property reads as [undefined] again. *)
Definition json_reload (v : value) : value :=
  match v with
  | VUndef => VUndef
  | _ => json_norm v
  end.

(** Values that survive a JSON round trip unchanged. *)
Definition json_stable (v : value) : Prop := json_reload v = v.

(** *** Strings

    A string is the sequence of the bytes of its UTF-8 encoding: a
    character of ASCII is one byte, and [includes], [startsWith] and [split]
    on well-formed strings find the same matches on bytes as on characters. *)

Definition is_ascii_char (c : ascii) : bool := (nat_of_ascii c <? 128)%nat.

Fixpoint is_ascii (s : string) : bool :=
  match s with
  | EmptyString => true
  | String c s' => is_ascii_char c && is_ascii s'
  end.

Definition is_upper (c : ascii) : bool :=
  let n := nat_of_ascii c in (65 <=? n)%nat && (n <=? 90)%nat.

Definition lower_ascii (c : ascii) : ascii :=
  if is_upper c then ascii_of_nat (nat_of_ascii c + 32) else c.

(** What [toLowerCase] does to a string of ASCII: the letters [A] to [Z]
    become [a] to [z]. *)
Fixpoint ascii_lower (s : string) : string :=
  match s with
  | EmptyString => EmptyString
  | String c s' => String (lower_ascii c) (ascii_lower s')
  end.

(** The integers a number holds exactly and prints digit by digit: those up
    to [2 ^ 53] in absolute value. *)
Definition safe_integer (n : Z) : bool := Z.abs n <=? 2 ^ 53.

(** What is left to the JavaScript engine. [String.prototype.toLowerCase]
    follows the Unicode case mappings, of which only the ASCII part is
    written out here. Numbers are doubles: [toNumber n] is the number for a
    mathematical integer [n] beyond the safe ones, [Number_toString n] the
    text of a number [n] beyond the safe ones. *)
Class Engine := {
  toLowerCase : string → string;
  toLowerCase_ascii s : is_ascii s = true → toLowerCase s = ascii_lower s;
  toNumber : Z → value;
  Number_toString : Z → string;
}.

(** [s.startsWith(sub)] *)
Fixpoint startsWith (sub s : string) : bool :=
  match sub, s with
  | EmptyString, _ => true
  | String a sub', String b s' => Ascii.eqb a b && startsWith sub' s'
  | String _ _, EmptyString => false
  end.

(** [s.includes(sub)] *)
Fixpoint includes (sub s : string) : bool :=
  startsWith sub s ||
  match s with
  | EmptyString => false
  | String _ s' => includes sub s'
  end.

(** The white space that [trim] and [parseInt] strip, by the length of its
    encoding. One byte: tab, line feed, vertical tab, form feed, carriage
    return, space. Two bytes: U+00A0. Three bytes: U+1680, U+2000 to U+200A,
    U+2028, U+2029, U+202F, U+205F, U+3000 and U+FEFF. *)
Definition white_space1 (c : ascii) : bool :=
  let n := nat_of_ascii c in ((9 <=? n)%nat && (n <=? 13)%nat) || (n =? 32)%nat.

Definition white_space2 (c1 c2 : ascii) : bool :=
  (nat_of_ascii c1 =? 194)%nat && (nat_of_ascii c2 =? 160)%nat.

Definition white_space3 (c1 c2 c3 : ascii) : bool :=
  let n1 := nat_of_ascii c1 in
  let n2 := nat_of_ascii c2 in
  let n3 := nat_of_ascii c3 in
  ((n1 =? 225)%nat && (n2 =? 154)%nat && (n3 =? 128)%nat)
  || ((n1 =? 226)%nat && (n2 =? 128)%nat
      && (((128 <=? n3)%nat && (n3 <=? 138)%nat)
          || (n3 =? 168)%nat || (n3 =? 169)%nat || (n3 =? 175)%nat))
  || ((n1 =? 226)%nat && (n2 =? 129)%nat && (n3 =? 159)%nat)
  || ((n1 =? 227)%nat && (n2 =? 128)%nat && (n3 =? 128)%nat)
  || ((n1 =? 239)%nat && (n2 =? 187)%nat && (n3 =? 191)%nat).

(** [s.trimStart()] *)
Fixpoint trimStart (s : string) : string :=
  match s with
  | EmptyString => EmptyString
  | String c1 s1 =>
      if white_space1 c1 then trimStart s1
      else
        match s1 with
        | EmptyString => s
        | String c2 s2 =>
            if white_space2 c1 c2 then trimStart s2
            else
              match s2 with
              | EmptyString => s
              | String c3 s3 => if white_space3 c1 c2 c3 then trimStart s3 else s
              end
        end
  end.

(** A string that is white space from end to end. *)
Fixpoint all_white (s : string) : bool :=
  match s with
  | EmptyString => true
  | String c1 s1 =>
      if white_space1 c1 then all_white s1
      else
        match s1 with
        | EmptyString => false
        | String c2 s2 =>
            if white_space2 c1 c2 then all_white s2
            else
              match s2 with
              | EmptyString => false
              | String c3 s3 => white_space3 c1 c2 c3 && all_white s3
              end
        end
  end.

(** [s.trimEnd()] *)
Fixpoint trimEnd (s : string) : string :=
  match s with
  | EmptyString => EmptyString
  | String c s' => if all_white s then EmptyString else String c (trimEnd s')
  end.

(** [s.trim()] *)
Definition trim (s : string) : string := trimEnd (trimStart s).

(** [s.split(sep)] for a one-character separator. *)
Fixpoint split (sep : ascii) (s : string) : list string :=
  match s with
  | EmptyString => [EmptyString]
  | String c s' =>
      if Ascii.eqb c sep then EmptyString :: split sep s'
      else match split sep s' with
           | [] => [String c EmptyString]
           | w :: ws => String c w :: ws
           end
  end.

Definition digit_of (radix : Z) (c : ascii) : option Z :=
  let n := Z.of_nat (nat_of_ascii c) in
  let d := if (48 <=? n) && (n <=? 57) then n - 48
           else if (97 <=? n) && (n <=? 122) then n - 87
           else if (65 <=? n) && (n <=? 90) then n - 55
           else 36 in
  if d <? radix then Some d else None.

(** The longest prefix of digits of the radix, read as a number. *)
Fixpoint digits (radix : Z) (s : string) (acc : option Z) : option Z :=
  match s with
  | EmptyString => acc
  | String c s' =>
      match digit_of radix c with
      | Some d => digits radix s' (Some (default 0 acc * radix + d))
      | None => acc
      end
  end.

Section numbers.

Context `{!Engine}.

(** The number for a mathematical integer. *)
Definition number (n : Z) : value :=
  if safe_integer n then VNum n else toNumber n.

(** The text of a number. *)
Definition number_text (n : Z) : string :=
  if safe_integer n then pretty n else Number_toString n.

(** [parseInt(s)] without a radix: leading white space, an optional sign, an
    optional [0x] prefix, then as many digits as there are; [NaN] when there
    is none. *)
Definition parseInt (s : string) : value :=
  let s := trimStart s in
  let '(neg, s) :=
    match s with
    | String "-" s' => (true, s')
    | String "+" s' => (false, s')
    | _ => (false, s)
    end in
  let '(radix, s) :=
    match s with
    | String "0" (String "x" s') | String "0" (String "X" s') => (16, s')
    | _ => (10, s)
    end in
  match digits radix s None with
  | Some n => number (if neg : bool then - n else n)
  | None => VNaN
  end.

(** The string an array element contributes to [Array.prototype.join]. *)
Fixpoint join_item (v : value) : string :=
  match v with
  | VUndef | VNull => ""
  | VBool true => "true"
  | VBool false => "false"
  | VNum n => number_text n
  | VNaN => "NaN"
  | VStr s => s
  | VArr l =>
      (fix items (l : list value) :=
         match l with
         | [] => ""
         | [x] => join_item x
         | x :: l' => join_item x +:+ "," +:+ items l'
         end) l
  | VObj _ => "[object Object]"
  end.

(** [arr.join(sep)] *)
Fixpoint join (sep : string) (l : list value) : string :=
  match l with
  | [] => ""
  | [x] => join_item x
  | x :: l' => join_item x +:+ sep +:+ join sep l'
  end.

End numbers.

(** *** Sets of strings in insertion order *)

(** [set.add(x)] *)
Definition Set_add (acc : list string) (x : string) : list string :=
  if decide (x ∈ acc) then acc else acc ++ [x].

(** [[...new Set(l)]]: the distinct elements of [l], each at its first
    occurrence. *)
Definition new_Set (l : list string) : list string := foldl Set_add [] l.

End JS.

Import JS.

(** ** The component state *)

(** A row of the candidate table list, as the backend and the upload return
    it. *)
Record Sheet := { tableName : string; tableComment : string }.

Definition sheet_value (ele : Sheet) : value :=
  VObj [("tableName", VStr (tableName ele)); ("tableComment", VStr (tableComment ele))].

(** A [File] picked in the browser; [size] is in bytes. *)
Module File.
Record t := { name : string; size : Z }.
End File.

(** What the upload and the merge endpoints answer. *)
Record Upload := { filename : string; sheets : list Sheet }.

(** [defineProps]: owned by the parent, read-only here. *)
Record Props := {
  activeName : string;
  activeType : string;
  activeStep : Z;
  isDataTable : bool;
  concatenateMode : bool;
}.

(** The refs of the script; [form] is the reactive form object. *)
Record State := {
  props : Props;
  isCreate : bool;
  isEditTable : bool;
  checkList : list string;
  tableList : list Sheet;
  excelUploadSuccess : bool;
  tableListLoading : bool;
  checkLoading : bool;
  saveLoading : bool;
  uploadLoading : bool;
  schemaList : list string;
  multipleFiles : list File.t;
  dialogVisible : bool;
  form : gmap string value;
  keywords : string;
  fileSize : string;
  checkAll : bool;
  isIndeterminate : bool;
  checkTableList : list string;
}.

(** One setter per ref: [set_x v s] is the state after [x.value = v]. *)
Definition set_isCreate (x : bool) (s : State) : State :=
  {| props := props s; isCreate := x; isEditTable := isEditTable s; checkList
  := checkList s; tableList := tableList s; excelUploadSuccess :=
  excelUploadSuccess s; tableListLoading := tableListLoading s; checkLoading
  := checkLoading s; saveLoading := saveLoading s; uploadLoading :=
  uploadLoading s; schemaList := schemaList s; multipleFiles := multipleFiles
  s; dialogVisible := dialogVisible s; form := form s; keywords := keywords s;
  fileSize := fileSize s; checkAll := checkAll s; isIndeterminate :=
  isIndeterminate s; checkTableList := checkTableList s |}.
Definition set_isEditTable (x : bool) (s : State) : State :=
  {| props := props s; isCreate := isCreate s; isEditTable := x; checkList :=
  checkList s; tableList := tableList s; excelUploadSuccess :=
  excelUploadSuccess s; tableListLoading := tableListLoading s; checkLoading
  := checkLoading s; saveLoading := saveLoading s; uploadLoading :=
  uploadLoading s; schemaList := schemaList s; multipleFiles := multipleFiles
  s; dialogVisible := dialogVisible s; form := form s; keywords := keywords s;
  fileSize := fileSize s; checkAll := checkAll s; isIndeterminate :=
  isIndeterminate s; checkTableList := checkTableList s |}.
Definition set_checkList (x : list string) (s : State) : State :=
  {| props := props s; isCreate := isCreate s; isEditTable := isEditTable s;
  checkList := x; tableList := tableList s; excelUploadSuccess :=
  excelUploadSuccess s; tableListLoading := tableListLoading s; checkLoading
  := checkLoading s; saveLoading := saveLoading s; uploadLoading :=
  uploadLoading s; schemaList := schemaList s; multipleFiles := multipleFiles
  s; dialogVisible := dialogVisible s; form := form s; keywords := keywords s;
  fileSize := fileSize s; checkAll := checkAll s; isIndeterminate :=
  isIndeterminate s; checkTableList := checkTableList s |}.
Definition set_tableList (x : list Sheet) (s : State) : State :=
  {| props := props s; isCreate := isCreate s; isEditTable := isEditTable s;
  checkList := checkList s; tableList := x; excelUploadSuccess :=
  excelUploadSuccess s; tableListLoading := tableListLoading s; checkLoading
  := checkLoading s; saveLoading := saveLoading s; uploadLoading :=
  uploadLoading s; schemaList := schemaList s; multipleFiles := multipleFiles
  s; dialogVisible := dialogVisible s; form := form s; keywords := keywords s;
  fileSize := fileSize s; checkAll := checkAll s; isIndeterminate :=
  isIndeterminate s; checkTableList := checkTableList s |}.
Definition set_excelUploadSuccess (x : bool) (s : State) : State :=
  {| props := props s; isCreate := isCreate s; isEditTable := isEditTable s;
  checkList := checkList s; tableList := tableList s; excelUploadSuccess := x;
  tableListLoading := tableListLoading s; checkLoading := checkLoading s;
  saveLoading := saveLoading s; uploadLoading := uploadLoading s; schemaList
  := schemaList s; multipleFiles := multipleFiles s; dialogVisible :=
  dialogVisible s; form := form s; keywords := keywords s; fileSize :=
  fileSize s; checkAll := checkAll s; isIndeterminate := isIndeterminate s;
  checkTableList := checkTableList s |}.
Definition set_tableListLoading (x : bool) (s : State) : State :=
  {| props := props s; isCreate := isCreate s; isEditTable := isEditTable s;
  checkList := checkList s; tableList := tableList s; excelUploadSuccess :=
  excelUploadSuccess s; tableListLoading := x; checkLoading := checkLoading s;
  saveLoading := saveLoading s; uploadLoading := uploadLoading s; schemaList
  := schemaList s; multipleFiles := multipleFiles s; dialogVisible :=
  dialogVisible s; form := form s; keywords := keywords s; fileSize :=
  fileSize s; checkAll := checkAll s; isIndeterminate := isIndeterminate s;
  checkTableList := checkTableList s |}.
Definition set_checkLoading (x : bool) (s : State) : State :=
  {| props := props s; isCreate := isCreate s; isEditTable := isEditTable s;
  checkList := checkList s; tableList := tableList s; excelUploadSuccess :=
  excelUploadSuccess s; tableListLoading := tableListLoading s; checkLoading
  := x; saveLoading := saveLoading s; uploadLoading := uploadLoading s;
  schemaList := schemaList s; multipleFiles := multipleFiles s; dialogVisible
  := dialogVisible s; form := form s; keywords := keywords s; fileSize :=
  fileSize s; checkAll := checkAll s; isIndeterminate := isIndeterminate s;
  checkTableList := checkTableList s |}.
Definition set_saveLoading (x : bool) (s : State) : State :=
  {| props := props s; isCreate := isCreate s; isEditTable := isEditTable s;
  checkList := checkList s; tableList := tableList s; excelUploadSuccess :=
  excelUploadSuccess s; tableListLoading := tableListLoading s; checkLoading
  := checkLoading s; saveLoading := x; uploadLoading := uploadLoading s;
  schemaList := schemaList s; multipleFiles := multipleFiles s; dialogVisible
  := dialogVisible s; form := form s; keywords := keywords s; fileSize :=
  fileSize s; checkAll := checkAll s; isIndeterminate := isIndeterminate s;
  checkTableList := checkTableList s |}.
Definition set_uploadLoading (x : bool) (s : State) : State :=
  {| props := props s; isCreate := isCreate s; isEditTable := isEditTable s;
  checkList := checkList s; tableList := tableList s; excelUploadSuccess :=
  excelUploadSuccess s; tableListLoading := tableListLoading s; checkLoading
  := checkLoading s; saveLoading := saveLoading s; uploadLoading := x;
  schemaList := schemaList s; multipleFiles := multipleFiles s; dialogVisible
  := dialogVisible s; form := form s; keywords := keywords s; fileSize :=
  fileSize s; checkAll := checkAll s; isIndeterminate := isIndeterminate s;
  checkTableList := checkTableList s |}.
Definition set_schemaList (x : list string) (s : State) : State :=
  {| props := props s; isCreate := isCreate s; isEditTable := isEditTable s;
  checkList := checkList s; tableList := tableList s; excelUploadSuccess :=
  excelUploadSuccess s; tableListLoading := tableListLoading s; checkLoading
  := checkLoading s; saveLoading := saveLoading s; uploadLoading :=
  uploadLoading s; schemaList := x; multipleFiles := multipleFiles s;
  dialogVisible := dialogVisible s; form := form s; keywords := keywords s;
  fileSize := fileSize s; checkAll := checkAll s; isIndeterminate :=
  isIndeterminate s; checkTableList := checkTableList s |}.
Definition set_multipleFiles (x : list File.t) (s : State) : State :=
  {| props := props s; isCreate := isCreate s; isEditTable := isEditTable s;
  checkList := checkList s; tableList := tableList s; excelUploadSuccess :=
  excelUploadSuccess s; tableListLoading := tableListLoading s; checkLoading
  := checkLoading s; saveLoading := saveLoading s; uploadLoading :=
  uploadLoading s; schemaList := schemaList s; multipleFiles := x;
  dialogVisible := dialogVisible s; form := form s; keywords := keywords s;
  fileSize := fileSize s; checkAll := checkAll s; isIndeterminate :=
  isIndeterminate s; checkTableList := checkTableList s |}.
Definition set_dialogVisible (x : bool) (s : State) : State :=
  {| props := props s; isCreate := isCreate s; isEditTable := isEditTable s;
  checkList := checkList s; tableList := tableList s; excelUploadSuccess :=
  excelUploadSuccess s; tableListLoading := tableListLoading s; checkLoading
  := checkLoading s; saveLoading := saveLoading s; uploadLoading :=
  uploadLoading s; schemaList := schemaList s; multipleFiles := multipleFiles
  s; dialogVisible := x; form := form s; keywords := keywords s; fileSize :=
  fileSize s; checkAll := checkAll s; isIndeterminate := isIndeterminate s;
  checkTableList := checkTableList s |}.
Definition set_form (x : gmap string value) (s : State) : State :=
  {| props := props s; isCreate := isCreate s; isEditTable := isEditTable s;
  checkList := checkList s; tableList := tableList s; excelUploadSuccess :=
  excelUploadSuccess s; tableListLoading := tableListLoading s; checkLoading
  := checkLoading s; saveLoading := saveLoading s; uploadLoading :=
  uploadLoading s; schemaList := schemaList s; multipleFiles := multipleFiles
  s; dialogVisible := dialogVisible s; form := x; keywords := keywords s;
  fileSize := fileSize s; checkAll := checkAll s; isIndeterminate :=
  isIndeterminate s; checkTableList := checkTableList s |}.
Definition set_keywords (x : string) (s : State) : State :=
  {| props := props s; isCreate := isCreate s; isEditTable := isEditTable s;
  checkList := checkList s; tableList := tableList s; excelUploadSuccess :=
  excelUploadSuccess s; tableListLoading := tableListLoading s; checkLoading
  := checkLoading s; saveLoading := saveLoading s; uploadLoading :=
  uploadLoading s; schemaList := schemaList s; multipleFiles := multipleFiles
  s; dialogVisible := dialogVisible s; form := form s; keywords := x; fileSize
  := fileSize s; checkAll := checkAll s; isIndeterminate := isIndeterminate s;
  checkTableList := checkTableList s |}.
Definition set_fileSize (x : string) (s : State) : State :=
  {| props := props s; isCreate := isCreate s; isEditTable := isEditTable s;
  checkList := checkList s; tableList := tableList s; excelUploadSuccess :=
  excelUploadSuccess s; tableListLoading := tableListLoading s; checkLoading
  := checkLoading s; saveLoading := saveLoading s; uploadLoading :=
  uploadLoading s; schemaList := schemaList s; multipleFiles := multipleFiles
  s; dialogVisible := dialogVisible s; form := form s; keywords := keywords s;
  fileSize := x; checkAll := checkAll s; isIndeterminate := isIndeterminate s;
  checkTableList := checkTableList s |}.
Definition set_checkAll (x : bool) (s : State) : State :=
  {| props := props s; isCreate := isCreate s; isEditTable := isEditTable s;
  checkList := checkList s; tableList := tableList s; excelUploadSuccess :=
  excelUploadSuccess s; tableListLoading := tableListLoading s; checkLoading
  := checkLoading s; saveLoading := saveLoading s; uploadLoading :=
  uploadLoading s; schemaList := schemaList s; multipleFiles := multipleFiles
  s; dialogVisible := dialogVisible s; form := form s; keywords := keywords s;
  fileSize := fileSize s; checkAll := x; isIndeterminate := isIndeterminate s;
  checkTableList := checkTableList s |}.
Definition set_isIndeterminate (x : bool) (s : State) : State :=
  {| props := props s; isCreate := isCreate s; isEditTable := isEditTable s;
  checkList := checkList s; tableList := tableList s; excelUploadSuccess :=
  excelUploadSuccess s; tableListLoading := tableListLoading s; checkLoading
  := checkLoading s; saveLoading := saveLoading s; uploadLoading :=
  uploadLoading s; schemaList := schemaList s; multipleFiles := multipleFiles
  s; dialogVisible := dialogVisible s; form := form s; keywords := keywords s;
  fileSize := fileSize s; checkAll := checkAll s; isIndeterminate := x;
  checkTableList := checkTableList s |}.
Definition set_checkTableList (x : list string) (s : State) : State :=
  {| props := props s; isCreate := isCreate s; isEditTable := isEditTable s;
  checkList := checkList s; tableList := tableList s; excelUploadSuccess :=
  excelUploadSuccess s; tableListLoading := tableListLoading s; checkLoading
  := checkLoading s; saveLoading := saveLoading s; uploadLoading :=
  uploadLoading s; schemaList := schemaList s; multipleFiles := multipleFiles
  s; dialogVisible := dialogVisible s; form := form s; keywords := keywords s;
  fileSize := fileSize s; checkAll := checkAll s; isIndeterminate :=
  isIndeterminate s; checkTableList := x |}.

(** ** Effects *)

(** [emit(...)]: the three events the component declares. *)
Inductive Event :=
  | changeActiveStep (n : Z)
  | close_event
  | refresh.

Inductive MessageType := success | warning | error.

(** A part of a [FormData] body. *)
Inductive FormPart :=
  | file_part (key : string) (f : File.t)
  | text_part (key : string) (v : string).

(** The requests of [datasourceApi] that the component starts. *)
Inductive Request :=
  | check_request (data : gmap string value)
  | getTablesByConf_request (data : gmap string value)
  | getSchema_request (data : gmap string value)
  | add_request (data : gmap string value)
  | update_request (data : gmap string value)
  | chooseTables_request (id : value) (tables : list value)
  | tableList_request (id : value)
  | testApiExcel_request (apiReq : value)
  | fetchExcelFromApi_request (apiReq : value)
  | concatenateExcels_request (formData : list FormPart).

(** What a handler does to the outside, in program order. *)
Inductive Effect :=
  | Emit (e : Event)
  | Message (type : MessageType) (message : string)
  | Confirm (count : nat)
  | Call (r : Request)
  | ClearValidate
  | ConsoleError (text : string).

(** The backend as the component sees it: every request either resolves with
    an answer of the shape the handler reads, or is rejected ([None]). A
    handler is run together with the callbacks it registers on the promise,
    so the answer is looked up at the point of the call. *)
Module Api.
Record t := {
  check : gmap string value → option bool;
  getTablesByConf : gmap string value → option (list Sheet);
  getSchema : gmap string value → option (list string);
  add : gmap string value → option unit;
  update : gmap string value → option unit;
  chooseTables : value → list value → option unit;
  tableList : value → option (list string);
  testApiExcel : value → option (list string);
  fetchExcelFromApi : value → option Upload;
  concatenateExcels : list FormPart → option Upload;
}.
End Api.

(** The [el-form] instance behind [dsFormRef]: [validate] checks the rules
    against the state at the time it is called. *)
Definition FormInstance : Type := State → bool.

(** ** The handler monad: state passing, a trace, and exceptions

    [None] as the result stands for a thrown exception; the state and the
    trace reached at the throw are kept. *)

Definition M (A : Type) : Type := State → option A * State * list Effect.

Definition ret {A} (a : A) : M A := λ s, (Some a, s, []).

Definition bind {A B} (m : M A) (k : A → M B) : M B := λ s,
  let r := m s in
  match r.1.1 with
  | Some a => let r' := k a r.1.2 in (r'.1.1, r'.1.2, r.2 ++ r'.2)
  | None => (None, r.1.2, r.2)
  end.

#[global] Instance M_ret : MRet M := @ret.
#[global] Instance M_bind : MBind M := λ A B k m, bind m k.

Definition get : M State := λ s, (Some s, s, []).
Definition modify (f : State → State) : M unit := λ s, (Some (), f s, []).
Definition tell (e : Effect) : M unit := λ s, (Some (), s, [e]).
Definition throw {A} : M A := λ s, (None, s, []).

(** [try { m } catch { h }] *)
Definition try_catch (m h : M unit) : M unit := λ s,
  let r := m s in
  match r.1.1 with
  | Some _ => r
  | None => let r' := h r.1.2 in (r'.1.1, r'.1.2, r.2 ++ r'.2)
  end.

(** [try { m } finally { g }] *)
Definition try_finally (m g : M unit) : M unit := λ s,
  let r := m s in
  let r' := g r.1.2 in
  (match r.1.1 with Some _ => r'.1.1 | None => None end, r'.1.2, r.2 ++ r'.2).

(** An exception that nobody awaits (a callback of a promise chain that
    throws) ends that callback and nothing else. *)
Definition unhandled (m : M unit) : M unit := try_catch m (ret ()).

(** [p.then(then_).catch(catch_).finally(finally_)] for a request that has
    settled with [answer]; a chain without [catch] has [catch_ = None]. *)
Definition settle {A} (answer : option A) (then_ : A → M unit)
    (catch_ : option (M unit)) (finally_ : M unit) : M unit :=
  let body := match answer with Some a => then_ a | None => throw end in
  unhandled
    (try_finally
       (match catch_ with Some h => try_catch body h | None => body end)
       finally_).

(** The state and the trace a handler leaves behind, and what it returns. *)
Definition exec {A} (m : M A) (s : State) : State := (m s).1.2.
Definition trace {A} (m : M A) (s : State) : list Effect := (m s).2.
Definition result {A} (m : M A) (s : State) : option A := (m s).1.1.

Definition when (b : bool) (m : M unit) : M unit := if b then m else ret ().

Definition emit (e : Event) : M unit := tell (Emit e).
Definition ElMessage (type : MessageType) (message : string) : M unit :=
  tell (Message type message).
Definition request (r : Request) : M unit := tell (Call r).

(** The i18n lookup [t(key)] is kept as its key. *)
Definition t (key : string) : string := key.

(** [form.value.k], and [form.value.k = v]. *)
Definition field (k : string) (o : gmap string value) : value :=
  default VUndef (o !! k).

Definition set_field (k : string) (v : value) : M unit :=
  modify (λ s, set_form (<[k := v]> (form s)) s).

(** [v === 'lit'] *)
Definition is_string (lit : string) (v : value) : bool :=
  match v with
  | VStr s => String.eqb s lit
  | _ => false
  end.

(** A run of [delete obj.k] statements. *)
Definition delete_all (keys : list string) (obj : gmap string value) : gmap string value :=
  foldl (λ o k, delete k o) obj keys.

(** [JSON.parse(JSON.stringify(obj))] of a plain object: a deep copy without
    the properties whose value is [undefined]. *)
Definition json_clone (obj : gmap string value) : gmap string value :=
  omap (λ v, match v with VUndef => None | _ => Some (json_norm v) end) obj.

Arguments delete_all : simpl never.
Arguments json_clone : simpl never.

(** ** Selection reconciler

    The same code in both revisions of the component. [checkTableList] is
    the durable selection, [checkList] the model of the checkbox group, which
    only shows the rows of [tableListWithSearch]. *)

Section reconciler_handlers.

Context `{!Engine}.

(** [computed]: the rows whose name contains the keyword, case-insensitively;
    all rows when there is no keyword. *)
Definition tableListWithSearch (s : State) : list Sheet :=
  if negb (truthy (VStr (keywords s))) then tableList s
  else filter (λ ele, includes (toLowerCase (keywords s)) (toLowerCase (tableName ele)))
         (tableList s).

(** The callback of [watch(keywords, ...)]. *)
Definition watch_keywords : M unit :=
  s ← get;
  let tableNameArr := tableName <$> tableListWithSearch s in
  modify (set_checkList (filter (λ ele, ele ∈ tableNameArr) (checkTableList s)));;
  s ← get;
  let checkedCount := length (checkList s) in
  modify (set_checkAll (bool_decide (checkedCount = length (tableListWithSearch s))));;
  s ← get;
  modify (set_isIndeterminate
            (bool_decide (0 < checkedCount)%nat
             && bool_decide (checkedCount < length (tableListWithSearch s))%nat)).

Definition handleCheckAllChange (val : bool) : M unit :=
  s ← get;
  modify (set_checkList
            (if val
             then new_Set ((tableName <$> tableListWithSearch s) ++ checkList s)
             else []));;
  modify (set_isIndeterminate false);;
  s ← get;
  let tableNameArr := tableName <$> tableListWithSearch s in
  modify (set_checkTableList
            (if val
             then new_Set (tableNameArr ++ checkTableList s)
             else filter (λ ele, ele ∉ tableNameArr) (checkTableList s))).

Definition handleCheckedTablesChange (value : list string) : M unit :=
  let checkedCount := length value in
  s ← get;
  modify (set_checkAll (bool_decide (checkedCount = length (tableListWithSearch s))));;
  s ← get;
  modify (set_isIndeterminate
            (bool_decide (0 < checkedCount)%nat
             && bool_decide (checkedCount < length (tableListWithSearch s))%nat));;
  s ← get;
  let tableNameArr := tableName <$> tableListWithSearch s in
  modify (set_checkTableList
            (new_Set (filter (λ ele, ele ∉ tableNameArr) (checkTableList s) ++ value))).

(** The template's bindings: the search box writes [keywords] (the watcher
    runs when the value changed), the select-all box writes [checkAll] and
    the checkbox group writes [checkList] before the change handler runs. *)
Definition setFilter (keyword : string) : M unit :=
  s ← get;
  if decide (keyword = keywords s) then ret ()
  else modify (set_keywords keyword);; watch_keywords.

Definition toggleAll (checked : bool) : M unit :=
  modify (set_checkAll checked);; handleCheckAllChange checked.

Definition toggleMany (explicit : list string) : M unit :=
  modify (set_checkList explicit);; handleCheckedTablesChange explicit.

(** The names of the rows on screen. *)
Definition visibleFiltered (s : State) : list string :=
  tableName <$> tableListWithSearch s.

Inductive SelectionOp :=
  | SetFilter (keyword : string)
  | ToggleAll (checked : bool)
  | ToggleMany (explicit : list string).

Definition step (op : SelectionOp) : M unit :=
  match op with
  | SetFilter keyword => setFilter keyword
  | ToggleAll checked => toggleAll checked
  | ToggleMany explicit => toggleMany explicit
  end.

Fixpoint run (ops : list SelectionOp) (s : State) : State :=
  match ops with
  | [] => s
  | op :: ops' => run ops' (exec (step op) s)
  end.

(** The name is on screen at no point of the run: not before it, and not
    after any of its steps. *)
Fixpoint never_visible (n : string) (ops : list SelectionOp) (s : State) : Prop :=
  (n ∉ visibleFiltered s) ∧
  (match ops with
   | [] => True
   | op :: ops' => never_visible n ops' (exec (step op) s)
   end).

(** Every list the checkbox group reports holds names that are on screen
    when it is reported. *)
Fixpoint explicit_visible (ops : list SelectionOp) (s : State) : Prop :=
  match ops with
  | [] => True
  | op :: ops' =>
      match op with
      | ToggleMany explicit => explicit ⊆ visibleFiltered s
      | _ => True
      end ∧ explicit_visible ops' (exec (step op) s)
  end.

End reconciler_handlers.
(** ** What the script imports *)

(** [./js/aes]: the encryption boundary. [decrypted] may throw. *)
Class Aes := {
  encrypted : string → string;
  decrypted : string → option string;
}.

(** The JSON object of the runtime. [JSON_parse] may throw. *)
Class Json := {
  JSON_stringify : value → string;
  JSON_parse : string → option value;
}.

(** [@/utils/utils] *)
Class Utils := {
  setSize : Z → string;
}.

(** The round trips the component relies on: what was encrypted decrypts to
    itself, what was serialised parses to its JSON copy, and neither a cipher
    text nor a JSON text is the empty string. *)
Class Lossless `{Aes, Json} : Prop := {
  decrypted_encrypted x : decrypted (encrypted x) = Some x;
  encrypted_nonempty x : encrypted x ≠ "";
  parse_stringify v : JSON_parse (JSON_stringify v) = Some (json_norm v);
  stringify_nonempty v : JSON_stringify v ≠ "";
}.

(** [String(v)], which [JSON.parse] applies to its argument. *)
Definition toString `{!Engine} (v : value) : string :=
  match v with
  | VUndef => "undefined"
  | VNull => "null"
  | _ => join_item v
  end.

(** ** Handlers that read the same in both revisions *)

Section shared.

Context `{!Engine, !Aes, !Json, !Utils}.

Definition close : M unit :=
  modify (set_dialogVisible false);;
  modify (set_isCreate true);;
  emit (changeActiveStep 0);;
  emit close_event;;
  modify (set_isEditTable false);;
  modify (set_checkList []);;
  modify (set_tableList []);;
  modify (set_excelUploadSuccess false);;
  modify (set_saveLoading false).

Definition preview : M unit :=
  s ← get;
  emit (changeActiveStep (activeStep (props s) - 1)).

Definition onSuccess (response : Upload) : M unit :=
  set_field "filename" (VStr (filename response));;
  set_field "sheets" (VArr (sheet_value <$> sheets response));;
  modify (set_tableList (sheets response));;
  modify (set_excelUploadSuccess true);;
  modify (set_uploadLoading false).

Definition setFile (file : File.t) : M unit :=
  modify (set_fileSize (setSize (File.size file))).

(** The rows of the table list that are selected, as the backend takes
    them. *)
Definition selected_tables (s : State) : list value :=
  (λ ele, VObj [("table_name", VStr (tableName ele));
                ("table_comment", VStr (tableComment ele))])
  <$> filter (λ ele, tableName ele ∈ checkTableList s) (tableList s).

(** The rows that [form.sheets] holds, for [tableList.value = form.value.sheets]. *)
Definition sheet_of_value (v : value) : Sheet :=
  {| tableName := toString (prop "tableName" v);
     tableComment := toString (prop "tableComment" v) |}.

Definition sheets_of_value (v : value) : list Sheet :=
  match v with
  | VArr l => sheet_of_value <$> l
  | _ => []
  end.

(** [rawFile.size / 1024 / 1024 > 50] *)
Definition exceeds_50mb (rawFile : File.t) : bool :=
  negb (Qle_bool (inject_Z (File.size rawFile) / 1024 / 1024) 50).

(** [for (const x of l) body(x)] *)
Fixpoint for_of (l : list value) (body : value → M unit) : M unit :=
  match l with
  | [] => ret ()
  | x :: l' => body x;; for_of l' body
  end.

(** [JSON.parse(decrypted(item.configuration))]; the configuration is then
    read property by property, which throws on [null]. *)
Definition parse_configuration (blob : value) : M value :=
  match blob with
  | VStr c =>
      match decrypted c with
      | Some text =>
          match JSON_parse text with
          | Some configuration => ret configuration
          | None => throw
          end
      | None => throw
      end
  | _ => throw
  end.

Definition readable (configuration : value) : M unit :=
  match configuration with
  | VNull | VUndef => throw
  | _ => ret ()
  end.

End shared.
(** ** The revision with the [api] data-source type *)

Module ApiForm.

Section handlers.

Context `{!Engine, !Aes, !Json, !Utils}.

(** The initial value of the [form] ref. *)
Definition form0 (activeType : string) : gmap string value :=
  list_to_map
    [("name", VStr ""); ("description", VStr ""); ("type", VStr activeType);
     ("configuration", VStr ""); ("driver", VStr ""); ("host", VStr "");
     ("port", VNum 0); ("username", VStr ""); ("password", VStr "");
     ("database", VStr ""); ("extraJdbc", VStr ""); ("dbSchema", VStr "");
     ("filename", VStr ""); ("sheets", VArr []); ("mode", VStr "service_name");
     ("timeout", VNum 30); ("originType", VStr "local");
     ("endpoint", VStr ""); ("method", VStr "POST"); ("date_m", VStr "");
     ("p_date_m", VStr ""); ("headerKey", VStr ""); ("headerValue", VStr "");
     ("cookieKey", VStr ""); ("cookieValue", VStr ""); ("paramKey", VStr "");
     ("paramValue", VStr ""); ("certificate", VStr ""); ("certificateList", VArr [])].

(** The object [initForm] resets the form to when it is called without a
    record. *)
Definition blank_form : gmap string value :=
  list_to_map
    [("name", VStr ""); ("description", VStr ""); ("type", VStr "mysql");
     ("configuration", VStr ""); ("driver", VStr ""); ("host", VStr "");
     ("port", VNum 0); ("username", VStr ""); ("password", VStr "");
     ("database", VStr ""); ("extraJdbc", VStr ""); ("dbSchema", VStr "");
     ("filename", VStr ""); ("sheets", VArr []); ("mode", VStr "service_name");
     ("timeout", VNum 30); ("originType", VStr "local")].

(** One entry of the certificate list. *)
Definition certificate_entry (target : string) (key val : value) : value :=
  VObj [("target", VStr target); ("key", key); ("value", val)].

(** The entry for one target, present when key and value are both filled
    in. *)
Definition certificate_of (target keyField valueField : string)
    (f : gmap string value) : list value :=
  if truthy (field keyField f) && truthy (field valueField f)
  then [certificate_entry target (field keyField f) (field valueField f)]
  else [].

Definition certificateList_of (f : gmap string value) : list value :=
  certificate_of "header" "headerKey" "headerValue" f
  ++ certificate_of "cookie" "cookieKey" "cookieValue" f
  ++ certificate_of "param" "paramKey" "paramValue" f.

(** The status codes: [[200, 201]] unless the field is filled in, else the
    integers between its commas. Calling [split] on anything but a string
    throws. *)
Definition successStatusCodes_of (f : gmap string value) : option (list value) :=
  let v := field "successStatusCodes" f in
  if truthy v then
    match v with
    | VStr codes => Some ((λ code, parseInt (trim code)) <$> split "," codes)
    | _ => None
    end
  else Some [VNum 200; VNum 201].

(** The two shapes of the configuration. *)
Definition api_configuration (f : gmap string value) (successStatusCodes : list value) : value :=
  VObj [("endpoint", field "endpoint" f);
        ("method", or_else (field "method" f) (VStr "POST"));
        ("requestBody", or_else (field "requestBody" f) (VStr ""));
        ("successStatusCodes", VArr successStatusCodes);
        ("certificateList", VArr (certificateList_of f));
        ("timeout", or_else (field "timeout" f) (VNum 30));
        ("originType", VStr "api")].

Definition db_configuration (f : gmap string value) : value :=
  VObj [("host", field "host" f);
        ("port", field "port" f);
        ("username", field "username" f);
        ("password", field "password" f);
        ("database", field "database" f);
        ("extraJdbc", field "extraJdbc" f);
        ("dbSchema", field "dbSchema" f);
        ("filename", field "filename" f);
        ("sheets", field "sheets" f);
        ("mode", field "mode" f);
        ("timeout", field "timeout" f);
        ("originType", or_else (field "originType" f) (VStr "local"))].

(** The properties each branch deletes from the copy of the form. *)
Definition api_deleted : list string :=
  ["endpoint"; "headerKey"; "headerValue"; "cookieKey"; "cookieValue";
   "paramKey"; "paramValue"; "timeout"; "originType";
   "driver"; "host"; "port"; "username"; "password"; "database"; "extraJdbc";
   "dbSchema"; "filename"; "sheets"; "mode"].

Definition db_deleted : list string :=
  ["driver"; "host"; "port"; "username"; "password"; "database"; "extraJdbc";
   "dbSchema"; "filename"; "sheets"; "mode"; "timeout"; "originType"].

Definition buildConf : M (gmap string value) :=
  s ← get;
  if is_string "api" (field "type" (form s)) then
    let certificateList := certificateList_of (form s) in
    successStatusCodes ←
      match successStatusCodes_of (form s) with
      | Some codes => ret codes
      | None => throw
      end;
    set_field "configuration"
      (VStr (encrypted (JSON_stringify (api_configuration (form s) successStatusCodes))));;
    set_field "certificate" (VStr (JSON_stringify (VArr certificateList)));;
    s ← get;
    let obj := json_clone (form s) in
    ret (delete_all api_deleted obj)
  else
    set_field "configuration"
      (VStr (encrypted (JSON_stringify (db_configuration (form s)))));;
    s ← get;
    let obj := json_clone (form s) in
    ret (delete_all db_deleted obj).

(** The parameters of the remote fetch and of its test. *)
Definition apiReq (f : gmap string value) : value :=
  VObj [("endpoint", field "endpoint" f);
        ("method", or_else (field "method" f) (VStr "GET"));
        ("date_m", field "date_m" f);
        ("p_date_m", field "p_date_m" f);
        ("headerKey", field "headerKey" f);
        ("headerValue", field "headerValue" f);
        ("cookieKey", field "cookieKey" f);
        ("cookieValue", field "cookieValue" f);
        ("paramKey", field "paramKey" f);
        ("paramValue", field "paramValue" f);
        ("timeout", or_else (field "timeout" f) (VNum 30));
        ("separator", VStr "_")].

Definition check (api : Api.t) : M unit :=
  s ← get;
  if is_string "api" (field "type" (form s)) then
    let apiReq := apiReq (form s) in
    request (testApiExcel_request apiReq);;
    settle (Api.testApiExcel api apiReq)
      (λ sheet_names,
         ElMessage success
           ("API联通正常，检测到" +:+ pretty (length sheet_names) +:+ "个Sheet"))
      (Some (tell (ConsoleError "Test API Excel failed:");;
             ElMessage error "API联通或文件类型校验失败"))
      (ret ())
  else
    requestObj ← buildConf;
    request (check_request requestObj);;
    settle (Api.check api requestObj)
      (λ res : bool,
         if res then ElMessage success (t "ds.form.connect.success")
         else ElMessage error (t "ds.form.connect.failed"))
      None
      (ret ()).

Definition getSchema (api : Api.t) : M unit :=
  modify (set_schemaList []);;
  requestObj ← buildConf;
  request (getSchema_request requestObj);;
  settle (Api.getSchema api requestObj)
    (λ res, s ← get; modify (set_schemaList (schemaList s ++ res)))
    None
    (ret ()).

(** The body of the loop over the side-channel certificate list. Reading a
    property of [null] throws. *)
Definition load_certificate (cert : value) : M unit :=
  match cert with
  | VNull | VUndef => throw
  | _ =>
      if is_string "header" (prop "target" cert) then
        set_field "headerKey" (prop "key" cert);;
        set_field "headerValue" (prop "value" cert)
      else if is_string "cookie" (prop "target" cert) then
        set_field "cookieKey" (prop "key" cert);;
        set_field "cookieValue" (prop "value" cert)
      else if is_string "param" (prop "target" cert) then
        set_field "paramKey" (prop "key" cert);;
        set_field "paramValue" (prop "value" cert)
      else ret ()
  end.

(** The loop itself: an array is walked, the characters of a string have no
    [target], and nothing else is iterable. *)
Definition load_certificates (certificateList : value) : M unit :=
  match certificateList with
  | VArr l => for_of l load_certificate
  | VStr _ => ret ()
  | _ => throw
  end.

Definition load_api (item : gmap string value) (configuration : value) : M unit :=
  set_field "originType" (VStr "api");;
  readable configuration;;
  set_field "endpoint" (prop "endpoint" configuration);;
  set_field "method" (or_else (prop "method" configuration) (VStr "POST"));;
  set_field "requestBody" (or_else (prop "requestBody" configuration) (VStr ""));;
  set_field "timeout"
    (if truthy (prop "timeout" configuration) then prop "timeout" configuration
     else VNum 30);;
  set_field "successStatusCodes"
    (match prop "successStatusCodes" configuration with
     | VArr codes => VStr (join "," codes)
     | _ => VStr "200,201"
     end);;
  set_field "certificateList" (or_else (prop "certificateList" configuration) (VArr []));;
  when (truthy (field "certificate" item))
    (try_catch
       (match JSON_parse (toString (field "certificate" item)) with
        | Some certificateList => load_certificates certificateList
        | None => throw
        end)
       (tell (ConsoleError "解析certificate失败"))).

Definition load_db (configuration : value) : M unit :=
  readable configuration;;
  set_field "host" (prop "host" configuration);;
  set_field "port" (prop "port" configuration);;
  set_field "username" (prop "username" configuration);;
  set_field "password" (prop "password" configuration);;
  set_field "database" (prop "database" configuration);;
  set_field "extraJdbc" (prop "extraJdbc" configuration);;
  set_field "dbSchema" (prop "dbSchema" configuration);;
  set_field "filename" (prop "filename" configuration);;
  set_field "sheets" (prop "sheets" configuration);;
  set_field "mode" (prop "mode" configuration);;
  set_field "timeout"
    (if truthy (prop "timeout" configuration) then prop "timeout" configuration
     else VNum 30);;
  set_field "originType" (or_else (prop "originType" configuration) (VStr "local")).

(** The part of [initForm] that runs before it returns. *)
Definition initForm_sync (item : option (gmap string value)) (editTable : bool) : M unit :=
  modify (set_isEditTable false);;
  modify (set_keywords "");;
  tell ClearValidate;;
  match item with
  | Some item =>
      modify (set_isCreate false);;
      set_field "id" (field "id" item);;
      set_field "name" (field "name" item);;
      set_field "description" (field "description" item);;
      set_field "type" (field "type" item);;
      set_field "configuration" (field "configuration" item);;
      when (truthy (field "configuration" item))
        (configuration ← parse_configuration (field "configuration" item);
         if is_string "api" (field "type" item)
         then load_api item configuration
         else load_db configuration);;
      when editTable (request (tableList_request (field "id" item)))
  | None =>
      modify (set_isCreate true);;
      modify (set_isEditTable false);;
      modify (set_checkList []);;
      modify (set_tableList []);;
      modify (set_form blank_form)
  end;;
  modify (set_dialogVisible true).

(** What the callbacks of the table-list request do once it has settled. *)
Definition initForm_tableList (api : Api.t) (item : gmap string value) : M unit :=
  settle (Api.tableList api (field "id" item))
    (λ res,
       modify (set_checkList res);;
       if is_string "excel" (field "type" item) then
         s ← get;
         modify (set_tableList (sheets_of_value (field "sheets" (form s))));;
         s ← get;
         handleCheckedTablesChange (checkList s)
       else
         modify (set_tableListLoading true);;
         requestObj ← buildConf;
         request (getTablesByConf_request requestObj);;
         settle (Api.getTablesByConf api requestObj)
           (λ table,
              modify (set_tableList table);;
              s ← get;
              modify (set_checkList
                        (filter (λ ele, ele ∈ tableName <$> table) (checkList s)));;
              s ← get;
              handleCheckedTablesChange (checkList s))
           None
           (modify (set_tableListLoading false)))
    None
    (ret ()).

(** [initForm]: the synchronous part, the watcher of [keywords] if the
    keyword was not empty, then the callbacks of the request it started. *)
Definition initForm (api : Api.t) (item : option (gmap string value))
    (editTable : bool) : M unit :=
  s ← get;
  try_finally (initForm_sync item editTable)
    (when (negb (String.eqb (keywords s) "")) watch_keywords);;
  match item with
  | Some item => when editTable (initForm_tableList api item)
  | None => ret ()
  end.

Definition save (api : Api.t) (formEl : option FormInstance) (confirmed : bool) : M unit :=
  match formEl with
  | None => ret ()
  | Some validate =>
      s ← get;
      when (validate s)
        (let list := selected_tables s in
         proceed ←
           (if bool_decide (30 < length (checkTableList s))%nat
            then tell (Confirm (length (checkTableList s)));; ret confirmed
            else ret true);
         when proceed
           (modify (set_saveLoading true);;
            requestObj ← buildConf;
            s ← get;
            if truthy (field "id" (form s)) then
              if negb (isEditTable s) then
                request (update_request requestObj);;
                settle (Api.update api requestObj)
                  (λ _, close;; emit refresh)
                  None
                  (modify (set_saveLoading false))
              else
                request (chooseTables_request (field "id" (form s)) list);;
                settle (Api.chooseTables api (field "id" (form s)) list)
                  (λ _, close;; emit refresh)
                  None
                  (modify (set_saveLoading false))
            else
              let requestObj := <["tables" := VArr list]> requestObj in
              request (add_request requestObj);;
              settle (Api.add api requestObj)
                (λ _, close;; emit refresh)
                None
                (modify (set_saveLoading false))))
  end.

Definition next (api : Api.t) (formEl : option FormInstance) : M unit :=
  match formEl with
  | None => ret ()
  | Some validate =>
      s ← get;
      when (validate s)
        (if is_string "excel" (field "type" (form s)) then
           when (excelUploadSuccess s)
             (emit (changeActiveStep (activeStep (props s) + 1)))
         else if is_string "api" (field "type" (form s)) then
           if uploadLoading s then ret ()
           else
             modify (set_uploadLoading true);;
             let apiReq := apiReq (form s) in
             request (fetchExcelFromApi_request apiReq);;
             settle (Api.fetchExcelFromApi api apiReq)
               (λ data,
                  set_field "filename" (VStr (filename data));;
                  set_field "sheets" (VArr (sheet_value <$> sheets data));;
                  modify (set_tableList (sheets data));;
                  modify (set_excelUploadSuccess true);;
                  set_field "type" (VStr "excel");;
                  set_field "originType" (VStr "api");;
                  s ← get;
                  emit (changeActiveStep (activeStep (props s) + 1)))
               (Some (tell (ConsoleError "Fetch Excel from API failed:");;
                      ElMessage error "通过API获取Excel失败"))
               (modify (set_uploadLoading false))
         else
           if checkLoading s then ret ()
           else
             requestObj ← buildConf;
             modify (set_checkLoading true);;
             request (check_request requestObj);;
             settle (Api.check api requestObj)
               (λ res : bool,
                  if res then
                    s ← get;
                    emit (changeActiveStep (activeStep (props s) + 1));;
                    request (getTablesByConf_request requestObj);;
                    settle (Api.getTablesByConf api requestObj)
                      (λ res, modify (set_tableList res))
                      None
                      (ret ())
                  else ElMessage error (t "ds.form.connect.failed"))
               None
               (modify (set_checkLoading false)))
  end.

Definition beforeUpload (rawFile : File.t) : M bool :=
  setFile rawFile;;
  if exceeds_50mb rawFile then
    ElMessage error (t "common.not_exceed_50mb");;
    ret false
  else
    modify (set_uploadLoading true);;
    ret true.

Definition onError : M unit :=
  modify (set_uploadLoading false);;
  tell (ConsoleError "Upload error:").

(** The watcher of [props.activeType]. *)
Definition watch_activeType (val : string) : M unit :=
  set_field "type" (VStr val).

Definition clearFile : M unit :=
  modify (set_fileSize "");;
  set_field "filename" (VStr "");;
  set_field "sheets" (VArr []);;
  modify (set_tableList []).

Definition tableListSave (api : Api.t) (dsFormRef : option FormInstance)
    (confirmed : bool) : M unit :=
  save api dsFormRef confirmed.

End handlers.

End ApiForm.
(** ** The revision with the vertical-merge ("concatenate") mode *)

Module ConcatForm.

Section handlers.

Context `{!Engine, !Aes, !Json, !Utils}.

(** The initial value of the [form] ref, and the object [initForm] resets
    the form to. *)
Definition form0 (activeType : string) : gmap string value :=
  list_to_map
    [("name", VStr ""); ("description", VStr ""); ("type", VStr activeType);
     ("configuration", VStr ""); ("driver", VStr ""); ("host", VStr "");
     ("port", VNum 0); ("username", VStr ""); ("password", VStr "");
     ("database", VStr ""); ("extraJdbc", VStr ""); ("dbSchema", VStr "");
     ("filename", VStr ""); ("sheets", VArr []); ("mode", VStr "service_name");
     ("timeout", VNum 30)].

Definition blank_form : gmap string value := form0 "mysql".

Definition handleMultipleFileChange (fileList : list (option File.t)) : M unit :=
  let newFiles := omap id fileList in
  modify (set_multipleFiles newFiles).

Definition removeFile (index : nat) : M unit :=
  s ← get;
  modify (set_multipleFiles (take index (multipleFiles s) ++ drop (S index) (multipleFiles s))).

Definition db_configuration (f : gmap string value) : value :=
  VObj [("host", field "host" f);
        ("port", field "port" f);
        ("username", field "username" f);
        ("password", field "password" f);
        ("database", field "database" f);
        ("extraJdbc", field "extraJdbc" f);
        ("dbSchema", field "dbSchema" f);
        ("filename", field "filename" f);
        ("sheets", field "sheets" f);
        ("mode", field "mode" f);
        ("timeout", field "timeout" f)].

Definition db_deleted : list string :=
  ["driver"; "host"; "port"; "username"; "password"; "database"; "extraJdbc";
   "dbSchema"; "filename"; "sheets"; "mode"; "timeout"].

Definition buildConf : M (gmap string value) :=
  s ← get;
  set_field "configuration"
    (VStr (encrypted (JSON_stringify (db_configuration (form s)))));;
  s ← get;
  let obj := json_clone (form s) in
  ret (delete_all db_deleted obj).

Definition load_db (configuration : value) : M unit :=
  readable configuration;;
  set_field "host" (prop "host" configuration);;
  set_field "port" (prop "port" configuration);;
  set_field "username" (prop "username" configuration);;
  set_field "password" (prop "password" configuration);;
  set_field "database" (prop "database" configuration);;
  set_field "extraJdbc" (prop "extraJdbc" configuration);;
  set_field "dbSchema" (prop "dbSchema" configuration);;
  set_field "filename" (prop "filename" configuration);;
  set_field "sheets" (prop "sheets" configuration);;
  set_field "mode" (prop "mode" configuration);;
  set_field "timeout"
    (if truthy (prop "timeout" configuration) then prop "timeout" configuration
     else VNum 30).

Definition initForm_sync (item : option (gmap string value)) (editTable : bool) : M unit :=
  modify (set_isEditTable false);;
  modify (set_keywords "");;
  tell ClearValidate;;
  match item with
  | Some item =>
      modify (set_isCreate false);;
      set_field "id" (field "id" item);;
      set_field "name" (field "name" item);;
      set_field "description" (field "description" item);;
      set_field "type" (field "type" item);;
      set_field "configuration" (field "configuration" item);;
      when (truthy (field "configuration" item))
        (configuration ← parse_configuration (field "configuration" item);
         load_db configuration);;
      when editTable
        (emit (changeActiveStep 2);;
         modify (set_isEditTable true);;
         modify (set_isCreate false);;
         request (tableList_request (field "id" item)))
  | None =>
      modify (set_isCreate true);;
      modify (set_isEditTable false);;
      modify (set_checkList []);;
      modify (set_tableList []);;
      modify (set_form blank_form)
  end;;
  modify (set_dialogVisible true).

Definition initForm_tableList (api : Api.t) (item : gmap string value) : M unit :=
  settle (Api.tableList api (field "id" item))
    (λ res,
       modify (set_checkList res);;
       if is_string "excel" (field "type" item) then
         s ← get;
         modify (set_tableList (sheets_of_value (field "sheets" (form s))));;
         s ← get;
         handleCheckedTablesChange (checkList s)
       else
         modify (set_tableListLoading true);;
         requestObj ← buildConf;
         request (getTablesByConf_request requestObj);;
         settle (Api.getTablesByConf api requestObj)
           (λ table,
              modify (set_tableList table);;
              s ← get;
              modify (set_checkList
                        (filter (λ ele, ele ∈ tableName <$> table) (checkList s)));;
              s ← get;
              handleCheckedTablesChange (checkList s))
           None
           (modify (set_tableListLoading false)))
    None
    (ret ()).

Definition initForm (api : Api.t) (item : option (gmap string value))
    (editTable : bool) : M unit :=
  s ← get;
  try_finally (initForm_sync item editTable)
    (when (negb (String.eqb (keywords s) "")) watch_keywords);;
  match item with
  | Some item => when editTable (initForm_tableList api item)
  | None => ret ()
  end.

(** The body of the merge request: the files, the separator, the column of
    the primary key. *)
Definition merge_formData (files : list File.t) : list FormPart :=
  (file_part "files" <$> files)
  ++ [text_part "separator" "_"; text_part "primary_key_col" "0"].

Definition table_of_sheet (sheet : Sheet) : value :=
  VObj [("table_name", VStr (tableName sheet));
        ("table_comment", VStr (tableComment sheet))].

Definition save (api : Api.t) (formEl : option FormInstance) (confirmed : bool) : M unit :=
  match formEl with
  | None => ret ()
  | Some validate =>
      s ← get;
      if concatenateMode (props s) then
        if bool_decide (length (multipleFiles s) < 2)%nat then
          ElMessage warning "请至少选择两个文件进行合并"
        else
          when (validate s)
            (modify (set_saveLoading true);;
             try_finally
               (try_catch
                  (s ← get;
                   let formData := merge_formData (multipleFiles s) in
                   request (concatenateExcels_request formData);;
                   response ←
                     match Api.concatenateExcels api formData with
                     | Some response => ret response
                     | None => throw
                     end;
                   set_field "filename" (VStr (filename response));;
                   set_field "sheets" (VArr (sheet_value <$> sheets response));;
                   let list := table_of_sheet <$> sheets response in
                   requestObj ← buildConf;
                   let requestObj := <["tables" := VArr list]> requestObj in
                   request (add_request requestObj);;
                   match Api.add api requestObj with
                   | Some _ => ret ()
                   | None => throw
                   end;;
                   ElMessage success "纵向合并数据源创建成功！";;
                   emit refresh)
                  (tell (ConsoleError "创建纵向合并数据源失败:");;
                   ElMessage error "创建纵向合并数据源失败，请检查文件格式"))
               (modify (set_saveLoading false)))
      else
        when (validate s)
          (let list := selected_tables s in
           proceed ←
             (if bool_decide (30 < length (checkTableList s))%nat
              then tell (Confirm (length (checkTableList s)));; ret confirmed
              else ret true);
           when proceed
             (modify (set_saveLoading true);;
              requestObj ← buildConf;
              s ← get;
              if truthy (field "id" (form s)) then
                if negb (isEditTable s) then
                  request (update_request requestObj);;
                  settle (Api.update api requestObj)
                    (λ _, close;; emit refresh)
                    None
                    (modify (set_saveLoading false))
                else
                  request (chooseTables_request (field "id" (form s)) list);;
                  settle (Api.chooseTables api (field "id" (form s)) list)
                    (λ _, close;; emit refresh)
                    None
                    (modify (set_saveLoading false))
              else
                let requestObj := <["tables" := VArr list]> requestObj in
                request (add_request requestObj);;
                settle (Api.add api requestObj)
                  (λ _, close;; emit refresh)
                  None
                  (modify (set_saveLoading false))))
  end.

Definition check (api : Api.t) : M unit :=
  requestObj ← buildConf;
  request (check_request requestObj);;
  settle (Api.check api requestObj)
    (λ res : bool,
       if res then ElMessage success (t "ds.form.connect.success")
       else ElMessage error (t "ds.form.connect.failed"))
    None
    (ret ()).

Definition getSchema (api : Api.t) : M unit :=
  modify (set_schemaList []);;
  requestObj ← buildConf;
  request (getSchema_request requestObj);;
  settle (Api.getSchema api requestObj)
    (λ res, s ← get; modify (set_schemaList (schemaList s ++ res)))
    None
    (ret ()).

(** [!form.value.name || form.value.name.trim() === ''], which throws when
    the name is neither empty nor a string. *)
Definition name_missing (f : gmap string value) : option bool :=
  let v := field "name" f in
  if negb (truthy v) then Some true
  else match v with
       | VStr n => Some (String.eqb (trim n) "")
       | _ => None
       end.

Definition next (api : Api.t) (formEl : option FormInstance) : M unit :=
  match formEl with
  | None => ret ()
  | Some validate =>
      s ← get;
      if concatenateMode (props s) then
        if bool_decide (2 ≤ length (multipleFiles s))%nat then
          missing ←
            match name_missing (form s) with
            | Some b => ret b
            | None => throw
            end;
          if missing : bool then ElMessage warning "请输入数据源名称"
          else
            let formData := merge_formData (multipleFiles s) in
            try_catch
              (request (concatenateExcels_request formData);;
               response ←
                 match Api.concatenateExcels api formData with
                 | Some response => ret response
                 | None => throw
                 end;
               set_field "filename" (VStr (filename response));;
               set_field "sheets" (VArr (sheet_value <$> sheets response));;
               modify (set_tableList (sheets response));;
               modify (set_excelUploadSuccess true);;
               modify (set_checkList (tableName <$> sheets response));;
               save api formEl false)
              (ElMessage error "文件合并失败，请检查文件格式和内容";;
               tell (ConsoleError "文件合并错误:"))
        else ElMessage warning "请至少选择两个文件进行合并"
      else
        when (validate s)
          (if is_string "excel" (field "type" (form s)) then
             when (excelUploadSuccess s)
               (emit (changeActiveStep (activeStep (props s) + 1)))
           else
             if checkLoading s then ret ()
             else
               requestObj ← buildConf;
               modify (set_checkLoading true);;
               request (check_request requestObj);;
               settle (Api.check api requestObj)
                 (λ res : bool,
                    if res then
                      s ← get;
                      emit (changeActiveStep (activeStep (props s) + 1));;
                      request (getTablesByConf_request requestObj);;
                      settle (Api.getTablesByConf api requestObj)
                        (λ res, modify (set_tableList res))
                        None
                        (ret ())
                    else ElMessage error (t "ds.form.connect.failed"))
                 None
                 (modify (set_checkLoading false)))
  end.

Definition beforeUpload (rawFile : File.t) : M bool :=
  setFile rawFile;;
  if exceeds_50mb rawFile then
    ElMessage error (t "common.not_exceed_50mb");;
    ret false
  else
    modify (set_uploadLoading true);;
    ret true.

Definition onError : M unit :=
  modify (set_uploadLoading false).

(** The watchers of [props.activeType] and [props.concatenateMode]; the
    placeholder lets the [sheets] rule pass. *)
Definition watch_activeType (val : string) : M unit :=
  set_field "type" (VStr val);;
  s ← get;
  when (concatenateMode (props s) && String.eqb val "excel")
    (set_field "sheets" (VArr [VStr "placeholder"])).

Definition watch_concatenateMode (isConcatenate : bool) : M unit :=
  s ← get;
  if isConcatenate && is_string "excel" (field "type" (form s))
  then set_field "sheets" (VArr [VStr "placeholder"])
  else when (negb isConcatenate) (set_field "sheets" (VArr [])).

Definition clearFile : M unit :=
  modify (set_fileSize "");;
  set_field "filename" (VStr "");;
  s ← get;
  (if concatenateMode (props s) && is_string "excel" (field "type" (form s))
   then set_field "sheets" (VArr [VStr "placeholder"])
   else set_field "sheets" (VArr []));;
  modify (set_tableList []).

Definition tableListSave (api : Api.t) (dsFormRef : option FormInstance)
    (confirmed : bool) : M unit :=
  save api dsFormRef confirmed.

End handlers.

End ConcatForm.

(** ** The drawer around the form

    The component that renders the form of the revision with the
    concatenate mode: it owns the step, the chosen type and the mode, hands
    them to the form as props and listens to its three events. *)

Module Drawer.

Record t := {
  datasourceConfigVisible : bool;
  activeStep : Z;
  currentType : value;
  editDatasource : bool;
  concatenateMode : bool;
  activeName : string;
  activeType : string;
}.

(** What the drawer does to the outside: [datasourceApi.cancelRequests()],
    [emits('search')], and the call of the form's [initForm] on the next
    tick. *)
Inductive Out :=
  | cancelRequests
  | search
  | initForm (res : gmap string value).

Definition initial : t :=
  {| datasourceConfigVisible := false; activeStep := 0; currentType := VStr "";
     editDatasource := false; concatenateMode := false; activeName := "";
     activeType := "" |}.

Definition beforeClose (d : t) : t * list Out :=
  ({| datasourceConfigVisible := false; activeStep := 0;
      currentType := currentType d; editDatasource := editDatasource d;
      concatenateMode := false; activeName := activeName d;
      activeType := activeType d |},
   [cancelRequests]).

Definition clickDatasource (name type : string) (d : t) : t * list Out :=
  ({| datasourceConfigVisible := datasourceConfigVisible d; activeStep := 1;
      currentType := currentType d; editDatasource := editDatasource d;
      concatenateMode := concatenateMode d; activeName := name;
      activeType := type |},
   []).

Definition refresh (d : t) : t * list Out :=
  ({| datasourceConfigVisible := false; activeStep := 0;
      currentType := currentType d; editDatasource := editDatasource d;
      concatenateMode := concatenateMode d; activeName := "";
      activeType := "" |},
   [search]).

Definition handleEditDatasource (res : gmap string value) (d : t) : t * list Out :=
  ({| datasourceConfigVisible := true; activeStep := 1;
      currentType := field "type_name" res; editDatasource := true;
      concatenateMode := concatenateMode d; activeName := activeName d;
      activeType := activeType d |},
   [initForm res]).

Definition handleAddDatasource (d : t) : t * list Out :=
  ({| datasourceConfigVisible := true; activeStep := activeStep d;
      currentType := currentType d; editDatasource := false;
      concatenateMode := false; activeName := activeName d;
      activeType := activeType d |},
   []).

Definition handleConcatenateDatasource (d : t) : t * list Out :=
  ({| datasourceConfigVisible := true; activeStep := 1;
      currentType := currentType d; editDatasource := false;
      concatenateMode := true; activeName := "纵向合并 Excel/CSV";
      activeType := "excel" |},
   []).

Definition changeActiveStep (val : Z) (d : t) : t * list Out :=
  ({| datasourceConfigVisible := datasourceConfigVisible d;
      activeStep := if 2 <? val then 2 else val;
      currentType := currentType d; editDatasource := editDatasource d;
      concatenateMode := concatenateMode d; activeName := activeName d;
      activeType := activeType d |},
   []).

(** The two [v-if] of the template: the list of types, and the form. *)
Definition list_shown (d : t) : bool :=
  (activeStep d =? 0) && negb (concatenateMode d).

Definition form_shown (d : t) : bool :=
  concatenateMode d || bool_decide (activeStep d ∈ [1; 2]).

End Drawer.

(** The props the drawer binds on the form. *)
Definition props_of (d : Drawer.t) : Props :=
  {| activeName := Drawer.activeName d; activeType := Drawer.activeType d;
     activeStep := Drawer.activeStep d; isDataTable := false;
     concatenateMode := Drawer.concatenateMode d |}.

(** The listeners the drawer binds on the form: [@refresh], [@close] and
    [@change-active-step]. *)
Definition on_event (e : Event) (d : Drawer.t) : Drawer.t * list Drawer.Out :=
  match e with
  | changeActiveStep val => Drawer.changeActiveStep val d
  | close_event => Drawer.beforeClose d
  | refresh => Drawer.refresh d
  end.

(** The drawer after the events of a trace, in the order they were
    emitted. *)
Definition on_trace (tr : list Effect) (d : Drawer.t) : Drawer.t * list Drawer.Out :=
  foldl (λ acc e,
           match e with
           | Emit ev => ((on_event ev acc.1).1, acc.2 ++ (on_event ev acc.1).2)
           | _ => acc
           end) (d, []) tr.

(** The buttons of the form's footer, the condition under which each is
    shown, and the handler it calls. *)
Inductive Button :=
  | cancel_button
  | preview_button
  | next_button (dsFormRef : option FormInstance)
  | save_button (dsFormRef : option FormInstance) (confirmed : bool).

Definition button_shown (b : Button) (s : State) : bool :=
  match b with
  | cancel_button => true
  | preview_button => negb (activeStep (props s) =? 0) && isCreate s
  | next_button _ => (activeStep (props s) =? 1) && isCreate s
  | save_button _ _ => (activeStep (props s) =? 2) || negb (isCreate s)
  end.
(** ** Concrete states used by the examples *)

Definition props0 : Props :=
  {| activeName := ""; activeType := ""; activeStep := 0; isDataTable := false;
     concatenateMode := false |}.

(** The component as it is mounted: every ref at its initial value. *)
Definition mounted (p : Props) (f : gmap string value) : State :=
  {| props := p; isCreate := true; isEditTable := false; checkList := [];
     tableList := []; excelUploadSuccess := false; tableListLoading := false;
     checkLoading := false; saveLoading := false; uploadLoading := false;
     schemaList := []; multipleFiles := []; dialogVisible := false; form := f;
     keywords := ""; fileSize := "-"; checkAll := false; isIndeterminate := false;
     checkTableList := [] |}.

Definition sel0 (tl : list Sheet) (ctl : list string) : State :=
  set_checkTableList ctl (set_tableList tl (mounted props0 ∅)).

Definition row (n : string) : Sheet := {| tableName := n; tableComment := "" |}.

(** Three tables A = a1, B = Ab, C = b1, with A and C selected: the keyword
    "a" shows A and B, the keyword "B" shows B and C. *)
Definition abc : State := sel0 [row "a1"; row "Ab"; row "b1"] ["a1"; "b1"].

(** Five tables, two of them selected. *)
Definition five : State :=
  sel0 [row "orders"; row "ORDER_ITEMS"; row "users"; row "order_log"; row "items"]
       ["orders"; "users"].

(** ** An implementation of the imports

    The properties below that assume the round trips of [Lossless] are
    applied to this implementation: a cipher that marks its text, and a
    serialiser that writes the binary code of the tree of a value. *)

Definition marked_encrypted (x : string) : string := String "#" x.

Definition marked_decrypted (c : string) : option string :=
  match c with
  | String "#" x => Some x
  | _ => None
  end.

Definition marked_aes : Aes :=
  {| encrypted := marked_encrypted; decrypted := marked_decrypted |}.

(** A value as a tree with integers and strings at the leaves. *)
Fixpoint to_tree (v : value) : gen_tree (Z + string) :=
  match v with
  | VUndef => GenNode 0 []
  | VNull => GenNode 1 []
  | VBool true => GenNode 2 []
  | VBool false => GenNode 3 []
  | VNaN => GenNode 4 []
  | VNum n => GenLeaf (inl n)
  | VStr s => GenLeaf (inr s)
  | VArr l => GenNode 5 (map to_tree l)
  | VObj o =>
      GenNode 6 ((fix go (o : list (string * value)) :=
                    match o with
                    | [] => []
                    | (k, x) :: o' => GenLeaf (inr k) :: to_tree x :: go o'
                    end) o)
  end.

Fixpoint of_tree (t : gen_tree (Z + string)) : value :=
  match t with
  | GenLeaf (inl n) => VNum n
  | GenLeaf (inr s) => VStr s
  | GenNode 0 _ => VUndef
  | GenNode 1 _ => VNull
  | GenNode 2 _ => VBool true
  | GenNode 3 _ => VBool false
  | GenNode 4 _ => VNaN
  | GenNode 5 ts => VArr (map of_tree ts)
  | GenNode _ ts =>
      VObj ((fix go (ts : list (gen_tree (Z + string))) :=
               match ts with
               | GenLeaf (inr k) :: x :: ts' => (k, of_tree x) :: go ts'
               | _ => []
               end) ts)
  end.

(** A positive number as the text of its binary digits, lowest first. *)
Fixpoint bits_of_pos (p : positive) : string :=
  match p with
  | xH => ""
  | xO p' => String "0" (bits_of_pos p')
  | xI p' => String "1" (bits_of_pos p')
  end.

Fixpoint pos_of_bits (s : string) : option positive :=
  match s with
  | EmptyString => Some xH
  | String "0" s' => xO <$> pos_of_bits s'
  | String "1" s' => xI <$> pos_of_bits s'
  | String _ _ => None
  end.

Definition tree_stringify (v : value) : string :=
  String "J" (bits_of_pos (encode (to_tree (json_norm v)))).

Definition tree_parse (s : string) : option value :=
  match s with
  | String "J" bits => of_tree <$> (pos_of_bits bits ≫= decode)
  | _ => None
  end.

Definition tree_json : Json :=
  {| JSON_stringify := tree_stringify; JSON_parse := tree_parse |}.

Definition plain_utils : Utils :=
  {| setSize := λ n, pretty n +:+ " B" |}.

(** An engine for the examples. On what the examples use, names and
    keywords of ASCII and safe integers, it is the engine of JavaScript.
    Beyond that it is merely some engine: it leaves every byte that is not
    of ASCII alone, and it keeps an integer beyond the safe ones and prints
    it digit by digit, which JavaScript does not. *)
Definition ascii_engine : Engine :=
  {| toLowerCase := ascii_lower;
     toLowerCase_ascii := λ _ _, eq_refl;
     toNumber := VNum;
     Number_toString := pretty |}.

(** ** Forms used by the examples *)

Definition configure (type : string) : Props :=
  {| activeName := type; activeType := type; activeStep := 1; isDataTable := false;
     concatenateMode := false |}.

Definition fill (fields : list (string * value)) (f : gmap string value) : gmap string value :=
  foldl (λ f kv, <[kv.1 := kv.2]> f) f fields.

(** A MySQL source on the second step, as typed in by the user. *)
Definition mysql_form : gmap string value :=
  fill [("name", VStr "sales"); ("host", VStr "db.internal"); ("port", VNum 3306);
        ("username", VStr "reporting"); ("password", VStr "hunter2");
        ("database", VStr "sales")]
       (ApiForm.form0 "mysql").

Definition mysql_state : State := mounted (configure "mysql") mysql_form.

(** An API source with a header credential. *)
Definition api_form : gmap string value :=
  fill [("name", VStr "orders"); ("endpoint", VStr "https://erp.example.org/export");
        ("headerKey", VStr "Authorization"); ("headerValue", VStr "Bearer s3cret")]
       (ApiForm.form0 "api").

Definition api_state : State := mounted (configure "api") api_form.

Definition always_valid : FormInstance := λ _, true.

(** A backend that answers every request. *)
Definition backend : Api.t :=
  {| Api.check := λ _, Some true;
     Api.getTablesByConf := λ _, Some [row "orders"; row "customers"];
     Api.getSchema := λ _, Some ["public"];
     Api.add := λ _, Some ();
     Api.update := λ _, Some ();
     Api.chooseTables := λ _ _, Some ();
     Api.tableList := λ _, Some ["orders"];
     Api.testApiExcel := λ _, Some ["Sheet1"];
     Api.fetchExcelFromApi := λ _, Some {| filename := "orders.xlsx"; sheets := [row "Sheet1"] |};
     Api.concatenateExcels := λ _, Some {| filename := "merged.xlsx"; sheets := [row "merged"] |} |}.

(** The same backend with a database that cannot be reached. *)
Definition backend_down : Api.t :=
  {| Api.check := λ _, Some false;
     Api.getTablesByConf := λ _, None;
     Api.getSchema := λ _, None;
     Api.add := λ _, None;
     Api.update := λ _, None;
     Api.chooseTables := λ _ _, None;
     Api.tableList := λ _, None;
     Api.testApiExcel := λ _, None;
     Api.fetchExcelFromApi := λ _, None;
     Api.concatenateExcels := λ _, None |}.

(** ** The field names the claims group by data-source type *)

Definition relational_only : list string :=
  ["host"; "port"; "database"; "username"; "password"; "extraJdbc"; "dbSchema";
   "filename"; "sheets"; "mode"; "driver"].

Definition api_only : list string :=
  ["endpoint"; "method"; "headerKey"; "headerValue"; "cookieKey"; "cookieValue";
   "paramKey"; "paramValue"; "certificate"; "certificateList"].

(** The form fields that hold the api credentials. *)
Definition api_auth_fields : list string :=
  ["headerKey"; "headerValue"; "cookieKey"; "cookieValue"; "paramKey"; "paramValue"].

(** Files of 51 and of 49 times [1024 * 1024] bytes. *)
Definition file_51mb : File.t := {| File.name := "big.xlsx"; File.size := 51 * 1024 * 1024 |}.
Definition file_49mb : File.t := {| File.name := "ok.xlsx"; File.size := 49 * 1024 * 1024 |}.

Definition excel_state : State := mounted (configure "excel") (ApiForm.form0 "excel").

(** The requests a trace starts. *)
Definition calls (tr : list Effect) : list Request :=
  omap (λ e, match e with Call r => Some r | _ => None end) tr.

(** The boxes shown as checked are the selected names that are on screen. *)
Definition rendered_consistent `{!Engine} (s : State) : Prop :=
  ∀ n, n ∈ checkList s ↔ n ∈ checkTableList s ∧ n ∈ visibleFiltered s.

(** The names [t0], [t1], ... and a source with 31 tables, all selected. *)
Definition numbered (n : nat) : list string := (λ i, "t" +:+ pretty i) <$> seq 0 n.

Definition crowded : State :=
  set_checkTableList (numbered 31) (set_tableList (row <$> numbered 31) mysql_state).

(** The concatenate mode with files picked and a name typed in. *)
Definition concatenate : Props :=
  {| activeName := "纵向合并 Excel/CSV"; activeType := "excel"; activeStep := 1;
     isDataTable := false; concatenateMode := true |}.

Definition two_files : list File.t :=
  [{| File.name := "jan.xlsx"; File.size := 1024 |};
   {| File.name := "feb.xlsx"; File.size := 2048 |}].

Definition concat_state (name : string) (files : list File.t) : State :=
  set_multipleFiles files
    (mounted concatenate
       (fill [("name", VStr name); ("sheets", VArr [VStr "placeholder"])]
          (ConcatForm.form0 "excel"))).

(** The events of a trace that change the step. *)
Definition step_changes (tr : list Effect) : list Z :=
  omap (λ e, match e with Emit (changeActiveStep n) => Some n | _ => None end) tr.

(** ** The states the step controller leaves behind *)

(** The state [next] leaves when the fetch from the API has answered. *)
Definition fetched (data : Upload) (s : State) : State :=
  set_uploadLoading false
    (set_form
       (<["originType" := VStr "api"]>
          (<["type" := VStr "excel"]>
             (<["sheets" := VArr (sheet_value <$> sheets data)]>
                (<["filename" := VStr (filename data)]> (form s)))))
       (set_excelUploadSuccess true
          (set_tableList (sheets data) (set_uploadLoading true s)))).

(** The state and the trace after the connectivity check has answered. *)
Definition checked (api : Api.t) (obj : gmap string value) (s : State)
    : State * list Effect :=
  match Api.check api obj with
  | Some true =>
      (match Api.getTablesByConf api obj with
       | Some res => set_tableList res s
       | None => s
       end,
       [Emit (changeActiveStep (activeStep (props s) + 1));
        Call (getTablesByConf_request obj)])
  | Some false => (s, [Message error (t "ds.form.connect.failed")])
  | None => (s, [])
  end.

(** The state in which [next] hands over to [save] in the concatenate
    mode: the merged file is in the form and in the table list, and its
    sheets are checked. *)
Definition merged (response : Upload) (s : State) : State :=
  set_checkList (tableName <$> sheets response)
    (set_excelUploadSuccess true
       (set_tableList (sheets response)
          (set_form (<["sheets" := VArr (sheet_value <$> sheets response)]>
                       (<["filename" := VStr (filename response)]> (form s))) s))).

(** The request [save] sends for a form that has been built, and the answer
    to it: an update for a source that exists, the chosen tables when the
    tables of a source are edited, a new source with its tables otherwise. *)
Definition save_target (api : Api.t) (obj : gmap string value) (tables : list value)
    (s : State) : Request * option unit :=
  if truthy (field "id" (form s)) then
    if negb (isEditTable s) then (update_request obj, Api.update api obj)
    else (chooseTables_request (field "id" (form s)) tables,
          Api.chooseTables api (field "id" (form s)) tables)
  else (add_request (<["tables" := VArr tables]> obj),
        Api.add api (<["tables" := VArr tables]> obj)).

(** The state and the trace after that request has settled. *)
Definition saved (api : Api.t) (obj : gmap string value) (tables : list value)
    (s : State) : State * list Effect :=
  match (save_target api obj tables s).2 with
  | Some _ =>
      (set_saveLoading false (exec close s),
       [Call (save_target api obj tables s).1;
        Emit (changeActiveStep 0); Emit close_event; Emit refresh])
  | None => (set_saveLoading false s, [Call (save_target api obj tables s).1])
  end.

(** The confirmation [save] asks for. *)
Definition confirmation (s : State) : list Effect :=
  if bool_decide (30 < length (checkTableList s))%nat
  then [Confirm (length (checkTableList s))] else [].

(** The form and the record [buildConf] of the concatenate revision makes of
    a form. *)
Definition concat_built `{!Aes, !Json} (f : gmap string value) : gmap string value :=
  <["configuration" :=
     VStr (encrypted (JSON_stringify (ConcatForm.db_configuration f)))]> f.

Definition concat_record `{!Aes, !Json} (f : gmap string value) : gmap string value :=
  delete_all ConcatForm.db_deleted (json_clone (concat_built f)).

(** What [save] leaves in the concatenate mode once the form is valid: the
    answer to the merge, then the answer to the creation of the source. *)
Definition concat_saved `{!Aes, !Json} (api : Api.t) (s : State) : State * list Effect :=
  let formData := ConcatForm.merge_formData (multipleFiles s) in
  let failed := [ConsoleError "创建纵向合并数据源失败:";
                 Message error "创建纵向合并数据源失败，请检查文件格式"] in
  match Api.concatenateExcels api formData with
  | None =>
      (set_saveLoading false (set_saveLoading true s),
       Call (concatenateExcels_request formData) :: failed)
  | Some response =>
      let f1 := <["sheets" := VArr (sheet_value <$> sheets response)]>
                  (<["filename" := VStr (filename response)]> (form s)) in
      let requestObj :=
        <["tables" := VArr (ConcatForm.table_of_sheet <$> sheets response)]>
          (concat_record f1) in
      (set_saveLoading false (set_form (concat_built f1) (set_saveLoading true s)),
       [Call (concatenateExcels_request formData); Call (add_request requestObj)]
       ++ match Api.add api requestObj with
          | Some _ => [Message success "纵向合并数据源创建成功！"; Emit refresh]
          | None => failed
          end)
  end.

(** ** The forms [initForm] leaves behind *)

(** Assigning the properties [keys] one after the other, each from [read]. *)
Definition assign (read : string → value) (keys : list string)
    (f : gmap string value) : gmap string value :=
  foldl (λ f k, <[k := read k]> f) f keys.

(** The properties [initForm] copies from the record, and those it reads
    from a relational configuration one by one. *)
Definition record_keys : list string :=
  ["id"; "name"; "description"; "type"; "configuration"].

Definition db_keys : list string :=
  ["host"; "port"; "username"; "password"; "database"; "extraJdbc";
   "dbSchema"; "filename"; "sheets"; "mode"].

(** The properties every record brings. *)
Definition opened (item f : gmap string value) : gmap string value :=
  assign (λ k, field k item) record_keys f.

Definition timeout_or_30 (configuration : value) : value :=
  if truthy (prop "timeout" configuration) then prop "timeout" configuration
  else VNum 30.

(** The properties a relational configuration brings. *)
Definition loaded_db (configuration : value) (f : gmap string value) : gmap string value :=
  <["originType" := or_else (prop "originType" configuration) (VStr "local")]>
    (<["timeout" := timeout_or_30 configuration]>
       (assign (λ k, prop k configuration) db_keys f)).

(** The same in the concatenate revision, which has no origin. *)
Definition concat_loaded_db (configuration : value) (f : gmap string value)
    : gmap string value :=
  <["timeout" := timeout_or_30 configuration]>
    (assign (λ k, prop k configuration) db_keys f).

(** The properties an [api] configuration brings, before the certificates. *)
Definition loaded_api `{!Engine} (configuration : value) (f : gmap string value) : gmap string value :=
  <["certificateList" := or_else (prop "certificateList" configuration) (VArr [])]>
    (<["successStatusCodes" :=
        match prop "successStatusCodes" configuration with
        | VArr codes => VStr (join "," codes)
        | _ => VStr "200,201"
        end]>
       (<["timeout" := timeout_or_30 configuration]>
          (<["requestBody" := or_else (prop "requestBody" configuration) (VStr "")]>
             (<["method" := or_else (prop "method" configuration) (VStr "POST")]>
                (<["endpoint" := prop "endpoint" configuration]>
                   (<["originType" := VStr "api"]> f)))))).

(** The refs [initForm] sets around the form when it is given a record. *)
Definition opened_state (f : gmap string value) (s : State) : State :=
  set_dialogVisible true
    (set_form f (set_isCreate false (set_keywords "" (set_isEditTable false s)))).

(** What one pass of the loop over the parsed certificate does to the form. *)
Definition certify (cert : value) (f : gmap string value) : gmap string value :=
  if is_string "header" (prop "target" cert) then
    <["headerValue" := prop "value" cert]> (<["headerKey" := prop "key" cert]> f)
  else if is_string "cookie" (prop "target" cert) then
    <["cookieValue" := prop "value" cert]> (<["cookieKey" := prop "key" cert]> f)
  else if is_string "param" (prop "target" cert) then
    <["paramValue" := prop "value" cert]> (<["paramKey" := prop "key" cert]> f)
  else f.

Definition certified (certs : list value) (f : gmap string value) : gmap string value :=
  foldl (λ f cert, certify cert f) f certs.

(** The three pairs of credential fields of an [api] form. *)
Definition credential_pairs : list (string * string) :=
  [("headerKey", "headerValue"); ("cookieKey", "cookieValue"); ("paramKey", "paramValue")].

(** The refs [initForm] sets when it is given no record, before the form. *)
Definition reset_state (f : gmap string value) (s : State) : State :=
  set_dialogVisible true
    (set_form f
       (set_tableList []
          (set_checkList []
             (set_isEditTable false
                (set_isCreate true (set_keywords "" (set_isEditTable false s))))))).

(** ** The form inside the drawer *)

(** The handler behind a button of the footer. *)
Definition press `{!Engine, !Aes, !Json, !Utils} (api : Api.t) (b : Button) : M unit :=
  match b with
  | cancel_button => close
  | preview_button => preview
  | next_button dsFormRef => ConcatForm.next api dsFormRef
  | save_button dsFormRef confirmed => ConcatForm.save api dsFormRef confirmed
  end.

(** The states of the drawer that can be reached: from the initial one by
    the three handlers it exposes, by a click in the list of types and by
    closing while it is open, and, while the form is rendered with the
    props of the drawer, by the events of a button of the form that is
    shown and of [initForm]. *)
Inductive reachable `{!Engine, !Aes, !Json, !Utils} (api : Api.t) : Drawer.t → Prop :=
  | reach_initial : reachable api Drawer.initial
  | reach_edit d res :
      reachable api d → reachable api (Drawer.handleEditDatasource res d).1
  | reach_add d :
      reachable api d → reachable api (Drawer.handleAddDatasource d).1
  | reach_concatenate d :
      reachable api d → reachable api (Drawer.handleConcatenateDatasource d).1
  | reach_click d name type :
      reachable api d → Drawer.list_shown d = true →
      reachable api (Drawer.clickDatasource name type d).1
  | reach_close d :
      reachable api d → Drawer.datasourceConfigVisible d = true →
      reachable api (Drawer.beforeClose d).1
  | reach_press d s b :
      reachable api d → Drawer.form_shown d = true →
      props s = props_of d → button_shown b s = true →
      reachable api (on_trace (trace (press api b) s) d).1
  | reach_initForm d s item editTable :
      reachable api d → Drawer.form_shown d = true →
      props s = props_of d →
      reachable api (on_trace (trace (ConcatForm.initForm api item editTable) s) d).1.

(** A handler that leaves the props alone and whose events all satisfy
    [P], from every state with the props [p]. *)
Definition confined {A} (p : Props) (P : Event → Prop) (m : M A) : Prop :=
  ∀ s, props s = p →
    props (exec m s) = p ∧ Forall (λ e, ∀ ev, e = Emit ev → P ev) (trace m s).

(** The events a button of the form can emit under the props [p]. *)
Definition button_event (p : Props) (b : Button) (ev : Event) : Prop :=
  match b with
  | cancel_button => ev = changeActiveStep 0 ∨ ev = close_event
  | preview_button => ev = changeActiveStep (activeStep p - 1)
  | next_button _ =>
      if concatenateMode p then ev = refresh
      else ev = changeActiveStep (activeStep p + 1)
  | save_button _ _ =>
      if concatenateMode p then ev = refresh
      else ev = changeActiveStep 0 ∨ ev = close_event ∨ ev = refresh
  end.

(** ** Decimal strings *)

(** The characters [0] to [9]. *)
Definition is_digit (c : ascii) : bool :=
  let n := nat_of_ascii c in (48 <=? n)%nat && (n <=? 57)%nat.

Fixpoint all_digits (s : string) : bool :=
  match s with
  | EmptyString => true
  | String c s' => is_digit c && all_digits s'
  end.

(** A string of digits and minus signs. *)
Fixpoint no_sep (s : string) : bool :=
  match s with
  | EmptyString => true
  | String c s' => (is_digit c || Ascii.eqb c "-") && no_sep s'
  end.

(** State and operations whose keywords and table names are ASCII. *)
Definition ascii_rows (s : State) : bool :=
  is_ascii (keywords s) && forallb (λ ele, is_ascii (tableName ele)) (tableList s).

Definition ascii_ops (ops : list SelectionOp) : bool :=
  forallb (λ op, match op with SetFilter keyword => is_ascii keyword | _ => true end) ops.
(** * Lemmas *)

(** ** The implementation of the imports is lossless *)

Section value_induction.

Variable P : value → Prop.
Hypothesis Hundef : P VUndef.
Hypothesis Hnull : P VNull.
Hypothesis Hbool : ∀ b, P (VBool b).
Hypothesis Hnum : ∀ n, P (VNum n).
Hypothesis Hnan : P VNaN.
Hypothesis Hstr : ∀ s, P (VStr s).
Hypothesis Harr : ∀ l, Forall P l → P (VArr l).
Hypothesis Hobj : ∀ o, Forall (λ kv, P kv.2) o → P (VObj o).

(** Induction on values with the hypothesis for every element of an array
    and every property of an object. *)
Lemma value_ind_nested : ∀ v, P v.
Proof.
  fix IH 1. intros [| |b|n| |s|l|o].
  - apply Hundef.
  - apply Hnull.
  - apply Hbool.
  - apply Hnum.
  - apply Hnan.
  - apply Hstr.
  - apply Harr. induction l as [|x l IHl]; constructor; [apply IH | apply IHl].
  - apply Hobj. induction o as [|[k x] o IHo]; constructor; [apply IH | apply IHo].
Qed.

End value_induction.

Lemma of_to_tree v : of_tree (to_tree v) = v.
Proof.
  induction v as [| |[]|n| |s|l IH|o IH] using value_ind_nested; try done.
  - simpl. f_equal. induction IH as [|x l Hx _ IHl]; simpl; [done|].
    by rewrite Hx, IHl.
  - simpl. f_equal. induction IH as [|[k x] o Hx _ IHo]; simpl; [done|].
    simpl in Hx. by rewrite Hx, IHo.
Qed.

Lemma pos_of_bits_of_pos p : pos_of_bits (bits_of_pos p) = Some p.
Proof. induction p as [p IH|p IH|]; simpl; by rewrite ?IH. Qed.

Lemma tree_parse_stringify v : tree_parse (tree_stringify v) = Some (json_norm v).
Proof.
  unfold tree_parse, tree_stringify.
  rewrite pos_of_bits_of_pos. unfold mbind, option_bind.
  rewrite decode_encode. simpl. by rewrite of_to_tree.
Qed.

Lemma marked_lossless : @Lossless marked_aes tree_json.
Proof.
  split.
  - done.
  - done.
  - apply tree_parse_stringify.
  - done.
Qed.

(** ** Running a handler step by step *)

Section monad_laws.

Context {A B : Type}.
Implicit Types (s : State) (k : A → M B).

Lemma triple_eta {C} (r : option C * State * list Effect) : (r.1.1, r.1.2, r.2) = r.
Proof. by destruct r as [[? ?] ?]. Qed.

Lemma run_ret (a : A) k s : (mret a ≫= k) s = k a s.
Proof.
  unfold mbind, M_bind, bind, mret, M_ret, ret. cbn [fst snd].
  rewrite app_nil_l. apply triple_eta.
Qed.

Lemma run_throw k s : (throw ≫= k) s = (None, s, []).
Proof. reflexivity. Qed.

Lemma run_bind (m : M A) k s a s' tr :
  m s = (Some a, s', tr) →
  (m ≫= k) s = ((k a s').1.1, (k a s').1.2, tr ++ (k a s').2).
Proof. intros Hm. unfold mbind, M_bind, bind. by rewrite Hm. Qed.

Lemma run_bind_throw (m : M A) k s s' tr :
  m s = (None, s', tr) → (m ≫= k) s = (None, s', tr).
Proof. intros Hm. unfold mbind, M_bind, bind. by rewrite Hm. Qed.

End monad_laws.

Section monad_steps.

Context {B : Type}.
Implicit Types (s : State).

Lemma run_get (k : State → M B) s : (get ≫= k) s = k s s.
Proof.
  unfold mbind, M_bind, bind, get. cbn [fst snd].
  rewrite app_nil_l. apply triple_eta.
Qed.

Lemma run_modify f (k : unit → M B) s : (modify f ≫= k) s = k () (f s).
Proof.
  unfold mbind, M_bind, bind, modify. cbn [fst snd].
  rewrite app_nil_l. apply triple_eta.
Qed.

Lemma run_set_field key v (k : unit → M B) s :
  (set_field key v ≫= k) s = k () (set_form (<[key := v]> (form s)) s).
Proof. unfold set_field. by rewrite run_modify. Qed.

Lemma run_tell e (k : unit → M B) s :
  (tell e ≫= k) s = ((k () s).1.1, (k () s).1.2, e :: (k () s).2).
Proof. reflexivity. Qed.

Lemma run_emit e (k : unit → M B) s :
  (emit e ≫= k) s = ((k () s).1.1, (k () s).1.2, Emit e :: (k () s).2).
Proof. reflexivity. Qed.

Lemma run_request r (k : unit → M B) s :
  (request r ≫= k) s = ((k () s).1.1, (k () s).1.2, Call r :: (k () s).2).
Proof. reflexivity. Qed.

Lemma run_ElMessage ty msg (k : unit → M B) s :
  (ElMessage ty msg ≫= k) s
  = ((k () s).1.1, (k () s).1.2, Message ty msg :: (k () s).2).
Proof. reflexivity. Qed.

End monad_steps.

Lemma run_try_catch_ok (m h : M unit) s s' tr :
  m s = (Some (), s', tr) → try_catch m h s = (Some (), s', tr).
Proof. intros Hm. unfold try_catch. by rewrite Hm. Qed.

Lemma run_try_catch_caught (m h : M unit) s s' tr :
  m s = (None, s', tr) →
  try_catch m h s = ((h s').1.1, (h s').1.2, tr ++ (h s').2).
Proof. intros Hm. unfold try_catch. by rewrite Hm. Qed.

Lemma run_try_finally (m g : M unit) s r s' tr s'' tr' :
  m s = (r, s', tr) → g s' = (Some (), s'', tr') →
  try_finally m g s = (r, s'', tr ++ tr').
Proof.
  intros Hm Hg. unfold try_finally. rewrite Hm. cbn [fst snd]. rewrite Hg.
  by destruct r as [[]|].
Qed.

(** One step of a handler applied to a state. *)
Ltac mstep :=
  first
    [ rewrite run_get | rewrite run_modify | rewrite run_set_field
    | rewrite run_emit | rewrite run_request | rewrite run_ElMessage
    | rewrite run_tell | rewrite run_ret | rewrite run_throw ];
  cbv beta iota.
(** ** Properties of the selection reconciler *)

Section new_Set_facts.

Lemma elem_of_Set_add acc x y : y ∈ Set_add acc x ↔ y ∈ acc ∨ y = x.
Proof.
  unfold Set_add. case_decide as Hx.
  - split; [by left | intros [?| ->]; done].
  - rewrite elem_of_app, list_elem_of_singleton. done.
Qed.

Lemma NoDup_Set_add acc x : NoDup acc → NoDup (Set_add acc x).
Proof.
  intros Hacc. unfold Set_add. case_decide as Hx; [done|].
  apply NoDup_app. split_and!; [done | | apply NoDup_singleton].
  intros y Hy ->%list_elem_of_singleton. done.
Qed.

Lemma elem_of_foldl_Set_add l acc y :
  y ∈ foldl Set_add acc l ↔ y ∈ acc ∨ y ∈ l.
Proof.
  revert acc. induction l as [|x l IH]; intros acc; simpl.
  - rewrite elem_of_nil. tauto.
  - rewrite IH, elem_of_Set_add, elem_of_cons. tauto.
Qed.

Lemma NoDup_foldl_Set_add l acc : NoDup acc → NoDup (foldl Set_add acc l).
Proof.
  revert acc. induction l as [|x l IH]; intros acc Hacc; simpl; [done|].
  by apply IH, NoDup_Set_add.
Qed.

(** The spread of a [Set] has the elements of the list it was built
    from, each once. *)
Lemma elem_of_new_Set l y : y ∈ new_Set l ↔ y ∈ l.
Proof. unfold new_Set. rewrite elem_of_foldl_Set_add, elem_of_nil. tauto. Qed.

Lemma NoDup_new_Set l : NoDup (new_Set l).
Proof. apply NoDup_foldl_Set_add, NoDup_nil_2. Qed.

End new_Set_facts.

Section reconciler.

Context `{!Engine}.

Implicit Types (s : State) (n : string) (ops : list SelectionOp).

(** What each handler leaves in the refs it writes. *)
Lemma handleCheckedTablesChange_checkTableList s value :
  checkTableList (exec (handleCheckedTablesChange value) s)
  = new_Set (filter (λ ele, ele ∉ visibleFiltered s) (checkTableList s) ++ value).
Proof. reflexivity. Qed.

Lemma handleCheckAllChange_checkTableList s val :
  checkTableList (exec (handleCheckAllChange val) s)
  = if val then new_Set (visibleFiltered s ++ checkTableList s)
    else filter (λ ele, ele ∉ visibleFiltered s) (checkTableList s).
Proof. reflexivity. Qed.

Lemma watch_keywords_checkTableList s :
  checkTableList (exec watch_keywords s) = checkTableList s.
Proof. reflexivity. Qed.

Lemma setFilter_checkTableList s keyword :
  checkTableList (exec (setFilter keyword) s) = checkTableList s.
Proof.
  unfold setFilter, exec, mbind, M_bind, bind, get; simpl.
  by case_decide.
Qed.

(** None of the three operations moves the table list. *)
Lemma step_tableList op s : tableList (exec (step op) s) = tableList s.
Proof.
  destruct op; try reflexivity.
  unfold step, setFilter, exec, mbind, M_bind, bind, get; simpl.
  by case_decide.
Qed.

(** One step keeps the membership of a name that is off screen and that
    the checkbox group does not report. *)
Lemma step_hidden op s n :
  n ∉ visibleFiltered s →
  (∀ explicit, op = ToggleMany explicit → n ∉ explicit) →
  n ∈ checkTableList (exec (step op) s) ↔ n ∈ checkTableList s.
Proof.
  intros Hn Hop. destruct op as [keyword|[]|explicit].
  - simpl step. by rewrite setFilter_checkTableList.
  - change (n ∈ new_Set (visibleFiltered s ++ checkTableList s) ↔ n ∈ checkTableList s).
    rewrite elem_of_new_Set, elem_of_app. tauto.
  - change (n ∈ filter (λ ele, ele ∉ visibleFiltered s) (checkTableList s)
            ↔ n ∈ checkTableList s).
    rewrite list_elem_of_filter. tauto.
  - change (n ∈ new_Set (filter (λ ele, ele ∉ visibleFiltered s) (checkTableList s) ++ explicit)
            ↔ n ∈ checkTableList s).
    rewrite elem_of_new_Set, elem_of_app, list_elem_of_filter.
    specialize (Hop explicit eq_refl). tauto.
Qed.

Lemma run_hidden ops s n :
  never_visible n ops s → explicit_visible ops s →
  n ∈ checkTableList (run ops s) ↔ n ∈ checkTableList s.
Proof.
  revert s. induction ops as [|op ops IH]; intros s Hn Hops; simpl; [done|].
  destruct Hn as [Hn Hrest], Hops as [Hop Hops].
  rewrite (IH _ Hrest Hops). apply step_hidden; [done|].
  intros explicit ->. intros Hin. apply Hn, Hop, Hin.
Qed.

End reconciler.


Section includes_facts.

Lemma append_cons c s t : String c s +:+ t = String c (s +:+ t).
Proof. reflexivity. Qed.

Lemma append_empty t : "" +:+ t = t.
Proof. reflexivity. Qed.

Lemma startsWith_app sub s : startsWith sub s = true ↔ ∃ post, s = sub +:+ post.
Proof.
  revert s. induction sub as [|c sub IH]; intros s; simpl.
  - split; [intros _; by exists s | done].
  - destruct s as [|c' s]; simpl.
    + split; [done | by intros [post ?]].
    + setoid_rewrite append_cons.
      destruct (Ascii.eqb_spec c c') as [->|Hc]; simpl.
      * rewrite IH. split; intros [post Hpost]; exists post; congruence.
      * split; [done | intros [post Hpost]; congruence].
Qed.

(** [includes] is the substring test. *)
Lemma includes_substring sub s :
  includes sub s = true ↔ ∃ pre post, s = pre +:+ sub +:+ post.
Proof.
  induction s as [|c s IH]; simpl.
  - rewrite orb_false_r, startsWith_app. split.
    + intros [post ->]. by exists "", post.
    + intros ([|? pre] & post & Hs); [by exists post | done].
  - rewrite orb_true_iff, startsWith_app, IH. split.
    + intros [[post ->] | (pre & post & ->)].
      * by exists "", post.
      * by exists (String c pre), post.
    + intros ([|c' pre] & post & Hs).
      * left. by exists post.
      * right. rewrite append_cons in Hs. injection Hs as -> ->. by exists pre, post.
Qed.

Lemma includes_empty s : includes "" s = true.
Proof. apply includes_substring. by exists "", s. Qed.

End includes_facts.

Section visible_facts.

Context `{!Engine}.

Implicit Types (s : State) (ele : Sheet).

(** A row is on screen when its name contains the keyword, both taken in
    lower case. *)
Lemma elem_of_tableListWithSearch s ele :
  ele ∈ tableListWithSearch s ↔
  ele ∈ tableList s ∧
  ∃ pre post, toLowerCase (tableName ele) = pre +:+ toLowerCase (keywords s) +:+ post.
Proof.
  unfold tableListWithSearch. simpl.
  destruct (String.eqb_spec (keywords s) "") as [->|Hk]; simpl.
  - split; [|tauto]. intros Hele. split; [done|].
    rewrite (toLowerCase_ascii "") by done.
    by exists "", (toLowerCase (tableName ele)).
  - rewrite list_elem_of_filter, Is_true_true, includes_substring. tauto.
Qed.

Lemma tableListWithSearch_sublist s : tableListWithSearch s `sublist_of` tableList s.
Proof.
  unfold tableListWithSearch. destruct (negb _); [done | apply sublist_filter].
Qed.


(** The watcher's work, ref by ref. *)
Lemma setFilter_changed s keyword :
  keyword ≠ keywords s →
  exec (setFilter keyword) s = exec watch_keywords (set_keywords keyword s).
Proof.
  intros Hk. unfold setFilter, exec, mbind, M_bind, bind, get; simpl.
  by case_decide.
Qed.

Lemma setFilter_same s : exec (setFilter (keywords s)) s = s.
Proof.
  unfold setFilter, exec, mbind, M_bind, bind, get; simpl.
  by case_decide.
Qed.

End visible_facts.

(** ** More on sets in insertion order *)

Section new_Set_more.

Implicit Types (l acc : list string).

Lemma new_Set_app l1 l2 : new_Set (l1 ++ l2) = foldl Set_add (new_Set l1) l2.
Proof. unfold new_Set. apply foldl_app. Qed.

Lemma foldl_Set_add_NoDup acc l : NoDup (acc ++ l) → foldl Set_add acc l = acc ++ l.
Proof.
  revert acc. induction l as [|x l IH]; intros acc Hnd; simpl.
  - by rewrite app_nil_r.
  - unfold Set_add at 2. rewrite decide_False.
    + rewrite IH; rewrite <- app_assoc; done.
    + apply NoDup_app in Hnd as (_ & Hnd & _). intros Hx. apply (Hnd x Hx). left.
Qed.

(** A list without duplicates is its own set. *)
Lemma new_Set_NoDup l : NoDup l → new_Set l = l.
Proof. intros Hnd. unfold new_Set. by rewrite foldl_Set_add_NoDup. Qed.

Lemma new_Set_idemp l : new_Set (new_Set l) = new_Set l.
Proof. apply new_Set_NoDup, NoDup_new_Set. Qed.

Lemma filter_foldl_Set_add (P : string → Prop) `{!∀ x, Decision (P x)} acc l :
  filter P (foldl Set_add acc l) = foldl Set_add (filter P acc) (filter P l).
Proof.
  revert acc. induction l as [|x l IH]; intros acc; simpl; [done|].
  rewrite IH. destruct (decide (P x)) as [HP|HP].
  - rewrite (filter_cons_True P x l HP). simpl. f_equal.
    unfold Set_add. destruct (decide (x ∈ acc)) as [Hx|Hx].
    + rewrite decide_True; [done|]. by apply list_elem_of_filter.
    + rewrite decide_False by (rewrite list_elem_of_filter; tauto).
      by rewrite filter_app, (filter_cons_True P x [] HP).
  - rewrite (filter_cons_False P x l HP). f_equal.
    unfold Set_add. destruct (decide (x ∈ acc)); [done|].
    by rewrite filter_app, (filter_cons_False P x [] HP), app_nil_r.
Qed.

(** Filtering commutes with deduplication. *)
Lemma filter_new_Set (P : string → Prop) `{!∀ x, Decision (P x)} l :
  filter P (new_Set l) = new_Set (filter P l).
Proof. unfold new_Set. by rewrite filter_foldl_Set_add. Qed.

Lemma new_Set_app_new_Set l1 l2 : new_Set (new_Set l1 ++ l2) = new_Set (l1 ++ l2).
Proof. by rewrite !new_Set_app, new_Set_idemp. Qed.

Lemma filter_not_elem_of_all (l vis : list string) :
  l ⊆ vis → filter (λ x, x ∉ vis) l = [].
Proof.
  intros Hsub. induction l as [|x l IH]; [done|].
  rewrite filter_cons_False.
  - apply IH. intros y Hy. apply Hsub. by right.
  - intros Hx. apply Hx, Hsub. left.
Qed.

End new_Set_more.

Section reconciler_more.

Context `{!Engine}.

Implicit Types (s : State) (n : string).

Lemma step_visibleFiltered_toggle s op :
  (∀ keyword, op ≠ SetFilter keyword) →
  visibleFiltered (exec (step op) s) = visibleFiltered s.
Proof. intros Hop. destruct op as [keyword| |]; [by destruct (Hop keyword) | done..]. Qed.

Lemma setFilter_checkList s keyword :
  keyword ≠ keywords s →
  checkList (exec (setFilter keyword) s)
  = filter (λ ele, ele ∈ visibleFiltered (exec (setFilter keyword) s)) (checkTableList s).
Proof. intros Hk. by rewrite (setFilter_changed s keyword Hk). Qed.

(** One step keeps the boxes in line with the selection. *)
Lemma step_rendered_consistent op s :
  rendered_consistent s →
  (∀ explicit, op = ToggleMany explicit → explicit ⊆ visibleFiltered s) →
  rendered_consistent (exec (step op) s).
Proof.
  intros Hs Hop n. destruct op as [keyword|[]|explicit].
  - simpl step. destruct (decide (keyword = keywords s)) as [->|Hk].
    + rewrite setFilter_same. apply Hs.
    + rewrite setFilter_checkTableList, (setFilter_checkList s keyword Hk).
      rewrite list_elem_of_filter. tauto.
  - change (n ∈ new_Set (visibleFiltered s ++ checkList s)
            ↔ n ∈ new_Set (visibleFiltered s ++ checkTableList s) ∧ n ∈ visibleFiltered s).
    rewrite !elem_of_new_Set, !elem_of_app. specialize (Hs n). tauto.
  - change (n ∈ @nil string
            ↔ n ∈ filter (λ ele, ele ∉ visibleFiltered s) (checkTableList s)
              ∧ n ∈ visibleFiltered s).
    rewrite elem_of_nil, list_elem_of_filter. tauto.
  - change (n ∈ explicit
            ↔ n ∈ new_Set (filter (λ ele, ele ∉ visibleFiltered s) (checkTableList s)
                           ++ explicit)
              ∧ n ∈ visibleFiltered s).
    rewrite elem_of_new_Set, elem_of_app, list_elem_of_filter.
    specialize (Hop explicit eq_refl n). tauto.
Qed.

End reconciler_more.

(** ** Names and keywords of ASCII

    On a table list and keywords of ASCII the rows on screen are the same
    for every engine, and so is the outcome of every operation of the
    reconciler. *)

Lemma filter_ext_in {A} (P Q : A → Prop)
    `{!∀ x, Decision (P x)} `{!∀ x, Decision (Q x)} (l : list A) :
  (∀ x, x ∈ l → P x ↔ Q x) → filter P l = filter Q l.
Proof.
  induction l as [|x l IH]; intros Hext; [done|].
  rewrite !filter_cons. rewrite IH by (intros y Hy; apply Hext; by right).
  destruct (decide (P x)) as [HP|HP], (decide (Q x)) as [HQ|HQ]; try done.
  - destruct HQ. by apply (Hext x); [left|].
  - destruct HP. by apply (Hext x); [left|].
Qed.

Section ascii_rows.

Context (E : Engine).

Implicit Types (s : State) (ops : list SelectionOp).

Lemma tableListWithSearch_ascii s :
  ascii_rows s = true →
  @tableListWithSearch E s = @tableListWithSearch ascii_engine s.
Proof.
  intros [Hk Hrows]%andb_true_iff. unfold tableListWithSearch.
  destruct (negb (truthy (VStr (keywords s)))); [done|].
  apply filter_ext_in. intros ele Hele.
  rewrite forallb_forall in Hrows.
  rewrite (toLowerCase_ascii (keywords s)) by done.
  rewrite (toLowerCase_ascii (tableName ele)); [done|].
  apply Hrows. by apply list_elem_of_In.
Qed.

Lemma watch_keywords_ascii s :
  ascii_rows s = true → @watch_keywords E s = @watch_keywords ascii_engine s.
Proof.
  intros Hs. unfold watch_keywords. rewrite !run_get. cbv zeta.
  rewrite !run_modify, !run_get, !run_modify, !run_get. unfold modify.
  rewrite !tableListWithSearch_ascii by exact Hs. reflexivity.
Qed.

Lemma handleCheckAllChange_ascii val s :
  ascii_rows s = true →
  @handleCheckAllChange E val s = @handleCheckAllChange ascii_engine val s.
Proof.
  intros Hs. unfold handleCheckAllChange.
  rewrite !run_get, !run_modify, !run_get. cbv zeta. unfold modify.
  rewrite !tableListWithSearch_ascii by exact Hs. reflexivity.
Qed.

Lemma handleCheckedTablesChange_ascii value s :
  ascii_rows s = true →
  @handleCheckedTablesChange E value s = @handleCheckedTablesChange ascii_engine value s.
Proof.
  intros Hs. unfold handleCheckedTablesChange. cbv zeta.
  rewrite !run_get, !run_modify, !run_get, !run_modify, !run_get. unfold modify.
  rewrite !tableListWithSearch_ascii by exact Hs. reflexivity.
Qed.

Lemma step_ascii op s :
  ascii_rows s = true → ascii_ops [op] = true →
  @step E op s = @step ascii_engine op s
  ∧ ascii_rows (exec (@step ascii_engine op) s) = true.
Proof.
  intros Hs Hop. unfold exec.
  destruct op as [keyword|checked|explicit]; cbn [step].
  - unfold setFilter. rewrite !run_get.
    destruct (decide (keyword = keywords s)) as [Heq|Hne]; [done|].
    assert (Hs' : ascii_rows (set_keywords keyword s) = true).
    { apply andb_true_iff in Hs as [_ Hrows].
      cbn [ascii_ops forallb] in Hop. rewrite andb_true_r in Hop.
      apply andb_true_iff. by split. }
    rewrite !run_modify. split; [by apply watch_keywords_ascii | exact Hs'].
  - unfold toggleAll. rewrite !run_modify.
    split; [by apply handleCheckAllChange_ascii | exact Hs].
  - unfold toggleMany. rewrite !run_modify.
    split; [by apply handleCheckedTablesChange_ascii | exact Hs].
Qed.

(** A run on ASCII rows with ASCII keywords. *)
Lemma run_ascii ops s :
  ascii_rows s = true → ascii_ops ops = true →
  @run E ops s = @run ascii_engine ops s
  ∧ ascii_rows (@run ascii_engine ops s) = true.
Proof.
  revert s. induction ops as [|op ops IH]; intros s Hs Hops; [done|].
  cbn [ascii_ops forallb] in Hops. apply andb_true_iff in Hops as [Hop Hops].
  destruct (step_ascii op s Hs) as [Hstep Hs'].
  { cbn [ascii_ops forallb]. by rewrite Hop. }
  cbn [run]. unfold exec at 1. rewrite Hstep. by apply IH.
Qed.

Lemma visibleFiltered_ascii s :
  ascii_rows s = true → @visibleFiltered E s = @visibleFiltered ascii_engine s.
Proof. intros Hs. unfold visibleFiltered. by rewrite tableListWithSearch_ascii. Qed.

End ascii_rows.

(** Lower case of ASCII goes piece by piece. *)
Lemma append_assoc (a b c : string) : (a +:+ b) +:+ c = a +:+ (b +:+ c).
Proof. induction a as [|x a IH]; [done|]. by rewrite !append_cons, IH. Qed.

Lemma is_ascii_app (a b : string) : is_ascii (a +:+ b) = is_ascii a && is_ascii b.
Proof.
  induction a as [|x a IH]; [done|].
  rewrite append_cons. cbn [is_ascii]. by rewrite IH, andb_assoc.
Qed.

Lemma ascii_lower_app (a b : string) :
  ascii_lower (a +:+ b) = ascii_lower a +:+ ascii_lower b.
Proof.
  induction a as [|x a IH]; [done|].
  rewrite append_cons. cbn [ascii_lower]. by rewrite IH.
Qed.

Lemma toLowerCase_app `{!Engine} (a b : string) :
  is_ascii a = true → is_ascii b = true →
  toLowerCase (a +:+ b) = toLowerCase a +:+ toLowerCase b.
Proof.
  intros Ha Hb.
  rewrite !toLowerCase_ascii by (done || by rewrite is_ascii_app, Ha, Hb).
  apply ascii_lower_app.
Qed.

(** ** Properties of the configuration builder *)

Section object_facts.

Implicit Types (obj : gmap string value) (k : string) (v : value).

Lemma lookup_delete_all keys obj k :
  delete_all keys obj !! k = if decide (k ∈ keys) then None else obj !! k.
Proof.
  unfold delete_all. revert obj.
  induction keys as [|k' keys IH]; intros obj; simpl; [done|].
  rewrite IH. destruct (decide (k = k')) as [->|Hk].
  - rewrite lookup_delete_eq, (decide_True (P := k' ∈ k' :: keys)) by left.
    by destruct (decide _).
  - rewrite lookup_delete_ne by done.
    destruct (decide (k ∈ keys)) as [Hin|Hin].
    + by rewrite decide_True by by right.
    + rewrite decide_False; [done|].
      by intros [?|?]%elem_of_cons.
Qed.

Lemma lookup_json_clone obj k :
  json_clone obj !! k
  = obj !! k ≫= λ v, match v with VUndef => None | _ => Some (json_norm v) end.
Proof. unfold json_clone. apply lookup_omap. Qed.

(** A copied property reads as the JSON copy of the original. *)
Lemma field_json_clone obj k : field k (json_clone obj) = json_reload (field k obj).
Proof.
  unfold field. rewrite lookup_json_clone.
  destruct (obj !! k) as [[]|]; done.
Qed.

Lemma field_insert obj k v : field k (<[k := v]> obj) = v.
Proof. unfold field. by rewrite lookup_insert_eq. Qed.

Lemma field_insert_ne obj k k' v : k' ≠ k → field k (<[k' := v]> obj) = field k obj.
Proof. intros Hk. unfold field. by rewrite lookup_insert_ne. Qed.

Lemma field_delete_all keys obj k :
  field k (delete_all keys obj) = if decide (k ∈ keys) then VUndef else field k obj.
Proof. unfold field. rewrite lookup_delete_all. by case_decide. Qed.

(** Reading a property of a parsed object literal. *)
Lemma assoc_norm_fields o k :
  NoDup o.*1 → assoc k (norm_fields o) = json_reload (assoc k o).
Proof.
  induction o as [|[k' x] o IH]; intros Hnd; [done|].
  apply NoDup_cons in Hnd as [Hk' Hnd]. specialize (IH Hnd).
  assert (Hx : k = k' → assoc k (norm_fields o) = VUndef).
  { intros ->. clear IH Hnd. induction o as [|[k x'] o IH]; [done|].
    apply not_elem_of_cons in Hk' as [Hne Hk']. specialize (IH Hk').
    assert (String.eqb k' k = false) as Hf by by apply String.eqb_neq.
    destruct x'; simpl; rewrite ?Hf; done. }
  destruct (String.eqb_spec k k') as [->|Hne].
  - destruct x; simpl; rewrite ?String.eqb_refl; auto.
  - assert (String.eqb k k' = false) as Hf by by apply String.eqb_neq.
    destruct x; simpl; rewrite ?Hf; done.
Qed.

Lemma prop_json_norm o k :
  NoDup o.*1 → prop k (json_norm (VObj o)) = json_reload (assoc k o).
Proof. apply assoc_norm_fields. Qed.

Lemma json_norm_idemp v : json_norm (json_norm v) = json_norm v.
Proof.
  induction v as [| |b|n| |s|l IH|o IH] using value_ind_nested; try done.
  - simpl. f_equal. induction IH as [|x l Hx _ IHl]; simpl; [done|].
    by rewrite Hx, IHl.
  - simpl. f_equal. induction IH as [|[k x] o Hx _ IHo]; simpl; [done|].
    simpl in Hx. destruct x; simpl in *; rewrite ?IHo; try done.
    + by rewrite <- Hx.
    + by injection Hx as ->.
Qed.

Lemma json_reload_idemp v : json_reload (json_reload v) = json_reload v.
Proof. destruct v; try done; unfold json_reload; by rewrite json_norm_idemp. Qed.

Lemma is_string_json_reload lit v : is_string lit (json_reload v) = is_string lit v.
Proof. by destruct v. Qed.

Lemma truthy_json_reload_str s : json_reload (VStr s) = VStr s.
Proof. done. Qed.

End object_facts.

(** Unfolding of the monad and of nothing else. *)
Ltac mcbv :=
  cbv beta iota zeta delta
    [mbind M_bind mret M_ret bind ret get modify tell throw try_catch
     try_finally unhandled settle when emit ElMessage request set_field
     exec trace result fst snd].

Section builder.

Context `{!Engine, !Aes, !Json, !Utils}.

Implicit Types (s : State) (f obj : gmap string value).

(** [buildConf] of the revision with the [api] type, case by case. *)
Lemma buildConf_db s :
  is_string "api" (field "type" (form s)) = false →
  let f' := <["configuration" :=
               VStr (encrypted (JSON_stringify (ApiForm.db_configuration (form s))))]> (form s) in
  ApiForm.buildConf s
  = (Some (delete_all ApiForm.db_deleted (json_clone f')), set_form f' s, []).
Proof.
  intros Hty. unfold ApiForm.buildConf. mcbv. by rewrite Hty.
Qed.

Lemma buildConf_api s codes :
  is_string "api" (field "type" (form s)) = true →
  ApiForm.successStatusCodes_of (form s) = Some codes →
  let f' := <["certificate" :=
               VStr (JSON_stringify (VArr (ApiForm.certificateList_of (form s))))]>
            (<["configuration" :=
               VStr (encrypted (JSON_stringify (ApiForm.api_configuration (form s) codes)))]>
               (form s)) in
  ApiForm.buildConf s
  = (Some (delete_all ApiForm.api_deleted (json_clone f')), set_form f' s, []).
Proof.
  intros Hty Hcodes. unfold ApiForm.buildConf. mcbv. by rewrite Hty, Hcodes.
Qed.

Lemma buildConf_api_throws s :
  is_string "api" (field "type" (form s)) = true →
  ApiForm.successStatusCodes_of (form s) = None →
  ApiForm.buildConf s = (None, s, []).
Proof.
  intros Hty Hcodes. unfold ApiForm.buildConf. mcbv. by rewrite Hty, Hcodes.
Qed.

Lemma buildConf_db_result s :
  is_string "api" (field "type" (form s)) = false →
  result ApiForm.buildConf s
  = Some (delete_all ApiForm.db_deleted
            (json_clone
               (<["configuration" :=
                   VStr (encrypted (JSON_stringify (ApiForm.db_configuration (form s))))]>
                  (form s)))).
Proof. intros Hty. unfold result. by rewrite (buildConf_db s Hty). Qed.

Lemma buildConf_db_form s :
  is_string "api" (field "type" (form s)) = false →
  form (exec ApiForm.buildConf s)
  = <["configuration" :=
       VStr (encrypted (JSON_stringify (ApiForm.db_configuration (form s))))]> (form s).
Proof. intros Hty. unfold exec. by rewrite (buildConf_db s Hty). Qed.

Lemma buildConf_api_result s codes :
  is_string "api" (field "type" (form s)) = true →
  ApiForm.successStatusCodes_of (form s) = Some codes →
  result ApiForm.buildConf s
  = Some (delete_all ApiForm.api_deleted
            (json_clone
               (<["certificate" :=
                   VStr (JSON_stringify (VArr (ApiForm.certificateList_of (form s))))]>
                  (<["configuration" :=
                      VStr (encrypted
                              (JSON_stringify (ApiForm.api_configuration (form s) codes)))]>
                     (form s))))).
Proof. intros Hty Hc. unfold result. by rewrite (buildConf_api s codes Hty Hc). Qed.

Lemma buildConf_api_form s codes :
  is_string "api" (field "type" (form s)) = true →
  ApiForm.successStatusCodes_of (form s) = Some codes →
  form (exec ApiForm.buildConf s)
  = <["certificate" :=
       VStr (JSON_stringify (VArr (ApiForm.certificateList_of (form s))))]>
      (<["configuration" :=
          VStr (encrypted (JSON_stringify (ApiForm.api_configuration (form s) codes)))]>
         (form s)).
Proof. intros Hty Hc. unfold exec. by rewrite (buildConf_api s codes Hty Hc). Qed.

Lemma buildConf_api_no_result s :
  is_string "api" (field "type" (form s)) = true →
  ApiForm.successStatusCodes_of (form s) = None →
  result ApiForm.buildConf s = None ∧ exec ApiForm.buildConf s = s.
Proof.
  intros Hty Hc. unfold result, exec. by rewrite (buildConf_api_throws s Hty Hc).
Qed.

(** The status codes are there unless the field holds something that is
    neither empty nor a string. *)
Lemma successStatusCodes_of_string f codes :
  field "successStatusCodes" f = VStr codes →
  is_Some (ApiForm.successStatusCodes_of f).
Proof.
  intros Hf. unfold ApiForm.successStatusCodes_of. rewrite Hf.
  by destruct (truthy _).
Qed.

Lemma successStatusCodes_of_falsy f :
  truthy (field "successStatusCodes" f) = false →
  ApiForm.successStatusCodes_of f = Some [VNum 200; VNum 201].
Proof. intros Hf. unfold ApiForm.successStatusCodes_of. by rewrite Hf. Qed.

(** [buildConf] of the revision with the concatenate mode. *)
Lemma concat_buildConf s :
  let f' := <["configuration" :=
               VStr (encrypted (JSON_stringify (ConcatForm.db_configuration (form s))))]> (form s) in
  ConcatForm.buildConf s
  = (Some (delete_all ConcatForm.db_deleted (json_clone f')), set_form f' s, []).
Proof. reflexivity. Qed.

(** [buildConf] writes the form and no other ref, and what it writes and
    returns depends on the form alone. *)
Lemma buildConf_exec s :
  ApiForm.buildConf s
  = (result ApiForm.buildConf s, set_form (form (exec ApiForm.buildConf s)) s, []).
Proof.
  destruct (is_string "api" (field "type" (form s))) eqn:Hty.
  - destruct (ApiForm.successStatusCodes_of (form s)) as [codes|] eqn:Hcodes.
    + unfold result, exec. by rewrite (buildConf_api s codes Hty Hcodes).
    + unfold result, exec. rewrite (buildConf_api_throws s Hty Hcodes). by destruct s.
  - unfold result, exec. by rewrite (buildConf_db s Hty).
Qed.

Lemma buildConf_form_only s s' :
  form s = form s' →
  result ApiForm.buildConf s = result ApiForm.buildConf s'
  ∧ form (exec ApiForm.buildConf s) = form (exec ApiForm.buildConf s').
Proof.
  intros Hf.
  destruct (is_string "api" (field "type" (form s))) eqn:Hty.
  - destruct (ApiForm.successStatusCodes_of (form s)) as [codes|] eqn:Hcodes.
    + unfold result, exec. rewrite (buildConf_api s codes Hty Hcodes).
      rewrite Hf in Hty, Hcodes. rewrite (buildConf_api s' codes Hty Hcodes).
      cbn [fst snd form set_form]. by rewrite Hf.
    + unfold result, exec. rewrite (buildConf_api_throws s Hty Hcodes).
      rewrite Hf in Hty, Hcodes. by rewrite (buildConf_api_throws s' Hty Hcodes).
  - unfold result, exec. rewrite (buildConf_db s Hty).
    rewrite Hf in Hty. rewrite (buildConf_db s' Hty).
    cbn [fst snd form set_form]. by rewrite Hf.
Qed.

Lemma getSchema_form api s :
  form (exec (ApiForm.getSchema api) s) = form (exec ApiForm.buildConf s).
Proof.
  destruct (buildConf_form_only (set_schemaList [] s) s eq_refl) as [Hr Hf].
  rewrite <- Hf.
  unfold ApiForm.getSchema. mcbv.
  rewrite (buildConf_exec (set_schemaList [] s)).
  destruct (result ApiForm.buildConf (set_schemaList [] s)) as [obj|]; [|done].
  mcbv. by destruct (Api.getSchema api obj).
Qed.

Lemma check_form_db api s :
  is_string "api" (field "type" (form s)) = false →
  form (exec (ApiForm.check api) s) = form (exec ApiForm.buildConf s).
Proof.
  intros Hty.
  unfold ApiForm.check. mcbv. rewrite Hty.
  rewrite (buildConf_exec s).
  destruct (result ApiForm.buildConf s) as [obj|]; [|done].
  mcbv. by destruct (Api.check api obj) as [[]|].
Qed.

Lemma check_api api s :
  is_string "api" (field "type" (form s)) = true →
  exec (ApiForm.check api) s = s.
Proof.
  intros Hty.
  unfold ApiForm.check. mcbv. rewrite Hty.
  by destruct (Api.testApiExcel api _).
Qed.

Lemma concat_getSchema_form api s :
  form (exec (ConcatForm.getSchema api) s) = form (exec ConcatForm.buildConf s).
Proof.
  unfold ConcatForm.getSchema, ConcatForm.buildConf. mcbv.
  by destruct (Api.getSchema api _).
Qed.

Lemma concat_check_form api s :
  form (exec (ConcatForm.check api) s) = form (exec ConcatForm.buildConf s).
Proof.
  unfold ConcatForm.check, ConcatForm.buildConf. mcbv.
  by destruct (Api.check api _) as [[]|].
Qed.

(** The [configuration] property of every record [buildConf] returns is the
    cipher text it has just stored in the form. *)
Lemma lookup_built_configuration keys f blob :
  "configuration" ∉ keys →
  delete_all keys (json_clone (<["configuration" := VStr blob]> f)) !! "configuration"
  = Some (VStr blob).
Proof.
  intros Hk. rewrite lookup_delete_all, decide_False by done.
  by rewrite lookup_json_clone, lookup_insert_eq.
Qed.

Lemma lookup_built_deleted keys f k :
  k ∈ keys → delete_all keys (json_clone f) !! k = None.
Proof. intros Hk. by rewrite lookup_delete_all, decide_True. Qed.

Lemma buildConf_concat_result s :
  result ConcatForm.buildConf s
  = Some (delete_all ConcatForm.db_deleted
            (json_clone
               (<["configuration" :=
                   VStr (encrypted (JSON_stringify (ConcatForm.db_configuration (form s))))]>
                  (form s)))).
Proof. reflexivity. Qed.

End builder.

(** Membership in a list of literal names, by evaluation. *)
Ltac names := apply (bool_decide_unpack _); vm_compute; exact I.

(** ** Properties of the upload guard *)

Section upload.

Context `{!Utils}.

(** The quotient by [1024 * 1024] is above 50 exactly when the size is
    above 50 times [1024 * 1024] bytes. *)
Lemma exceeds_50mb_bytes rawFile :
  exceeds_50mb rawFile = bool_decide (50 * 1024 * 1024 < File.size rawFile).
Proof.
  unfold exceeds_50mb. apply eq_true_iff_eq.
  rewrite negb_true_iff, bool_decide_eq_true, <- not_true_iff_false, Qle_bool_iff.
  unfold Qle, Qdiv, Qmult, Qinv, inject_Z. simpl. lia.
Qed.

Lemma beforeUpload_run rawFile s :
  ApiForm.beforeUpload rawFile s
  = if exceeds_50mb rawFile
    then (Some false, set_fileSize (setSize (File.size rawFile)) s,
          [Message error (t "common.not_exceed_50mb")])
    else (Some true,
          set_uploadLoading true (set_fileSize (setSize (File.size rawFile)) s), []).
Proof. unfold ApiForm.beforeUpload, setFile. mcbv. by destruct (exceeds_50mb rawFile). Qed.

Lemma concat_beforeUpload_run rawFile s :
  ConcatForm.beforeUpload rawFile s = ApiForm.beforeUpload rawFile s.
Proof. reflexivity. Qed.

End upload.

(** ** Properties of the step controller *)

(** The callbacks of a settled request, case by case. *)
Lemma run_settle_resolved {A} (a : A) (then_ : A → M unit) catch_ finally_ s s' tr s'' tr' :
  then_ a s = (Some (), s', tr) → finally_ s' = (Some (), s'', tr') →
  settle (Some a) then_ catch_ finally_ s = (Some (), s'', tr ++ tr').
Proof.
  intros Hthen Hfin. unfold settle, unhandled.
  apply run_try_catch_ok. eapply run_try_finally; [|done].
  destruct catch_ as [h|]; [by apply run_try_catch_ok | done].
Qed.

Lemma run_settle_caught {A} (then_ : A → M unit) h finally_ s s' tr s'' tr' :
  h s = (Some (), s', tr) → finally_ s' = (Some (), s'', tr') →
  settle None then_ (Some h) finally_ s = (Some (), s'', tr ++ tr').
Proof.
  intros Hh Hfin. unfold settle, unhandled.
  apply run_try_catch_ok. eapply run_try_finally; [|done].
  erewrite run_try_catch_caught by reflexivity. by rewrite Hh.
Qed.

Lemma run_settle_rejected {A} (then_ : A → M unit) finally_ s s'' tr' :
  finally_ s = (Some (), s'', tr') →
  settle None then_ None finally_ s = (Some (), s'', tr').
Proof.
  intros Hfin. unfold settle, unhandled.
  erewrite run_try_catch_caught.
  2: { eapply run_try_finally; [reflexivity | done]. }
  by rewrite app_nil_r.
Qed.

Lemma run_settle_thrown {A} (a : A) (then_ : A → M unit) finally_ s s' tr s'' tr' :
  then_ a s = (None, s', tr) → finally_ s' = (Some (), s'', tr') →
  settle (Some a) then_ None finally_ s = (Some (), s'', tr ++ tr').
Proof.
  intros Hthen Hfin. unfold settle, unhandled.
  erewrite run_try_catch_caught.
  2: { eapply run_try_finally; [exact Hthen | exact Hfin]. }
  by rewrite app_nil_r.
Qed.

Section wizard.

Context `{!Engine, !Aes, !Json, !Utils}.

Implicit Types (s : State) (api : Api.t) (validate : FormInstance).

(** [next] without a form instance, or on an invalid form, does nothing. *)
Lemma next_no_form api s : ApiForm.next api None s = (Some (), s, []).
Proof. reflexivity. Qed.

Lemma next_invalid api validate s :
  validate s = false → ApiForm.next api (Some validate) s = (Some (), s, []).
Proof. intros Hv. unfold ApiForm.next. mstep. by rewrite Hv. Qed.

(** [next] on a valid [excel] form. *)
Lemma next_excel api validate s :
  validate s = true →
  is_string "excel" (field "type" (form s)) = true →
  ApiForm.next api (Some validate) s
  = (Some (), s,
     if excelUploadSuccess s
     then [Emit (changeActiveStep (activeStep (props s) + 1))] else []).
Proof.
  intros Hv Hty. unfold ApiForm.next. mstep. rewrite Hv, Hty.
  by destruct (excelUploadSuccess s).
Qed.

(** [next] on a valid [api] form. *)
Lemma next_api_busy api validate s :
  validate s = true →
  is_string "excel" (field "type" (form s)) = false →
  is_string "api" (field "type" (form s)) = true →
  uploadLoading s = true →
  ApiForm.next api (Some validate) s = (Some (), s, []).
Proof.
  intros Hv Hex Hty Hbusy. unfold ApiForm.next. mstep.
  by rewrite Hv, Hex, Hty, Hbusy.
Qed.

Lemma next_api_run api validate s :
  validate s = true →
  is_string "excel" (field "type" (form s)) = false →
  is_string "api" (field "type" (form s)) = true →
  uploadLoading s = false →
  ApiForm.next api (Some validate) s
  = match Api.fetchExcelFromApi api (ApiForm.apiReq (form s)) with
    | Some data =>
        (Some (), fetched data s,
         [Call (fetchExcelFromApi_request (ApiForm.apiReq (form s)));
          Emit (changeActiveStep (activeStep (props s) + 1))])
    | None =>
        (Some (), set_uploadLoading false (set_uploadLoading true s),
         [Call (fetchExcelFromApi_request (ApiForm.apiReq (form s)));
          ConsoleError "Fetch Excel from API failed:";
          Message error "通过API获取Excel失败"])
    end.
Proof.
  intros Hv Hex Hty Hbusy. unfold ApiForm.next. mstep.
  rewrite Hv, Hex, Hty, Hbusy. unfold when. cbv beta iota.
  mstep. mstep.
  destruct (Api.fetchExcelFromApi api _) as [data|].
  - erewrite run_settle_resolved; cycle 1.
    { repeat mstep. reflexivity. }
    { reflexivity. }
    reflexivity.
  - erewrite run_settle_caught; cycle 1.
    { reflexivity. }
    { reflexivity. }
    reflexivity.
Qed.

(** [next] on a valid form of a relational type. *)
Lemma next_db_busy api validate s :
  validate s = true →
  is_string "excel" (field "type" (form s)) = false →
  is_string "api" (field "type" (form s)) = false →
  checkLoading s = true →
  ApiForm.next api (Some validate) s = (Some (), s, []).
Proof.
  intros Hv Hex Hty Hbusy. unfold ApiForm.next. mstep.
  by rewrite Hv, Hex, Hty, Hbusy.
Qed.

Lemma next_db_run api validate s obj :
  validate s = true →
  is_string "excel" (field "type" (form s)) = false →
  is_string "api" (field "type" (form s)) = false →
  checkLoading s = false →
  result ApiForm.buildConf s = Some obj →
  let s1 := set_checkLoading true (set_form (form (exec ApiForm.buildConf s)) s) in
  ApiForm.next api (Some validate) s
  = (Some (), set_checkLoading false (checked api obj s1).1,
     Call (check_request obj) :: (checked api obj s1).2).
Proof.
  intros Hv Hex Hty Hbusy Hobj s1. unfold ApiForm.next. mstep.
  rewrite Hv, Hex, Hty, Hbusy. unfold when. cbv beta iota.
  erewrite run_bind by (rewrite (buildConf_exec s), Hobj; reflexivity).
  mstep. mstep. fold s1. cbn [app].
  unfold checked.
  destruct (Api.check api obj) as [[]|].
  - destruct (Api.getTablesByConf api obj) as [res|].
    + erewrite run_settle_resolved; cycle 1.
      { mstep. mstep. mstep.
        erewrite run_settle_resolved; cycle 1.
        { reflexivity. }
        { reflexivity. }
        reflexivity. }
      { reflexivity. }
      reflexivity.
    + erewrite run_settle_resolved; cycle 1.
      { mstep. mstep. mstep.
        erewrite run_settle_rejected; cycle 1.
        { reflexivity. }
        reflexivity. }
      { reflexivity. }
      reflexivity.
  - erewrite run_settle_resolved; cycle 1.
    { reflexivity. }
    { reflexivity. }
    reflexivity.
  - erewrite run_settle_rejected; cycle 1.
    { reflexivity. }
    reflexivity.
Qed.

(** *** [save] *)

Lemma save_no_form api confirmed s : ApiForm.save api None confirmed s = (Some (), s, []).
Proof. reflexivity. Qed.

Lemma save_invalid api validate confirmed s :
  validate s = false → ApiForm.save api (Some validate) confirmed s = (Some (), s, []).
Proof. intros Hv. unfold ApiForm.save. mstep. by rewrite Hv. Qed.

Lemma save_declined api validate s :
  validate s = true → (30 < length (checkTableList s))%nat →
  ApiForm.save api (Some validate) false s
  = (Some (), s, [Confirm (length (checkTableList s))]).
Proof.
  intros Hv Hn. unfold ApiForm.save. mstep. rewrite Hv. unfold when. cbv beta iota.
  rewrite bool_decide_eq_true_2 by done.
  erewrite run_bind by reflexivity. reflexivity.
Qed.

(** What is left of [save] once the form is valid and the selection is small
    or confirmed. *)
Lemma save_run api validate confirmed s obj :
  validate s = true →
  ((length (checkTableList s) ≤ 30)%nat ∨ confirmed = true) →
  result ApiForm.buildConf (set_saveLoading true s) = Some obj →
  let s1 := set_form (form (exec ApiForm.buildConf (set_saveLoading true s)))
              (set_saveLoading true s) in
  ApiForm.save api (Some validate) confirmed s
  = (Some (), (saved api obj (selected_tables s) s1).1,
     confirmation s ++ (saved api obj (selected_tables s) s1).2).
Proof.
  intros Hv Hok Hobj s1. unfold ApiForm.save. mstep. rewrite Hv.
  unfold when. cbv beta iota. unfold confirmation.
  assert (Hproceed :
    ((if bool_decide (30 < length (checkTableList s))%nat
      then tell (Confirm (length (checkTableList s))) ≫= λ _ : (), mret confirmed
      else mret true) : M bool) s
    = (Some true, s,
       if bool_decide (30 < length (checkTableList s))%nat
       then [Confirm (length (checkTableList s))] else [])).
  { destruct (bool_decide (30 < length (checkTableList s))%nat) eqn:Hn; [|done].
    destruct Hok as [Hok| ->]; [apply bool_decide_eq_true in Hn; lia | done]. }
  erewrite run_bind by exact Hproceed. cbv beta iota.
  mstep.
  erewrite run_bind by (rewrite (buildConf_exec (set_saveLoading true s)), Hobj; reflexivity).
  mstep. fold s1. cbn [app]. unfold saved, save_target.
  destruct (truthy (field "id" (form s1))); [destruct (negb (isEditTable s1))|].
  all: mstep.
  all: match goal with
       | |- context [settle ?a _ _ _ _] => destruct a as [[]|]
       end.
  all: first
         [ erewrite run_settle_resolved; cycle 1;
           [ reflexivity | reflexivity | reflexivity ]
         | erewrite run_settle_rejected; cycle 1;
           [ reflexivity | reflexivity ] ].
Qed.

Lemma save_throws api validate confirmed s :
  validate s = true →
  ((length (checkTableList s) ≤ 30)%nat ∨ confirmed = true) →
  result ApiForm.buildConf (set_saveLoading true s) = None →
  ApiForm.save api (Some validate) confirmed s
  = (None, set_form (form (exec ApiForm.buildConf (set_saveLoading true s)))
             (set_saveLoading true s),
     confirmation s).
Proof.
  intros Hv Hok Hobj. unfold ApiForm.save. mstep. rewrite Hv.
  unfold when. cbv beta iota. unfold confirmation.
  assert (Hproceed :
    ((if bool_decide (30 < length (checkTableList s))%nat
      then tell (Confirm (length (checkTableList s))) ≫= λ _ : (), mret confirmed
      else mret true) : M bool) s
    = (Some true, s,
       if bool_decide (30 < length (checkTableList s))%nat
       then [Confirm (length (checkTableList s))] else [])).
  { destruct (bool_decide (30 < length (checkTableList s))%nat) eqn:Hn; [|done].
    destruct Hok as [Hok| ->]; [apply bool_decide_eq_true in Hn; lia | done]. }
  erewrite run_bind by exact Hproceed. cbv beta iota.
  mstep.
  erewrite run_bind_throw
    by (rewrite (buildConf_exec (set_saveLoading true s)), Hobj; reflexivity).
  cbn [fst snd]. by rewrite app_nil_r.
Qed.

(** The trace of [save] is the confirmation, if any, followed by at most one
    request and the events of a successful save. *)
Lemma save_trace_shape api validate confirmed s :
  ∃ rest,
    trace (ApiForm.save api (Some validate) confirmed) s
    = (if validate s then confirmation s else []) ++ rest
    ∧ ∀ c, Confirm c ∉ rest.
Proof.
  destruct (validate s) eqn:Hv.
  2: { exists []. unfold trace. rewrite (save_invalid api validate confirmed s Hv).
       split; [done|]. intros c. apply not_elem_of_nil. }
  destruct (decide ((length (checkTableList s) ≤ 30)%nat ∨ confirmed = true)) as [Hok|Hno].
  - destruct (result ApiForm.buildConf (set_saveLoading true s)) as [obj|] eqn:Hobj.
    + eexists. unfold trace. rewrite (save_run api validate confirmed s obj Hv Hok Hobj).
      split; [reflexivity|]. intros c. unfold saved.
      destruct (save_target _ _ _ _).2; intros Hin;
        repeat (apply elem_of_cons in Hin as [Hin|Hin]; [done|]);
        by apply elem_of_nil in Hin.
    + exists []. unfold trace. rewrite (save_throws api validate confirmed s Hv Hok Hobj).
      split; [by rewrite app_nil_r|]. intros c. apply not_elem_of_nil.
  - assert (30 < length (checkTableList s))%nat as Hn
      by (destruct (decide (length (checkTableList s) ≤ 30)%nat); [tauto|lia]).
    assert (confirmed = false) as -> by (destruct confirmed; tauto).
    exists []. unfold trace. rewrite (save_declined api validate s Hv Hn).
    unfold confirmation. rewrite bool_decide_eq_true_2 by done.
    split; [done|]. intros c. apply not_elem_of_nil.
Qed.

(** [buildConf] leaves the properties it does not write as they are. *)
Lemma buildConf_field_frame s k :
  k ≠ "configuration" → k ≠ "certificate" →
  field k (form (exec ApiForm.buildConf s)) = field k (form s).
Proof.
  intros Hk1 Hk2.
  destruct (is_string "api" (field "type" (form s))) eqn:Hty.
  - destruct (ApiForm.successStatusCodes_of (form s)) as [codes|] eqn:Hcodes.
    + rewrite (buildConf_api_form s codes Hty Hcodes).
      by rewrite !field_insert_ne by done.
    + by destruct (buildConf_api_no_result s Hty Hcodes) as [_ ->].
  - rewrite (buildConf_db_form s Hty). by rewrite field_insert_ne by done.
Qed.

Lemma save_target_built api obj tables s :
  save_target api obj tables
    (set_form (form (exec ApiForm.buildConf (set_saveLoading true s)))
       (set_saveLoading true s))
  = save_target api obj tables s.
Proof.
  unfold save_target. cbn [form set_form isEditTable set_saveLoading].
  rewrite (buildConf_field_frame (set_saveLoading true s) "id") by done.
  reflexivity.
Qed.

(** *** The concatenate mode *)

Lemma concat_save_few_files api validate confirmed s :
  concatenateMode (props s) = true →
  (length (multipleFiles s) < 2)%nat →
  ConcatForm.save api (Some validate) confirmed s
  = (Some (), s, [Message warning "请至少选择两个文件进行合并"]).
Proof.
  intros Hm Hfiles. unfold ConcatForm.save. mstep. rewrite Hm.
  by rewrite bool_decide_eq_true_2 by done.
Qed.

Lemma concat_save_invalid api validate confirmed s :
  concatenateMode (props s) = true →
  (2 ≤ length (multipleFiles s))%nat →
  validate s = false →
  ConcatForm.save api (Some validate) confirmed s = (Some (), s, []).
Proof.
  intros Hm Hfiles Hv. unfold ConcatForm.save. mstep. rewrite Hm.
  rewrite bool_decide_eq_false_2 by lia. by rewrite Hv.
Qed.

Lemma concat_buildConf_run s :
  ConcatForm.buildConf s
  = (Some (concat_record (form s)), set_form (concat_built (form s)) s, []).
Proof. reflexivity. Qed.

Lemma concat_save_run api validate confirmed s :
  concatenateMode (props s) = true →
  (2 ≤ length (multipleFiles s))%nat →
  validate s = true →
  ConcatForm.save api (Some validate) confirmed s
  = (Some (), (concat_saved api s).1, (concat_saved api s).2).
Proof.
  intros Hm Hfiles Hv. unfold ConcatForm.save. mstep. rewrite Hm.
  rewrite bool_decide_eq_false_2 by lia. rewrite Hv. unfold when. cbv beta iota.
  mstep. unfold concat_saved.
  destruct (Api.concatenateExcels api (ConcatForm.merge_formData (multipleFiles s)))
    as [response|] eqn:Hres; cbv zeta.
  - set (f1 := <["sheets" := _]> (<["filename" := _]> (form s))).
    set (obj := <["tables" := _]> (concat_record f1)).
    destruct (Api.add api obj) as [[]|] eqn:Hadd.
    + erewrite run_try_finally; cycle 1.
      { apply run_try_catch_ok. mstep. mstep.
        cbn [multipleFiles set_saveLoading]. rewrite Hres.
        mstep. mstep. mstep.
        rewrite (run_bind _ _ _ _ _ _ (concat_buildConf_run _)).
        cbn [form set_form]. change (form (set_saveLoading true s)) with (form s).
        mstep. fold f1. fold obj. rewrite Hadd. mstep. mstep.
        reflexivity. }
      { reflexivity. }
      reflexivity.
    + erewrite run_try_finally; cycle 1.
      { erewrite run_try_catch_caught; cycle 1.
        { mstep. mstep. cbn [multipleFiles set_saveLoading]. rewrite Hres.
          mstep. mstep. mstep.
          rewrite (run_bind _ _ _ _ _ _ (concat_buildConf_run _)).
          cbn [form set_form]. change (form (set_saveLoading true s)) with (form s).
          mstep. fold f1. fold obj. rewrite Hadd. mstep.
          reflexivity. }
        reflexivity. }
      { reflexivity. }
      reflexivity.
  - erewrite run_try_finally; cycle 1.
    { erewrite run_try_catch_caught; cycle 1.
      { mstep. mstep. cbn [multipleFiles set_saveLoading]. rewrite Hres.
        mstep. reflexivity. }
      reflexivity. }
    { reflexivity. }
    reflexivity.
Qed.

Lemma concat_next_few_files api validate s :
  concatenateMode (props s) = true →
  (length (multipleFiles s) < 2)%nat →
  ConcatForm.next api (Some validate) s
  = (Some (), s, [Message warning "请至少选择两个文件进行合并"]).
Proof.
  intros Hm Hfiles. unfold ConcatForm.next. mstep. rewrite Hm.
  by rewrite bool_decide_eq_false_2 by lia.
Qed.

Lemma concat_next_no_name api validate s :
  concatenateMode (props s) = true →
  (2 ≤ length (multipleFiles s))%nat →
  ConcatForm.name_missing (form s) = Some true →
  ConcatForm.next api (Some validate) s
  = (Some (), s, [Message warning "请输入数据源名称"]).
Proof.
  intros Hm Hfiles Hname. unfold ConcatForm.next. mstep. rewrite Hm.
  rewrite bool_decide_eq_true_2 by lia. rewrite Hname. mstep. reflexivity.
Qed.

Lemma concat_next_name_throws api validate s :
  concatenateMode (props s) = true →
  (2 ≤ length (multipleFiles s))%nat →
  ConcatForm.name_missing (form s) = None →
  ConcatForm.next api (Some validate) s = (None, s, []).
Proof.
  intros Hm Hfiles Hname. unfold ConcatForm.next. mstep. rewrite Hm.
  rewrite bool_decide_eq_true_2 by lia. rewrite Hname. reflexivity.
Qed.

Lemma concat_next_rejected api validate s :
  concatenateMode (props s) = true →
  (2 ≤ length (multipleFiles s))%nat →
  ConcatForm.name_missing (form s) = Some false →
  Api.concatenateExcels api (ConcatForm.merge_formData (multipleFiles s)) = None →
  ConcatForm.next api (Some validate) s
  = (Some (), s,
     [Call (concatenateExcels_request (ConcatForm.merge_formData (multipleFiles s)));
      Message error "文件合并失败，请检查文件格式和内容";
      ConsoleError "文件合并错误:"]).
Proof.
  intros Hm Hfiles Hname Hrej. unfold ConcatForm.next. mstep. rewrite Hm.
  rewrite bool_decide_eq_true_2 by lia. rewrite Hname. mstep.
  erewrite run_try_catch_caught; cycle 1.
  { mstep. rewrite Hrej. mstep. reflexivity. }
  reflexivity.
Qed.

(** With two files, a name and a merged file, [next] is the merge request
    followed by [save] on the merged state. *)
Lemma concat_next_merged api validate s response :
  concatenateMode (props s) = true →
  (2 ≤ length (multipleFiles s))%nat →
  ConcatForm.name_missing (form s) = Some false →
  Api.concatenateExcels api (ConcatForm.merge_formData (multipleFiles s)) = Some response →
  ConcatForm.next api (Some validate) s
  = (Some (),
     (if validate (merged response s) then (concat_saved api (merged response s)).1
      else merged response s),
     Call (concatenateExcels_request (ConcatForm.merge_formData (multipleFiles s)))
     :: (if validate (merged response s) then (concat_saved api (merged response s)).2
         else [])).
Proof.
  intros Hm Hfiles Hname Hres. unfold ConcatForm.next. mstep. rewrite Hm.
  rewrite bool_decide_eq_true_2 by lia. rewrite Hname. mstep.
  assert (Hm' : concatenateMode (props (merged response s)) = true) by done.
  assert (Hfiles' : (2 ≤ length (multipleFiles (merged response s)))%nat) by done.
  erewrite run_try_catch_ok; [reflexivity|].
  mstep. rewrite Hres. mstep. do 5 mstep.
  match goal with
  | |- context [ConcatForm.save api (Some validate) false ?st] =>
      change st with (merged response s)
  end.
  destruct (validate (merged response s)) eqn:Hv.
  - by rewrite (concat_save_run api validate false _ Hm' Hfiles' Hv).
  - by rewrite (concat_save_invalid api validate false _ Hm' Hfiles' Hv).
Qed.

(** *** [next] of the concatenate revision outside the concatenate mode *)

Lemma plain_next_invalid api validate s :
  concatenateMode (props s) = false → validate s = false →
  ConcatForm.next api (Some validate) s = (Some (), s, []).
Proof. intros Hm Hv. unfold ConcatForm.next. mstep. by rewrite Hm, Hv. Qed.

Lemma plain_next_excel api validate s :
  concatenateMode (props s) = false → validate s = true →
  is_string "excel" (field "type" (form s)) = true →
  ConcatForm.next api (Some validate) s
  = (Some (), s,
     if excelUploadSuccess s
     then [Emit (changeActiveStep (activeStep (props s) + 1))] else []).
Proof.
  intros Hm Hv Hty. unfold ConcatForm.next. mstep. rewrite Hm, Hv, Hty.
  by destruct (excelUploadSuccess s).
Qed.

Lemma plain_next_busy api validate s :
  concatenateMode (props s) = false → validate s = true →
  is_string "excel" (field "type" (form s)) = false →
  checkLoading s = true →
  ConcatForm.next api (Some validate) s = (Some (), s, []).
Proof.
  intros Hm Hv Hex Hbusy. unfold ConcatForm.next. mstep.
  by rewrite Hm, Hv, Hex, Hbusy.
Qed.

Lemma plain_next_run api validate s :
  concatenateMode (props s) = false → validate s = true →
  is_string "excel" (field "type" (form s)) = false →
  checkLoading s = false →
  let obj := concat_record (form s) in
  let s1 := set_checkLoading true (set_form (concat_built (form s)) s) in
  ConcatForm.next api (Some validate) s
  = (Some (), set_checkLoading false (checked api obj s1).1,
     Call (check_request obj) :: (checked api obj s1).2).
Proof.
  intros Hm Hv Hex Hbusy obj s1. unfold ConcatForm.next. mstep.
  rewrite Hm, Hv, Hex, Hbusy. unfold when. cbv beta iota.
  rewrite (run_bind _ _ _ _ _ _ (concat_buildConf_run s)).
  mstep. mstep. fold obj. fold s1. cbn [app].
  unfold checked.
  destruct (Api.check api obj) as [[]|].
  - destruct (Api.getTablesByConf api obj) as [res|].
    + erewrite run_settle_resolved; cycle 1.
      { mstep. mstep. mstep.
        erewrite run_settle_resolved; cycle 1.
        { reflexivity. }
        { reflexivity. }
        reflexivity. }
      { reflexivity. }
      reflexivity.
    + erewrite run_settle_resolved; cycle 1.
      { mstep. mstep. mstep.
        erewrite run_settle_rejected; cycle 1.
        { reflexivity. }
        reflexivity. }
      { reflexivity. }
      reflexivity.
  - erewrite run_settle_resolved; cycle 1.
    { reflexivity. }
    { reflexivity. }
    reflexivity.
  - erewrite run_settle_rejected; cycle 1.
    { reflexivity. }
    reflexivity.
Qed.

(** In the concatenate mode [next] never changes the step. *)
Lemma concat_next_step_changes api validate s :
  concatenateMode (props s) = true →
  step_changes (trace (ConcatForm.next api (Some validate)) s) = [].
Proof.
  intros Hm. unfold trace.
  destruct (decide (length (multipleFiles s) < 2)%nat) as [Hfiles|Hfiles].
  { by rewrite (concat_next_few_files api validate s Hm Hfiles). }
  assert (Hfiles' : (2 ≤ length (multipleFiles s))%nat) by lia.
  destruct (ConcatForm.name_missing (form s)) as [[]|] eqn:Hname.
  { by rewrite (concat_next_no_name api validate s Hm Hfiles' Hname). }
  2: { by rewrite (concat_next_name_throws api validate s Hm Hfiles' Hname). }
  destruct (Api.concatenateExcels api (ConcatForm.merge_formData (multipleFiles s)))
    as [response|] eqn:Hres.
  2: { by rewrite (concat_next_rejected api validate s Hm Hfiles' Hname Hres). }
  rewrite (concat_next_merged api validate s response Hm Hfiles' Hname Hres).
  cbn [snd]. destruct (validate (merged response s)); [|done].
  unfold concat_saved.
  change (multipleFiles (merged response s)) with (multipleFiles s). rewrite Hres.
  cbv zeta. cbn [snd]. by destruct (Api.add api _).
Qed.

End wizard.

(** A trace without step changes holds no [changeActiveStep] event. *)
Lemma step_changes_nil tr n :
  step_changes tr = [] → Emit (changeActiveStep n) ∉ tr.
Proof.
  intros Hnil Hin.
  assert (Hn : n ∈ step_changes tr).
  { unfold step_changes. apply list_elem_of_omap. by exists (Emit (changeActiveStep n)). }
  rewrite Hnil in Hn. by apply elem_of_nil in Hn.
Qed.

(** ** Properties of [initForm] *)

Section assign_facts.

Context `{!Engine}.

Implicit Types (f : gmap string value) (k : string).

Lemma field_assign read keys f k :
  field k (assign read keys f) = if decide (k ∈ keys) then read k else field k f.
Proof.
  unfold assign. revert f. induction keys as [|k' keys IH]; intros f; simpl; [done|].
  rewrite IH. destruct (decide (k ∈ keys)) as [Hin|Hin].
  - by rewrite decide_True by by right.
  - destruct (decide (k = k')) as [->|Hne].
    + rewrite field_insert. by rewrite decide_True by left.
    + rewrite field_insert_ne by done. rewrite decide_False; [done|].
      by intros [?|?]%elem_of_cons.
Qed.

Lemma truthy_json_reload v : truthy (json_reload v) = truthy v.
Proof. by destruct v. Qed.

Lemma or_else_json_reload v d :
  json_reload d = d →
  or_else (json_reload (or_else v d)) d = if truthy v then json_reload v else d.
Proof.
  intros Hd. unfold or_else at 2. destruct (truthy v) eqn:Hv.
  - unfold or_else. by rewrite truthy_json_reload, Hv.
  - rewrite Hd. unfold or_else. by destruct (truthy d).
Qed.

Lemma field_opened item f k :
  field k (opened item f) = if decide (k ∈ record_keys) then field k item else field k f.
Proof. apply field_assign. Qed.

Lemma field_loaded_db c f k :
  field k (loaded_db c f)
  = if decide (k = "originType") then or_else (prop "originType" c) (VStr "local")
    else if decide (k = "timeout") then timeout_or_30 c
    else if decide (k ∈ db_keys) then prop k c
    else field k f.
Proof.
  unfold loaded_db. destruct (decide (k = "originType")) as [->|Ho].
  { apply field_insert. }
  rewrite field_insert_ne by done. destruct (decide (k = "timeout")) as [->|Ht].
  { apply field_insert. }
  rewrite field_insert_ne by done. apply field_assign.
Qed.

Lemma field_concat_loaded_db c f k :
  field k (concat_loaded_db c f)
  = if decide (k = "timeout") then timeout_or_30 c
    else if decide (k ∈ db_keys) then prop k c
    else field k f.
Proof.
  unfold concat_loaded_db. destruct (decide (k = "timeout")) as [->|Ht].
  { apply field_insert. }
  rewrite field_insert_ne by done. apply field_assign.
Qed.

Lemma form_opened_state f s : form (opened_state f s) = f.
Proof. by destruct s. Qed.

(** A property of the record [buildConf] returns for a relational form. *)
Lemma field_built keys f blob k :
  k ∉ keys → k ≠ "configuration" →
  field k (delete_all keys (json_clone (<["configuration" := VStr blob]> f)))
  = json_reload (field k f).
Proof.
  intros Hk Hne. rewrite field_delete_all, decide_False by done.
  by rewrite field_json_clone, field_insert_ne.
Qed.

Lemma field_built_configuration keys f blob :
  "configuration" ∉ keys →
  field "configuration" (delete_all keys (json_clone (<["configuration" := VStr blob]> f)))
  = VStr blob.
Proof.
  intros Hk. rewrite field_delete_all, decide_False by done.
  by rewrite field_json_clone, field_insert.
Qed.

Lemma field_loaded_api c f k :
  k ∉ ["originType"; "endpoint"; "method"; "requestBody"; "timeout";
       "successStatusCodes"; "certificateList"] →
  field k (loaded_api c f) = field k f.
Proof.
  intros Hk. unfold loaded_api.
  rewrite !field_insert_ne; [done | intros <-; apply Hk; names ..].
Qed.

(** One pass of the loop on an entry that [buildConf] wrote. *)
Lemma certify_entry target key val f :
  certify (json_norm (ApiForm.certificate_entry target key val)) f
  = if String.eqb target "header" then
      <["headerValue" := json_reload val]> (<["headerKey" := json_reload key]> f)
    else if String.eqb target "cookie" then
      <["cookieValue" := json_reload val]> (<["cookieKey" := json_reload key]> f)
    else if String.eqb target "param" then
      <["paramValue" := json_reload val]> (<["paramKey" := json_reload key]> f)
    else f.
Proof.
  unfold certify, ApiForm.certificate_entry.
  rewrite !prop_json_norm by names. reflexivity.
Qed.

Lemma certificateList_readable f :
  Forall (λ cert, cert ≠ VNull ∧ cert ≠ VUndef)
    (map json_norm (ApiForm.certificateList_of f)).
Proof.
  unfold ApiForm.certificateList_of, ApiForm.certificate_of.
  repeat match goal with |- context [if ?b then _ else _] => destruct b end;
    cbn [app map]; repeat constructor; done.
Qed.

(** What the loop leaves in the six credential fields, and that it leaves
    the others alone. *)
Lemma field_certified f g :
  let certs := map json_norm (ApiForm.certificateList_of f) in
  (∀ kf vf, (kf, vf) ∈ credential_pairs →
     if truthy (field kf f) && truthy (field vf f)
     then field kf (certified certs g) = json_reload (field kf f)
          ∧ field vf (certified certs g) = json_reload (field vf f)
     else field kf (certified certs g) = field kf g
          ∧ field vf (certified certs g) = field vf g)
  ∧ (∀ k, k ∉ api_auth_fields → field k (certified certs g) = field k g).
Proof.
  intros certs. subst certs.
  unfold ApiForm.certificateList_of, ApiForm.certificate_of, certified.
  destruct (truthy (field "headerKey" f) && truthy (field "headerValue" f)) eqn:Hh;
    destruct (truthy (field "cookieKey" f) && truthy (field "cookieValue" f)) eqn:Hc;
    destruct (truthy (field "paramKey" f) && truthy (field "paramValue" f)) eqn:Hp;
    cbn [app map foldl]; rewrite ?certify_entry;
    cbn [String.eqb Ascii.eqb Bool.eqb];
    (split;
     [ intros kf vf Hin; unfold credential_pairs in Hin;
       repeat (apply elem_of_cons in Hin as [[= -> ->]|Hin]);
       [ rewrite ?Hh, ?Hc, ?Hp; split;
         repeat (rewrite field_insert || rewrite field_insert_ne by done); done ..
       | by apply elem_of_nil in Hin ]
     | intros k Hk; rewrite ?field_insert_ne; [done | intros <-; apply Hk; names ..] ]).
Qed.

End assign_facts.

Lemma watch_keywords_run `{!Engine} s :
  watch_keywords s = (Some (), exec watch_keywords s, []).
Proof. reflexivity. Qed.

Section load.

Context `{!Engine, !Aes, !Json, !Utils}.

Implicit Types (s : State) (item f : gmap string value) (c : value).

Lemma load_db_run c s :
  c ≠ VNull → c ≠ VUndef →
  ApiForm.load_db c s = (Some (), set_form (loaded_db c (form s)) s, []).
Proof.
  intros Hn Hu. unfold ApiForm.load_db.
  assert (Hr : readable c s = (Some (), s, [])) by by destruct c.
  rewrite (run_bind _ _ _ _ _ _ Hr). cbn [app].
  do 11 mstep. unfold set_field, modify, loaded_db, assign, db_keys.
  cbn [foldl]. destruct s. reflexivity.
Qed.

Lemma parse_configuration_run blob text c s :
  decrypted blob = Some text → JSON_parse text = Some c →
  parse_configuration (VStr blob) s = (Some c, s, []).
Proof. intros Hd Hp. unfold parse_configuration. by rewrite Hd, Hp. Qed.

(** The synchronous part of [initForm] on a record of a relational type
    whose configuration decrypts and parses. *)
Lemma initForm_sync_db item blob text c s :
  field "configuration" item = VStr blob → blob ≠ "" →
  decrypted blob = Some text → JSON_parse text = Some c →
  c ≠ VNull → c ≠ VUndef →
  is_string "api" (field "type" item) = false →
  ApiForm.initForm_sync (Some item) false s
  = (Some (), opened_state (loaded_db c (opened item (form s))) s, [ClearValidate]).
Proof.
  intros Hc Hne Hd Hp Hn Hu Hty. unfold ApiForm.initForm_sync.
  do 3 mstep.
  erewrite run_bind; cycle 1.
  { do 6 mstep. rewrite Hc. cbn [truthy].
    assert (Hb : negb (String.eqb blob "") = true).
    { apply negb_true_iff. by apply String.eqb_neq. }
    rewrite Hb. unfold when. cbv beta iota.
    erewrite run_bind; cycle 1.
    { erewrite run_bind by (by apply (parse_configuration_run blob text c)).
      cbv beta iota. rewrite Hty. rewrite load_db_run by done. reflexivity. }
    cbv beta iota. reflexivity. }
  cbv beta iota. unfold modify, ret, opened_state, opened, assign, record_keys.
  cbn [fst snd app foldl]. rewrite Hc. destruct s. reflexivity.
Qed.

Lemma load_certificate_run cert s :
  cert ≠ VNull → cert ≠ VUndef →
  ApiForm.load_certificate cert s = (Some (), set_form (certify cert (form s)) s, []).
Proof.
  intros Hn Hu. unfold certify.
  assert (Hbody : ApiForm.load_certificate cert
                  = if is_string "header" (prop "target" cert) then
                      set_field "headerKey" (prop "key" cert);;
                      set_field "headerValue" (prop "value" cert)
                    else if is_string "cookie" (prop "target" cert) then
                      set_field "cookieKey" (prop "key" cert);;
                      set_field "cookieValue" (prop "value" cert)
                    else if is_string "param" (prop "target" cert) then
                      set_field "paramKey" (prop "key" cert);;
                      set_field "paramValue" (prop "value" cert)
                    else ret ()) by by destruct cert.
  rewrite Hbody.
  destruct (is_string "header" (prop "target" cert));
    [|destruct (is_string "cookie" (prop "target" cert));
      [|destruct (is_string "param" (prop "target" cert))]];
    try (mstep; unfold set_field, modify); by destruct s.
Qed.

Lemma for_of_certificates certs s :
  Forall (λ cert, cert ≠ VNull ∧ cert ≠ VUndef) certs →
  for_of certs ApiForm.load_certificate s
  = (Some (), set_form (certified certs (form s)) s, []).
Proof.
  intros Hall. revert s. induction Hall as [|cert certs [Hn Hu] _ IH]; intros s.
  - by destruct s.
  - cbn [for_of]. erewrite run_bind by by apply load_certificate_run.
    rewrite IH. by destruct s.
Qed.

Lemma load_api_run item c text certs s :
  c ≠ VNull → c ≠ VUndef →
  field "certificate" item = VStr text → text ≠ "" →
  JSON_parse text = Some (VArr certs) →
  Forall (λ cert, cert ≠ VNull ∧ cert ≠ VUndef) certs →
  ApiForm.load_api item c s
  = (Some (), set_form (certified certs (loaded_api c (form s))) s, []).
Proof.
  intros Hn Hu Hcert Hne Hp Hall. unfold ApiForm.load_api. mstep.
  assert (Hr : ∀ s, readable c s = (Some (), s, [])) by by destruct c.
  rewrite (run_bind _ _ _ _ _ _ (Hr _)). cbn [app].
  do 6 mstep. rewrite Hcert. cbn [truthy toString join_item].
  assert (Hb : negb (String.eqb text "") = true).
  { apply negb_true_iff. by apply String.eqb_neq. }
  rewrite Hb, Hp. unfold when, set_field, modify. cbv beta iota.
  erewrite run_try_catch_ok; cycle 1.
  { unfold ApiForm.load_certificates. apply for_of_certificates, Hall. }
  unfold loaded_api. by destruct s.
Qed.

(** The synchronous part of [initForm] on an [api] record whose
    configuration decrypts and parses and whose certificate parses. *)
Lemma initForm_sync_api item blob text c certificate certs s :
  field "configuration" item = VStr blob → blob ≠ "" →
  decrypted blob = Some text → JSON_parse text = Some c →
  c ≠ VNull → c ≠ VUndef →
  is_string "api" (field "type" item) = true →
  field "certificate" item = VStr certificate → certificate ≠ "" →
  JSON_parse certificate = Some (VArr certs) →
  Forall (λ cert, cert ≠ VNull ∧ cert ≠ VUndef) certs →
  ApiForm.initForm_sync (Some item) false s
  = (Some (),
     opened_state (certified certs (loaded_api c (opened item (form s)))) s,
     [ClearValidate]).
Proof.
  intros Hc Hne Hd Hp Hn Hu Hty Hcert Hcne Hcp Hall. unfold ApiForm.initForm_sync.
  do 3 mstep.
  erewrite run_bind; cycle 1.
  { do 6 mstep. rewrite Hc. cbn [truthy].
    assert (Hb : negb (String.eqb blob "") = true).
    { apply negb_true_iff. by apply String.eqb_neq. }
    rewrite Hb. unfold when. cbv beta iota.
    erewrite run_bind; cycle 1.
    { erewrite run_bind by (by apply (parse_configuration_run blob text c)).
      cbv beta iota. rewrite Hty.
      rewrite (load_api_run item c certificate certs) by done. reflexivity. }
    cbv beta iota. reflexivity. }
  cbv beta iota. unfold modify, ret, opened_state, opened, assign, record_keys.
  cbn [fst snd app foldl]. rewrite Hc. destruct s. reflexivity.
Qed.

(** [initForm] without [editTable] is its synchronous part followed by the
    watcher of the keyword, which leaves the form alone. *)
Lemma initForm_loaded api item s s' tr :
  ApiForm.initForm_sync (Some item) false s = (Some (), s', tr) →
  result (ApiForm.initForm api (Some item) false) s = Some ()
  ∧ form (exec (ApiForm.initForm api (Some item) false) s) = form s'
  ∧ dialogVisible (exec (ApiForm.initForm api (Some item) false) s) = dialogVisible s'
  ∧ isCreate (exec (ApiForm.initForm api (Some item) false) s) = isCreate s'
  ∧ trace (ApiForm.initForm api (Some item) false) s = tr.
Proof.
  intros Hsync.
  assert (Hfin : ∃ s'', try_finally (ApiForm.initForm_sync (Some item) false)
                   (when (negb (String.eqb (keywords s) "")) watch_keywords) s
                 = (Some (), s'', tr)
                 ∧ form s'' = form s' ∧ dialogVisible s'' = dialogVisible s'
                 ∧ isCreate s'' = isCreate s').
  { destruct (negb (String.eqb (keywords s) "")).
    - exists (exec watch_keywords s'). split; [|done].
      rewrite <- (app_nil_r tr).
      eapply run_try_finally; [exact Hsync | apply watch_keywords_run].
    - exists s'. split; [|done].
      rewrite <- (app_nil_r tr).
      eapply run_try_finally; [exact Hsync | reflexivity]. }
  destruct Hfin as (s'' & Hfin & Hform & Hdv & Hic).
  unfold result, exec, trace, ApiForm.initForm. mstep.
  erewrite run_bind by exact Hfin.
  unfold when, ret. cbn [fst snd]. rewrite app_nil_r. by split_and!.
Qed.

(** The watcher of the keyword, which runs once [initForm] has ended when
    the keyword was not empty, whether [initForm] returned or threw. *)
Lemma initForm_watched record editTable s r s1 tr :
  ApiForm.initForm_sync record editTable s = (r, s1, tr) →
  try_finally (ApiForm.initForm_sync record editTable)
    (when (negb (String.eqb (keywords s) "")) watch_keywords) s
  = (r, if negb (String.eqb (keywords s) "") then exec watch_keywords s1 else s1, tr).
Proof.
  intros Hsync. rewrite <- (app_nil_r tr).
  eapply run_try_finally; [exact Hsync|].
  destruct (negb (String.eqb (keywords s) "")); [apply watch_keywords_run | reflexivity].
Qed.

Lemma concat_initForm_watched record editTable s r s1 tr :
  ConcatForm.initForm_sync record editTable s = (r, s1, tr) →
  try_finally (ConcatForm.initForm_sync record editTable)
    (when (negb (String.eqb (keywords s) "")) watch_keywords) s
  = (r, if negb (String.eqb (keywords s) "") then exec watch_keywords s1 else s1, tr).
Proof.
  intros Hsync. rewrite <- (app_nil_r tr).
  eapply run_try_finally; [exact Hsync|].
  destruct (negb (String.eqb (keywords s) "")); [apply watch_keywords_run | reflexivity].
Qed.

(** A configuration that does not decrypt, does not parse, or parses to
    [null]: reading it throws, after at most [originType] was written. *)
Lemma load_unreadable item blob s :
  decrypted blob = None
  ∨ (∃ text, decrypted blob = Some text
       ∧ (JSON_parse text = None ∨ JSON_parse text = Some VNull)) →
  ∃ f, (configuration ← parse_configuration (VStr blob);
        if is_string "api" (field "type" item)
        then ApiForm.load_api item configuration
        else ApiForm.load_db configuration) s = (None, set_form f s, [])
       ∧ ∀ k, k ≠ "originType" → field k f = field k (form s).
Proof.
  intros [Hd | (text & Hd & [Hp | Hp])].
  - exists (form s). split; [|done]. apply run_bind_throw.
    unfold parse_configuration. rewrite Hd. by destruct s.
  - exists (form s). split; [|done]. apply run_bind_throw.
    unfold parse_configuration. rewrite Hd, Hp. by destruct s.
  - erewrite run_bind by by apply (parse_configuration_run blob text VNull).
    cbv beta iota. destruct (is_string "api" (field "type" item)).
    + exists (<["originType" := VStr "api"]> (form s)). split.
      * unfold ApiForm.load_api. mstep. by destruct s.
      * intros k Hk. by rewrite field_insert_ne.
    + exists (form s). split; [|done]. by destruct s.
Qed.

Lemma filter_elem_of_nil (l : list string) : filter (λ x, x ∈ @nil string) l = [].
Proof.
  induction l as [|x l IH]; [done|].
  rewrite filter_cons_False; [done|]. apply not_elem_of_nil.
Qed.

(** The watcher of the keyword on a component without tables. *)
Lemma watch_keywords_no_tables s :
  tableList s = [] →
  checkList (exec watch_keywords s) = []
  ∧ checkAll (exec watch_keywords s) = true
  ∧ isIndeterminate (exec watch_keywords s) = false.
Proof.
  intros Htl.
  assert (Hvis : tableListWithSearch s = []).
  { unfold tableListWithSearch. rewrite Htl. by destruct (negb _). }
  assert (Hcl : checkList (exec watch_keywords s) = []).
  { change (filter (λ ele, ele ∈ tableName <$> tableListWithSearch s) (checkTableList s) = []).
    rewrite Hvis. apply filter_elem_of_nil. }
  split_and!; [done | |].
  - change (bool_decide (length (checkList (exec watch_keywords s))
                         = length (tableListWithSearch s)) = true).
    by rewrite Hcl, Hvis.
  - change (bool_decide (0 < length (checkList (exec watch_keywords s)))%nat
            && bool_decide (length (checkList (exec watch_keywords s))
                            < length (tableListWithSearch s))%nat = false).
    by rewrite Hcl, Hvis.
Qed.

(** The same in the revision with the concatenate mode. *)
Lemma concat_load_db_run c s :
  c ≠ VNull → c ≠ VUndef →
  ConcatForm.load_db c s = (Some (), set_form (concat_loaded_db c (form s)) s, []).
Proof.
  intros Hn Hu. unfold ConcatForm.load_db.
  assert (Hr : readable c s = (Some (), s, [])) by by destruct c.
  rewrite (run_bind _ _ _ _ _ _ Hr). cbn [app].
  do 10 mstep. unfold set_field, modify, concat_loaded_db, assign, db_keys.
  cbn [foldl]. destruct s. reflexivity.
Qed.

Lemma concat_initForm_sync_db item blob text c s :
  field "configuration" item = VStr blob → blob ≠ "" →
  decrypted blob = Some text → JSON_parse text = Some c →
  c ≠ VNull → c ≠ VUndef →
  ConcatForm.initForm_sync (Some item) false s
  = (Some (), opened_state (concat_loaded_db c (opened item (form s))) s, [ClearValidate]).
Proof.
  intros Hc Hne Hd Hp Hn Hu. unfold ConcatForm.initForm_sync.
  do 3 mstep.
  erewrite run_bind; cycle 1.
  { do 6 mstep. rewrite Hc. cbn [truthy].
    assert (Hb : negb (String.eqb blob "") = true).
    { apply negb_true_iff. by apply String.eqb_neq. }
    rewrite Hb. unfold when. cbv beta iota.
    erewrite run_bind; cycle 1.
    { erewrite run_bind by (by apply (parse_configuration_run blob text c)).
      cbv beta iota. rewrite concat_load_db_run by done. reflexivity. }
    cbv beta iota. reflexivity. }
  cbv beta iota. unfold modify, ret, opened_state, opened, assign, record_keys.
  cbn [fst snd app foldl]. rewrite Hc. destruct s. reflexivity.
Qed.

Lemma concat_initForm_loaded api item s s' tr :
  ConcatForm.initForm_sync (Some item) false s = (Some (), s', tr) →
  result (ConcatForm.initForm api (Some item) false) s = Some ()
  ∧ form (exec (ConcatForm.initForm api (Some item) false) s) = form s'
  ∧ dialogVisible (exec (ConcatForm.initForm api (Some item) false) s) = dialogVisible s'
  ∧ isCreate (exec (ConcatForm.initForm api (Some item) false) s) = isCreate s'
  ∧ trace (ConcatForm.initForm api (Some item) false) s = tr.
Proof.
  intros Hsync.
  pose proof (concat_initForm_watched (Some item) false s _ _ _ Hsync) as Hfin.
  unfold result, exec, trace, ConcatForm.initForm. mstep.
  erewrite run_bind by exact Hfin.
  unfold when, ret. cbn [fst snd]. rewrite app_nil_r.
  by destruct (negb (String.eqb (keywords s) "")).
Qed.

End load.

(** ** The events of the form *)

Section confined_rules.

Context {A B : Type} (p : Props) (P : Event → Prop).

Lemma confined_ret (a : A) : confined p P (mret a).
Proof. intros s Hs. split; [done | constructor]. Qed.

Lemma confined_throw : confined p P (@throw A).
Proof. intros s Hs. split; [done | constructor]. Qed.

Lemma confined_bind (m : M A) (k : A → M B) :
  confined p P m → (∀ a, confined p P (k a)) → confined p P (m ≫= k).
Proof.
  intros Hm Hk s Hs. destruct (Hm s Hs) as [Hp Htr].
  unfold exec, trace in *. unfold mbind, M_bind, bind.
  destruct (m s) as [[[a|] s1] tr1]; cbn [fst snd] in *; [|done].
  destruct (Hk a s1 Hp) as [Hp' Htr']. split; [done|].
  by apply Forall_app.
Qed.

Lemma confined_get (k : State → M B) :
  (∀ s, props s = p → confined p P (k s)) → confined p P (get ≫= k).
Proof.
  intros Hk s Hs. unfold exec, trace. rewrite run_get. by apply Hk.
Qed.

Lemma confined_modify (f : State → State) :
  (∀ s, props (f s) = props s) → confined p P (modify f).
Proof.
  intros Hf s Hs. split; [|constructor].
  unfold exec, modify. cbn [fst snd]. by rewrite Hf.
Qed.

Lemma confined_tell e : (∀ ev, e = Emit ev → P ev) → confined p P (tell e).
Proof. intros He s Hs. split; [done|]. by repeat constructor. Qed.

End confined_rules.

Section confined_more.

Context (p : Props) (P : Event → Prop).

Lemma confined_try_catch (m h : M unit) :
  confined p P m → confined p P h → confined p P (try_catch m h).
Proof.
  intros Hm Hh s Hs. destruct (Hm s Hs) as [Hp Htr].
  unfold exec, trace in *. unfold try_catch.
  destruct (m s) as [[[a|] s1] tr1]; cbn [fst snd] in *; [done|].
  destruct (Hh s1 Hp) as [Hp' Htr']. split; [done|].
  by apply Forall_app.
Qed.

Lemma confined_try_finally (m g : M unit) :
  confined p P m → confined p P g → confined p P (try_finally m g).
Proof.
  intros Hm Hg s Hs. destruct (Hm s Hs) as [Hp Htr].
  unfold exec, trace in *. unfold try_finally. cbn [fst snd].
  destruct (Hg _ Hp) as [Hp' Htr']. split; [done|].
  by apply Forall_app.
Qed.

Lemma confined_settle {A} (answer : option A) then_ catch_ finally_ :
  (∀ a, confined p P (then_ a)) →
  (∀ h, catch_ = Some h → confined p P h) →
  confined p P finally_ →
  confined p P (settle answer then_ catch_ finally_).
Proof.
  intros Hthen Hcatch Hfin. unfold settle, unhandled.
  apply confined_try_catch; [|apply confined_ret].
  apply confined_try_finally; [|done].
  assert (Hbody : confined p P (match answer with
                                | Some a => then_ a | None => throw end)).
  { destruct answer; [apply Hthen | apply confined_throw]. }
  destruct catch_ as [h|]; [|done].
  apply confined_try_catch; [done | by apply Hcatch].
Qed.

Lemma confined_when b (m : M unit) :
  (b = true → confined p P m) → confined p P (when b m).
Proof. intros Hm. destruct b; [by apply Hm | apply confined_ret]. Qed.

Lemma confined_weaken {A} (Q : Event → Prop) (m : M A) :
  (∀ ev, Q ev → P ev) → confined p Q m → confined p P m.
Proof.
  intros HQ Hm s Hs. destruct (Hm s Hs) as [Hp Htr]. split; [done|].
  eapply Forall_impl; [exact Htr|]. intros e He ev Hev. apply HQ. by apply He.
Qed.

End confined_more.

(** One rule of the above, for the statement at hand. *)
Ltac confine_step :=
  lazymatch goal with
  | |- confined _ _ (mret _) => apply confined_ret
  | |- confined _ _ (ret _) => apply confined_ret
  | |- confined _ _ throw => apply confined_throw
  | |- confined _ _ (get ≫= _) => apply confined_get; intros ? ?
  | |- confined _ _ (modify _) => apply confined_modify; reflexivity
  | |- confined _ _ (set_field _ _) => apply confined_modify; reflexivity
  | |- confined _ _ (tell _) => apply confined_tell; intros ? [=]
  | |- confined _ _ (request _) => apply confined_tell; intros ? [=]
  | |- confined _ _ (ElMessage _ _) => apply confined_tell; intros ? [=]
  | |- confined _ _ (emit _) => apply confined_tell; intros ? [= <-]
  | |- confined _ _ (try_catch _ _) => apply confined_try_catch
  | |- confined _ _ (try_finally _ _) => apply confined_try_finally
  | |- confined _ _ (settle _ _ _ _) =>
      apply confined_settle; [intros ? | intros ? [= <-] | ]
  | |- confined _ _ (when _ _) => apply confined_when; intros ?
  | |- confined _ _ (_ ≫= _) => apply confined_bind; [|intros ?]
  | |- confined _ _ (if ?b then _ else _) => destruct b eqn:?
  | |- confined _ _ (match ?x with _ => _ end) => destruct x eqn:?
  end.

Section form_events.

Context `{!Engine, !Aes, !Json, !Utils}.

Lemma confined_buildConf p P : confined p P ConcatForm.buildConf.
Proof. unfold ConcatForm.buildConf. repeat confine_step. Qed.

Lemma confined_close p :
  confined p (λ ev, ev = changeActiveStep 0 ∨ ev = close_event) close.
Proof. unfold close. repeat confine_step; auto. Qed.

Lemma confined_preview p :
  confined p (λ ev, ev = changeActiveStep (activeStep p - 1)) preview.
Proof.
  unfold preview. repeat confine_step.
  match goal with H : props _ = p |- _ => by rewrite H end.
Qed.

Lemma confined_save api dsFormRef confirmed p :
  confined p (button_event p (save_button dsFormRef confirmed))
    (ConcatForm.save api dsFormRef confirmed).
Proof.
  unfold ConcatForm.save, button_event.
  destruct dsFormRef as [validate|]; [|apply confined_ret].
  apply confined_get. intros s Hs. rewrite Hs.
  destruct (concatenateMode p).
  - repeat first [apply confined_buildConf | confine_step]; auto.
  - unfold close. repeat first [apply confined_buildConf | confine_step]; auto.
Qed.

Lemma confined_next api dsFormRef p :
  confined p (button_event p (next_button dsFormRef)) (ConcatForm.next api dsFormRef).
Proof.
  unfold ConcatForm.next, button_event.
  destruct dsFormRef as [validate|]; [|apply confined_ret].
  pose proof (confined_save api (Some validate) false p) as Hsave.
  unfold button_event in Hsave.
  apply confined_get. intros s Hs. rewrite Hs.
  destruct (concatenateMode p) eqn:Hmode.
  - repeat first [exact Hsave | confine_step].
  - repeat first [apply confined_buildConf | confine_step]; try done;
      match goal with H : props _ = p |- _ => by rewrite H end.
Qed.

Lemma confined_initForm api item editTable p :
  confined p (λ ev, ev = changeActiveStep 2) (ConcatForm.initForm api item editTable).
Proof.
  unfold ConcatForm.initForm, ConcatForm.initForm_sync, ConcatForm.initForm_tableList,
    ConcatForm.load_db, parse_configuration, readable, watch_keywords,
    handleCheckedTablesChange.
  repeat first [apply confined_buildConf | confine_step]; done.
Qed.

Lemma confined_press api b p : confined p (button_event p b) (press api b).
Proof.
  destruct b as [| |dsFormRef|dsFormRef confirmed].
  - apply confined_close.
  - apply confined_preview.
  - apply confined_next.
  - apply confined_save.
Qed.

End form_events.

(** The drawer after a trace, from what each event does to it. *)
Lemma on_trace_preserves (I : Drawer.t → Prop) tr d :
  I d →
  Forall (λ e, ∀ ev, e = Emit ev → ∀ d', I d' → I (on_event ev d').1) tr →
  I (on_trace tr d).1.
Proof.
  intros Hd Htr. unfold on_trace.
  generalize (@nil Drawer.Out). revert d Hd.
  induction Htr as [|e tr He _ IH]; intros d Hd outs; [done|].
  cbn [foldl]. destruct e as [ev| | | | |]; try by apply IH.
  cbn [fst snd]. apply IH. by apply (He ev).
Qed.

Lemma on_trace_nil d : on_trace [] d = (d, []).
Proof. reflexivity. Qed.

Lemma on_trace_emit ev d :
  on_trace [Emit ev] d = on_event ev d.
Proof. unfold on_trace. cbn [foldl fst snd app]. by destruct (on_event ev d). Qed.

Lemma changeActiveStep_bounds val d :
  0 ≤ val → 0 ≤ Drawer.activeStep (Drawer.changeActiveStep val d).1 ≤ 2.
Proof. intros Hval. cbn [Drawer.changeActiveStep fst Drawer.activeStep]. case_match; lia. Qed.

(** The raw files of a list of picker entries are at most as many. *)
Lemma length_omap_id {A} (l : list (option A)) : (length (omap id l) ≤ length l)%nat.
Proof.
  induction l as [|[x|] l IH]; [done | |].
  - change (S (length (omap id l)) ≤ S (length l))%nat. lia.
  - change (length (omap id l) ≤ S (length l))%nat. lia.
Qed.

(** The raw files of a list of picker entries are its entries that have one,
    in their order. *)
Lemma fmap_Some_omap_id {A} (l : list (option A)) :
  Some <$> omap id l = filter is_Some l.
Proof.
  induction l as [|[x|] l IH]; [done | |].
  - rewrite filter_cons_True by done.
    change (Some x :: (Some <$> omap id l) = Some x :: filter is_Some l).
    by rewrite IH.
  - rewrite filter_cons_False by (by intros [? ?]).
    exact IH.
Qed.

(** ** Reading back the decimal strings that [join] writes *)

Section decimal.

Context `{!Engine}.

Implicit Types (s : string) (x : N) (n : Z).

Lemma pretty_N_char_digit x :
  (x < 10)%N →
  is_digit (pretty_N_char x) = true
  ∧ digit_of 10 (pretty_N_char x) = Some (Z.of_N x).
Proof.
  intros Hx.
  assert (Hcases : x ∈ [0; 1; 2; 3; 4; 5; 6; 7; 8; 9]%N).
  { apply (bool_decide_unpack _).
    destruct x as [|p]; [done|].
    do 4 (destruct p as [p|p|]; try done); lia. }
  repeat (apply elem_of_cons in Hcases as [->|Hcases]); [by vm_compute .. |].
  by apply elem_of_nil in Hcases.
Qed.

Lemma all_digits_pretty_N_go x s :
  all_digits s = true → all_digits (pretty_N_go x s) = true.
Proof.
  revert s. induction (N.lt_wf_0 x) as [x _ IH]. intros s Hs.
  destruct (decide (x = 0)%N) as [->|Hx]; [by rewrite pretty_N_go_0|].
  rewrite pretty_N_go_step by lia. apply IH.
  - apply N.div_lt; lia.
  - cbn [all_digits]. rewrite Hs, andb_true_r.
    apply pretty_N_char_digit. by apply N.mod_lt.
Qed.

Lemma digits_pretty_N_go x s :
  digits 10 (pretty_N_go x s) None
  = digits 10 s (if decide (x = 0)%N then None else Some (Z.of_N x)).
Proof.
  revert s. induction (N.lt_wf_0 x) as [x _ IH]. intros s.
  destruct (decide (x = 0)%N) as [->|Hx]; [by rewrite pretty_N_go_0|].
  rewrite pretty_N_go_step by lia. rewrite IH by (apply N.div_lt; lia).
  cbn [digits].
  destruct (pretty_N_char_digit (x `mod` 10)) as [_ ->]; [by apply N.mod_lt|].
  f_equal. f_equal.
  assert (Hdiv : Z.of_N x = Z.of_N (x `div` 10) * 10 + Z.of_N (x `mod` 10)).
  { rewrite N2Z.inj_div, N2Z.inj_mod. change (Z.of_N 10) with 10.
    rewrite Z.mul_comm. apply Z.div_mod. lia. }
  destruct (decide (x `div` 10 = 0)%N) as [H0|H0]; cbn [default from_option id]; [rewrite H0 in Hdiv|]; lia.
Qed.

(** A digit or a minus sign starts no white space and is no comma. *)
Lemma plain_char (c : ascii) :
  is_digit c || Ascii.eqb c "-" = true →
  white_space1 c = false
  ∧ (∀ c2, white_space2 c c2 = false)
  ∧ (∀ c2 c3, white_space3 c c2 c3 = false)
  ∧ Ascii.eqb c "," = false.
Proof.
  intros Hc.
  assert (Hn : (45 ≤ nat_of_ascii c ≤ 57)%nat).
  { apply orb_true_iff in Hc as [Hc|Hc].
    - unfold is_digit in Hc. apply andb_true_iff in Hc as [H1 H2].
      apply Nat.leb_le in H1, H2. lia.
    - apply Ascii.eqb_eq in Hc as ->. change (nat_of_ascii "-") with 45%nat. lia. }
  split_and!.
  - unfold white_space1.
    assert ((nat_of_ascii c <=? 13)%nat = false) as -> by (apply Nat.leb_gt; lia).
    assert ((nat_of_ascii c =? 32)%nat = false) as -> by (apply Nat.eqb_neq; lia).
    by rewrite andb_false_r.
  - intros c2. unfold white_space2.
    by assert ((nat_of_ascii c =? 194)%nat = false) as -> by (apply Nat.eqb_neq; lia).
  - intros c2 c3. unfold white_space3. cbv zeta.
    assert ((nat_of_ascii c =? 225)%nat = false) as -> by (apply Nat.eqb_neq; lia).
    assert ((nat_of_ascii c =? 226)%nat = false) as -> by (apply Nat.eqb_neq; lia).
    assert ((nat_of_ascii c =? 227)%nat = false) as -> by (apply Nat.eqb_neq; lia).
    by assert ((nat_of_ascii c =? 239)%nat = false) as -> by (apply Nat.eqb_neq; lia).
  - destruct (Ascii.eqb_spec c ",") as [->|_]; [|done].
    change (nat_of_ascii ",") with 44%nat in Hn. lia.
Qed.

Lemma all_digits_no_sep s : all_digits s = true → no_sep s = true.
Proof.
  induction s as [|c s IH]; [done|]. cbn [all_digits no_sep].
  intros [Hc Hs]%andb_true_iff. by rewrite Hc, IH.
Qed.

Lemma trimStart_no_sep s : no_sep s = true → trimStart s = s.
Proof.
  intros Hs. destruct s as [|c s1]; [done|]. cbn [no_sep] in Hs.
  apply andb_true_iff in Hs as [Hc _].
  destruct (plain_char c Hc) as (H1 & H2 & H3 & _).
  cbn [trimStart]. rewrite H1. destruct s1 as [|c2 s2]; [done|].
  rewrite H2. destruct s2 as [|c3 s3]; [done|]. by rewrite H3.
Qed.

Lemma all_white_no_sep c s :
  is_digit c || Ascii.eqb c "-" = true → all_white (String c s) = false.
Proof.
  intros Hc. destruct (plain_char c Hc) as (H1 & H2 & H3 & _).
  cbn [all_white]. rewrite H1. destruct s as [|c2 s2]; [done|].
  rewrite H2. destruct s2 as [|c3 s3]; [done|]. by rewrite H3.
Qed.

Lemma trim_no_sep s : no_sep s = true → trim s = s.
Proof.
  intros Hs. unfold trim. rewrite (trimStart_no_sep s Hs).
  induction s as [|c s IH]; [done|]. cbn [no_sep] in Hs.
  apply andb_true_iff in Hs as [Hc Hs].
  cbn [trimEnd]. by rewrite (all_white_no_sep c s Hc), (IH Hs).
Qed.

Lemma split_no_sep s : no_sep s = true → split "," s = [s].
Proof.
  induction s as [|c s IH]; [done|]. cbn [no_sep].
  intros [Hc Hs]%andb_true_iff.
  destruct (plain_char c Hc) as (_ & _ & _ & Hcomma).
  cbn [split]. by rewrite Hcomma, (IH Hs).
Qed.

Lemma split_append s rest :
  no_sep s = true → split "," (s +:+ String "," rest) = s :: split "," rest.
Proof.
  induction s as [|c s IH].
  - intros _. rewrite append_empty. cbn [split]. by rewrite Ascii.eqb_refl.
  - cbn [no_sep]. intros [Hc Hs]%andb_true_iff.
    destruct (plain_char c Hc) as (_ & _ & _ & Hcomma).
    rewrite append_cons. cbn [split]. by rewrite Hcomma, (IH Hs).
Qed.

(** A string of digits has no [0x] prefix. *)
Lemma radix_of_digits s :
  all_digits s = true →
  match s with
  | String "0" (String "x" s') | String "0" (String "X" s') => (16, s')
  | _ => (10, s)
  end = (10, s).
Proof.
  intros Hs. destruct s as [|c [|c' s']]; [done | |].
  - by destruct c as [[] [] [] [] [] [] [] []].
  - cbn [all_digits] in Hs.
    apply andb_true_iff in Hs as [_ [Hc' _]%andb_true_iff].
    destruct c as [[] [] [] [] [] [] [] []]; try done;
      destruct c' as [[] [] [] [] [] [] [] []]; try done; by vm_compute in Hc'.
Qed.

Lemma parseInt_digits s :
  all_digits s = true →
  parseInt s = match digits 10 s None with Some n => number n | None => VNaN end.
Proof.
  intros Hs. unfold parseInt.
  rewrite (trimStart_no_sep s (all_digits_no_sep s Hs)).
  assert (Hsign : match s with
                  | String "-" s' => (true, s')
                  | String "+" s' => (false, s')
                  | _ => (false, s)
                  end = (false, s)).
  { destruct s as [|c s']; [done|].
    cbn [all_digits] in Hs. apply andb_true_iff in Hs as [Hc _].
    destruct c as [[] [] [] [] [] [] [] []]; try done; by vm_compute in Hc. }
  rewrite Hsign. by rewrite (radix_of_digits s Hs).
Qed.

Lemma parseInt_minus s :
  all_digits s = true →
  parseInt (String "-" s)
  = match digits 10 s None with Some n => number (- n) | None => VNaN end.
Proof.
  intros Hs. unfold parseInt.
  assert (Hstart : trimStart (String "-" s) = String "-" s).
  { apply trimStart_no_sep. cbn [no_sep]. by rewrite (all_digits_no_sep s Hs). }
  rewrite Hstart. cbv beta iota.
  by rewrite (radix_of_digits s Hs).
Qed.

Lemma pretty_N_digits x :
  all_digits (pretty x) = true ∧ digits 10 (pretty x) None = Some (Z.of_N x).
Proof.
  change (pretty x) with (pretty_N x). unfold pretty_N.
  destruct (decide (x = 0)%N) as [->|Hx]; [done|]. split.
  - by apply all_digits_pretty_N_go.
  - rewrite digits_pretty_N_go. by rewrite decide_False.
Qed.

(** An integer printed in decimal reads back as the number for it. *)
Lemma parseInt_pretty n : parseInt (pretty n) = number n.
Proof.
  destruct n as [|p|p].
  - done.
  - change (pretty (Z.pos p)) with (pretty (N.pos p)).
    destruct (pretty_N_digits (N.pos p)) as [Hd Hn].
    by rewrite (parseInt_digits _ Hd), Hn.
  - change (pretty (Z.neg p)) with (String "-" (pretty (N.pos p))).
    destruct (pretty_N_digits (N.pos p)) as [Hd Hn].
    by rewrite (parseInt_minus _ Hd), Hn.
Qed.

Lemma pretty_no_sep n : no_sep (pretty n) = true ∧ pretty n ≠ "".
Proof.
  destruct n as [|p|p].
  - done.
  - change (pretty (Z.pos p)) with (pretty (N.pos p)).
    destruct (pretty_N_digits (N.pos p)) as [Hd Hn]. split.
    + by apply all_digits_no_sep.
    + intros He. by rewrite He in Hn.
  - change (pretty (Z.neg p)) with (String "-" (pretty (N.pos p))).
    destruct (pretty_N_digits (N.pos p)) as [Hd Hn]. split; [|done].
    cbn [no_sep]. by rewrite (all_digits_no_sep _ Hd).
Qed.

(** The text of a list of safe integers joined by commas. *)
Lemma join_safe (n : Z) (ns : list Z) :
  Forall (λ n, safe_integer n = true) (n :: ns) →
  join "," (VNum <$> n :: ns)
  = match ns with
    | [] => pretty n
    | m :: ms => pretty n +:+ String "," (join "," (VNum <$> m :: ms))
    end.
Proof.
  intros Hsafe. apply Forall_cons in Hsafe as [Hn _].
  destruct ns as [|m ms].
  - change (number_text n = pretty n). unfold number_text. by rewrite Hn.
  - change (number_text n +:+ String "," (join "," (VNum <$> m :: ms))
            = pretty n +:+ String "," (join "," (VNum <$> m :: ms))).
    unfold number_text. by rewrite Hn.
Qed.

(** A list of safe integers written with commas reads back as itself. *)
Lemma split_join (n : Z) (ns : list Z) :
  Forall (λ n, safe_integer n = true) (n :: ns) →
  split "," (join "," (VNum <$> n :: ns)) = pretty <$> n :: ns.
Proof.
  revert n. induction ns as [|m ns IH]; intros n Hsafe.
  - rewrite (join_safe n [] Hsafe). apply split_no_sep, pretty_no_sep.
  - rewrite (join_safe n (m :: ns) Hsafe).
    rewrite split_append by apply pretty_no_sep.
    apply Forall_cons in Hsafe as [_ Hsafe]. by rewrite (IH m Hsafe).
Qed.

Lemma join_nonempty (n : Z) (ns : list Z) :
  Forall (λ n, safe_integer n = true) (n :: ns) →
  join "," (VNum <$> n :: ns) ≠ "".
Proof.
  intros Hsafe. rewrite (join_safe n ns Hsafe).
  destruct (pretty_no_sep n) as [_ Hn].
  destruct ns as [|m ns]; [done|].
  destruct (pretty n); [done|]. by rewrite append_cons.
Qed.

Lemma successStatusCodes_of_join f (n : Z) (ns : list Z) :
  Forall (λ n, safe_integer n = true) (n :: ns) →
  field "successStatusCodes" f = VStr (join "," (VNum <$> n :: ns)) →
  ApiForm.successStatusCodes_of f = Some (VNum <$> n :: ns).
Proof.
  intros Hsafe Hf. unfold ApiForm.successStatusCodes_of. rewrite Hf. cbn [truthy].
  assert (Hb : negb (String.eqb (join "," (VNum <$> n :: ns)) "") = true).
  { by apply negb_true_iff, String.eqb_neq, join_nonempty. }
  rewrite Hb, (split_join n ns Hsafe). f_equal.
  rewrite <- list_fmap_compose. apply Forall_fmap_ext_1.
  eapply Forall_impl; [exact Hsafe|]. intros m Hm.
  cbn [compose]. rewrite trim_no_sep by apply pretty_no_sep.
  rewrite parseInt_pretty. unfold number. by rewrite Hm.
Qed.

End decimal.

Section load_built.

Context `{!Engine, !Aes, !Json, !Utils, !Lossless}.

(** The synchronous part of [initForm] on the record [buildConf] makes of
    an [api] form. *)
Lemma initForm_sync_built_api s s0 codes :
  is_string "api" (field "type" (form s)) = true →
  let blob := encrypted (JSON_stringify (ApiForm.api_configuration (form s) codes)) in
  let certificate := JSON_stringify (VArr (ApiForm.certificateList_of (form s))) in
  let obj := delete_all ApiForm.api_deleted
               (json_clone (<["certificate" := VStr certificate]>
                              (<["configuration" := VStr blob]> (form s)))) in
  ApiForm.initForm_sync (Some obj) false s0
  = (Some (),
     opened_state
       (certified (map json_norm (ApiForm.certificateList_of (form s)))
          (loaded_api (json_norm (ApiForm.api_configuration (form s) codes))
             (opened obj (form s0)))) s0,
     [ClearValidate]).
Proof.
  intros Hty blob certificate obj.
  assert (Hc : field "configuration" obj = VStr blob).
  { unfold obj. rewrite field_delete_all, decide_False by names.
    by rewrite field_json_clone, field_insert_ne, field_insert. }
  assert (Hcert : field "certificate" obj = VStr certificate).
  { unfold obj. rewrite field_delete_all, decide_False by names.
    by rewrite field_json_clone, field_insert. }
  assert (Hty' : is_string "api" (field "type" obj) = true).
  { unfold obj. rewrite field_delete_all, decide_False by names.
    rewrite field_json_clone, !field_insert_ne by done.
    by rewrite is_string_json_reload. }
  exact (initForm_sync_api obj blob _ _ certificate
           (map json_norm (ApiForm.certificateList_of (form s)))
           s0 Hc (encrypted_nonempty _)
           (decrypted_encrypted _) (parse_stringify _)
           ltac:(done) ltac:(done) Hty' Hcert (stringify_nonempty _)
           (parse_stringify _) (certificateList_readable _)).
Qed.

(** The status codes [initForm] then shows. *)
Lemma initForm_built_api_codes api s s0 obj codes :
  is_string "api" (field "type" (form s)) = true →
  ApiForm.successStatusCodes_of (form s) = Some codes →
  result ApiForm.buildConf s = Some obj →
  field "successStatusCodes" (form (exec (ApiForm.initForm api (Some obj) false) s0))
  = VStr (join "," (map json_norm codes)).
Proof.
  intros Hty Hcodes Hobj.
  rewrite (buildConf_api_result s codes Hty Hcodes) in Hobj. injection Hobj as <-.
  pose proof (initForm_sync_built_api s s0 codes Hty) as Hsync. cbv zeta in Hsync.
  destruct (initForm_loaded api _ s0 _ _ Hsync) as (_ & -> & _).
  rewrite form_opened_state.
  destruct (field_certified (form s)
              (loaded_api (json_norm (ApiForm.api_configuration (form s) codes))
                 (opened (delete_all ApiForm.api_deleted
                            (json_clone
                               (<["certificate" :=
                                   VStr (JSON_stringify
                                           (VArr (ApiForm.certificateList_of (form s))))]>
                                  (<["configuration" :=
                                      VStr (encrypted
                                              (JSON_stringify
                                                 (ApiForm.api_configuration (form s) codes)))]>
                                     (form s)))))
                         (form s0)))) as [_ Hrest].
  rewrite Hrest by names. unfold loaded_api.
  rewrite !field_insert_ne, field_insert by done.
  unfold ApiForm.api_configuration. by rewrite prop_json_norm by names.
Qed.

(** The form [initForm] leaves when it loads the record [buildConf] makes of
    a form, for a relational type and for [api]. *)
Lemma initForm_built_db_form api s s0 obj :
  is_string "api" (field "type" (form s)) = false →
  result ApiForm.buildConf s = Some obj →
  form (exec (ApiForm.initForm api (Some obj) false) s0)
  = loaded_db (json_norm (ApiForm.db_configuration (form s))) (opened obj (form s0)).
Proof.
  intros Hty Hobj.
  rewrite (buildConf_db_result s Hty) in Hobj. injection Hobj as <-.
  set (blob := encrypted (JSON_stringify (ApiForm.db_configuration (form s)))) in *.
  set (obj := delete_all ApiForm.db_deleted _) in *.
  assert (Hc : field "configuration" obj = VStr blob).
  { apply field_built_configuration. names. }
  assert (Hty' : is_string "api" (field "type" obj) = false).
  { unfold obj. rewrite field_built by (done || names).
    by rewrite is_string_json_reload. }
  assert (Hsync := initForm_sync_db obj blob _ _ s0 Hc (encrypted_nonempty _)
                     (decrypted_encrypted _) (parse_stringify _)
                     ltac:(done) ltac:(done) Hty').
  destruct (initForm_loaded api obj s0 _ _ Hsync) as (_ & -> & _).
  by rewrite form_opened_state.
Qed.

Lemma initForm_built_api_form api s s0 obj codes :
  is_string "api" (field "type" (form s)) = true →
  ApiForm.successStatusCodes_of (form s) = Some codes →
  result ApiForm.buildConf s = Some obj →
  form (exec (ApiForm.initForm api (Some obj) false) s0)
  = certified (map json_norm (ApiForm.certificateList_of (form s)))
      (loaded_api (json_norm (ApiForm.api_configuration (form s) codes))
         (opened obj (form s0))).
Proof.
  intros Hty Hcodes Hobj.
  rewrite (buildConf_api_result s codes Hty Hcodes) in Hobj. injection Hobj as <-.
  pose proof (initForm_sync_built_api s s0 codes Hty) as Hsync. cbv zeta in Hsync.
  destruct (initForm_loaded api _ s0 _ _ Hsync) as (_ & -> & _).
  by rewrite form_opened_state.
Qed.

End load_built.
(** * The claims *)

(** C1. For any sequence of keyword changes, select-all changes and
    checkbox-group changes (each group change reporting names that are on
    screen), a table name that is on screen at no point of the sequence is
    in [checkTableList] after the sequence exactly when it was before. With
    A and C selected: filtering to A, B and reporting [A] leaves A and C;
    filtering then to B, C and clearing select-all leaves A. *)
Theorem selection_durability `{!Engine} :
  (∀ ops s n,
     never_visible n ops s → explicit_visible ops s →
     n ∈ checkTableList (run ops s) ↔ n ∈ checkTableList s)
  ∧ (let s1 := run [SetFilter "a"; ToggleMany ["a1"]] abc in
     let s2 := run [SetFilter "B"; ToggleAll false] s1 in
     visibleFiltered s1 = ["a1"; "Ab"]
     ∧ checkTableList s1 ≡ₚ ["a1"; "b1"]
     ∧ visibleFiltered s2 = ["Ab"; "b1"]
     ∧ checkTableList s2 = ["a1"]).
Proof.
  split; [apply run_hidden|].
  destruct (run_ascii _ [SetFilter "a"; ToggleMany ["a1"]] abc eq_refl eq_refl)
    as [H1 Ha1].
  cbv zeta. rewrite !H1.
  destruct (run_ascii _ [SetFilter "B"; ToggleAll false] _ Ha1 eq_refl) as [H2 Ha2].
  rewrite !H2, (visibleFiltered_ascii _ _ Ha1), (visibleFiltered_ascii _ _ Ha2).
  vm_compute. split_and!; try reflexivity. apply Permutation_swap.
Qed.

Lemma selection_durability_witness :
  let s := exec (@setFilter ascii_engine "a") abc in
  let ops := [ToggleMany ["a1"]; SetFilter "A"; ToggleAll true] in
  @never_visible ascii_engine "b1" ops s ∧ @explicit_visible ascii_engine ops s
  ∧ "b1" ∈ checkTableList (@run ascii_engine ops s).
Proof.
  intros s ops.
  assert (Hn : @never_visible ascii_engine "b1" ops s).
  { repeat split; apply (bool_decide_unpack _); vm_compute; exact I. }
  assert (He : @explicit_visible ascii_engine ops s).
  { repeat split; apply (bool_decide_unpack _); vm_compute; exact I. }
  split_and!; [done..|].
  apply (proj1 (@selection_durability ascii_engine) ops s "b1" Hn He).
  apply (bool_decide_unpack _); vm_compute; exact I.
Defined.

(** C2. One change of the checkbox group, reporting names that are on
    screen, leaves [checkTableList] = ([checkTableList] minus the names on
    screen) unioned with the reported list, without duplicates; names off
    screen keep their membership. *)
Theorem toggleMany_forget_then_reapply `{!Engine} s explicit :
  explicit ⊆ visibleFiltered s →
  let s' := exec (handleCheckedTablesChange explicit) s in
  list_to_set (C := gset string) (checkTableList s')
    = (list_to_set (checkTableList s) ∖ list_to_set (visibleFiltered s))
      ∪ list_to_set explicit
  ∧ checkTableList s'
    = new_Set (filter (λ ele, ele ∉ visibleFiltered s) (checkTableList s) ++ explicit)
  ∧ NoDup (checkTableList s')
  ∧ ∀ n, n ∉ visibleFiltered s → n ∈ checkTableList s' ↔ n ∈ checkTableList s.
Proof.
  intros Hsub s'. subst s'. rewrite handleCheckedTablesChange_checkTableList.
  split_and!.
  - apply set_eq. intros n.
    rewrite elem_of_union, elem_of_difference, !elem_of_list_to_set,
      elem_of_new_Set, elem_of_app, list_elem_of_filter. tauto.
  - done.
  - apply NoDup_new_Set.
  - intros n Hn. rewrite elem_of_new_Set, elem_of_app, list_elem_of_filter.
    specialize (Hsub n). tauto.
Qed.

Lemma toggleMany_forget_then_reapply_witness :
  let s := exec (@setFilter ascii_engine "a") abc in
  ["Ab"] ⊆ @visibleFiltered ascii_engine s
  ∧ checkTableList (exec (@handleCheckedTablesChange ascii_engine ["Ab"]) s)
    = ["b1"; "Ab"].
Proof.
  intros s.
  assert (Hsub : ["Ab"] ⊆ @visibleFiltered ascii_engine s).
  { apply (bool_decide_unpack _); vm_compute; exact I. }
  split; [done|].
  destruct (@toggleMany_forget_then_reapply ascii_engine s ["Ab"] Hsub) as (_ & -> & _).
  reflexivity.
Defined.



(** C3. [buildConf] for an [api] form returns a record without any of the
    relational-only fields (and it does return one unless the status codes
    hold something that is neither empty nor a string). The converse fails:
    the record built for a relational or [excel] form still carries the
    api-only fields of the form, as the form the component is mounted with
    shows, and as a form shows that became [excel] through a fetch from an
    API, whose record carries the end point and the header credential. *)
Theorem buildConf_type_isolation `{!Engine, !Aes, !Json, !Utils} :
  (∀ s obj,
     is_string "api" (field "type" (form s)) = true →
     result ApiForm.buildConf s = Some obj →
     ∀ k, k ∈ relational_only → obj !! k = None)
  ∧ (∀ s,
       is_string "api" (field "type" (form s)) = true →
       truthy (field "successStatusCodes" (form s)) = false
       ∨ (∃ codes, field "successStatusCodes" (form s) = VStr codes) →
       is_Some (result ApiForm.buildConf s))
  ∧ (let built := result ApiForm.buildConf mysql_state in
     is_string "api" (field "type" (form mysql_state)) = false
     ∧ built ≫= lookup "endpoint" = Some (VStr "")
     ∧ built ≫= lookup "method" = Some (VStr "POST")
     ∧ built ≫= lookup "headerKey" = Some (VStr "")
     ∧ built ≫= lookup "certificateList" = Some (VArr []))
  ∧ (let s := exec (ApiForm.next backend (Some always_valid)) api_state in
     let built := result ApiForm.buildConf s in
     field "type" (form s) = VStr "excel"
     ∧ built ≫= lookup "endpoint" = Some (VStr "https://erp.example.org/export")
     ∧ built ≫= lookup "headerKey" = Some (VStr "Authorization")
     ∧ built ≫= lookup "headerValue" = Some (VStr "Bearer s3cret")).
Proof.
  split_and!.
  - intros s obj Hty Hobj k Hk.
    destruct (ApiForm.successStatusCodes_of (form s)) as [codes|] eqn:Hcodes.
    + rewrite (buildConf_api_result s codes Hty Hcodes) in Hobj.
      assert (obj = delete_all ApiForm.api_deleted
                      (json_clone (form (exec ApiForm.buildConf s)))) as ->.
      { rewrite (buildConf_api_form s codes Hty Hcodes). congruence. }
      rewrite lookup_delete_all, decide_True; [done|].
      revert k Hk. change (relational_only ⊆ ApiForm.api_deleted).
      by apply (bool_decide_unpack _).
    + destruct (buildConf_api_no_result s Hty Hcodes) as [Hr _]. congruence.
  - intros s Hty Hcodes.
    assert (is_Some (ApiForm.successStatusCodes_of (form s))) as [codes Hc].
    { destruct Hcodes as [Hf|[codes Hf]].
      - rewrite (successStatusCodes_of_falsy _ Hf). by eexists.
      - by eapply successStatusCodes_of_string. }
    rewrite (buildConf_api_result s codes Hty Hc). by eexists.
  - by vm_compute.
  - by vm_compute.
Qed.

(** C9. In both revisions [beforeUpload] answers [false], with the
    not-exceed-50MB toast and without starting any request or raising the
    upload flag, when the file is larger than 50 times [1024 * 1024] bytes;
    it answers [true] and raises the upload flag otherwise. A file of 51 MB
    is refused, one of 49 MB goes on. *)
Theorem beforeUpload_size_limit `{!Utils} :
  (∀ rawFile s,
     let limit := 50 * 1024 * 1024 in
     (limit < File.size rawFile →
      result (ApiForm.beforeUpload rawFile) s = Some false
      ∧ trace (ApiForm.beforeUpload rawFile) s
        = [Message error (t "common.not_exceed_50mb")]
      ∧ uploadLoading (exec (ApiForm.beforeUpload rawFile) s) = uploadLoading s)
     ∧ (File.size rawFile ≤ limit →
        result (ApiForm.beforeUpload rawFile) s = Some true
        ∧ trace (ApiForm.beforeUpload rawFile) s = []
        ∧ uploadLoading (exec (ApiForm.beforeUpload rawFile) s) = true))
  ∧ (∀ rawFile s, ConcatForm.beforeUpload rawFile s = ApiForm.beforeUpload rawFile s)
  ∧ result (ApiForm.beforeUpload file_51mb) excel_state = Some false
  ∧ calls (trace (ApiForm.beforeUpload file_51mb) excel_state) = []
  ∧ result (ApiForm.beforeUpload file_49mb) excel_state = Some true.
Proof.
  split_and!.
  - intros rawFile s limit. unfold result, trace, exec.
    rewrite beforeUpload_run, exceeds_50mb_bytes.
    split; intros Hsize.
    + by rewrite bool_decide_eq_true_2.
    + rewrite bool_decide_eq_false_2 by lia. done.
  - intros rawFile s. apply concat_beforeUpload_run.
  - unfold result. by rewrite beforeUpload_run.
  - unfold trace. by rewrite beforeUpload_run.
  - unfold result. by rewrite beforeUpload_run.
Qed.

Lemma beforeUpload_size_limit_witness :
  50 * 1024 * 1024 < File.size file_51mb
  ∧ File.size file_49mb ≤ 50 * 1024 * 1024
  ∧ result (@ApiForm.beforeUpload plain_utils file_51mb) excel_state = Some false
  ∧ result (@ApiForm.beforeUpload plain_utils file_49mb) excel_state = Some true.
Proof.
  assert (H51 : 50 * 1024 * 1024 < File.size file_51mb) by (simpl; lia).
  assert (H49 : File.size file_49mb ≤ 50 * 1024 * 1024) by (simpl; lia).
  split_and!; [done..| |].
  - apply (proj1 (proj1 (@beforeUpload_size_limit plain_utils) file_51mb excel_state) H51).
  - apply (proj2 (proj1 (@beforeUpload_size_limit plain_utils) file_49mb excel_state) H49).
Defined.

Lemma buildConf_type_isolation_witness :
  let built := result (@ApiForm.buildConf ascii_engine marked_aes tree_json) api_state in
  is_string "api" (field "type" (form api_state)) = true
  ∧ truthy (field "successStatusCodes" (form api_state)) = false
  ∧ is_Some built
  ∧ built ≫= lookup "password" = None.
Proof.
  intros built.
  assert (Hty : is_string "api" (field "type" (form api_state)) = true) by done.
  assert (Hcodes : truthy (field "successStatusCodes" (form api_state)) = false) by done.
  destruct (@buildConf_type_isolation ascii_engine marked_aes tree_json plain_utils)
    as (Hnone & Hsome & _).
  destruct (Hsome api_state Hty (or_introl Hcodes)) as [obj Hobj].
  split_and!; [done | done | by exists obj |].
  subst built. rewrite Hobj. apply (Hnone api_state obj Hty Hobj).
  by apply (bool_decide_unpack _).
Defined.

(** Membership of an effect in a trace that has been computed. *)
Ltac mem := solve [intuition (congruence || eauto)].

(** ** The step controller *)

(** C6. The step after the configuration is entered by [next] only after an
    outcome that succeeded. The only step event [next] emits is the change
    to the following step, which from the configuration (step 1) is the
    choice of tables (step 2). For [excel] it is emitted exactly when the
    form is valid and a file has been uploaded; for [api] exactly when the
    form is valid, no fetch is under way and the fetch succeeds, and then
    the event follows the fetch request and the form has become an [excel]
    form; for the other types exactly when the form is valid, no check is
    under way and the connectivity check of the record just built answers
    true, and then the event follows the check request. In the revision
    with the concatenate mode the same holds outside that mode, and in that
    mode [next] emits no step event at all. *)
Theorem choose_tables_gate `{!Engine, !Aes, !Json, !Utils} api (validate : FormInstance) s :
  let ty := field "type" (form s) in
  let advance := Emit (changeActiveStep (activeStep (props s) + 1)) in
  let run := ApiForm.next api (Some validate) in
  let run2 := ConcatForm.next api (Some validate) in
  (activeStep (props s) = 1 → advance = Emit (changeActiveStep 2))
  ∧ (∀ n, Emit (changeActiveStep n) ∈ trace run s → Emit (changeActiveStep n) = advance)
  ∧ (is_string "excel" ty = true →
       (advance ∈ trace run s ↔ validate s = true ∧ excelUploadSuccess s = true))
  ∧ (is_string "api" ty = true →
       (advance ∈ trace run s ↔
          validate s = true ∧ uploadLoading s = false
          ∧ is_Some (Api.fetchExcelFromApi api (ApiForm.apiReq (form s))))
       ∧ (advance ∈ trace run s →
            trace run s
            = [Call (fetchExcelFromApi_request (ApiForm.apiReq (form s))); advance]
            ∧ field "type" (form (exec run s)) = VStr "excel"
            ∧ excelUploadSuccess (exec run s) = true))
  ∧ (is_string "excel" ty = false → is_string "api" ty = false →
       ∃ obj, result ApiForm.buildConf s = Some obj
         ∧ (advance ∈ trace run s ↔
              validate s = true ∧ checkLoading s = false ∧ Api.check api obj = Some true)
         ∧ (advance ∈ trace run s →
              trace run s
              = [Call (check_request obj); advance; Call (getTablesByConf_request obj)]))
  ∧ (concatenateMode (props s) = true →
       ∀ n, Emit (changeActiveStep n) ∉ trace run2 s)
  ∧ (concatenateMode (props s) = false → is_string "excel" ty = true →
       (advance ∈ trace run2 s ↔ validate s = true ∧ excelUploadSuccess s = true))
  ∧ (concatenateMode (props s) = false → is_string "excel" ty = false →
       ∃ obj, result ConcatForm.buildConf s = Some obj
         ∧ (advance ∈ trace run2 s ↔
              validate s = true ∧ checkLoading s = false ∧ Api.check api obj = Some true)
         ∧ (advance ∈ trace run2 s →
              trace run2 s
              = [Call (check_request obj); advance; Call (getTablesByConf_request obj)])).
Proof.
  intros ty advance run run2. subst ty advance run run2.
  assert (Hexcl : is_string "api" (field "type" (form s)) = true →
                  is_string "excel" (field "type" (form s)) = false).
  { destruct (field "type" (form s)) as [| | | | |ty| |]; try done. simpl.
    intros ->%String.eqb_eq. done. }
  split_and!.
  - by intros ->.
  - intros n. unfold trace.
    destruct (validate s) eqn:Hv;
      [|rewrite (next_invalid api validate s Hv); by intros ?%elem_of_nil].
    destruct (is_string "excel" (field "type" (form s))) eqn:Hex.
    { rewrite (next_excel api validate s Hv Hex).
      destruct (excelUploadSuccess s); cbn [snd];
        rewrite ?elem_of_cons, ?elem_of_nil; mem. }
    destruct (is_string "api" (field "type" (form s))) eqn:Hty.
    { destruct (uploadLoading s) eqn:Hbusy.
      - rewrite (next_api_busy api validate s Hv Hex Hty Hbusy). by intros ?%elem_of_nil.
      - rewrite (next_api_run api validate s Hv Hex Hty Hbusy).
        destruct (Api.fetchExcelFromApi api _); cbn [snd];
          rewrite !elem_of_cons, elem_of_nil; mem. }
    destruct (checkLoading s) eqn:Hbusy.
    { rewrite (next_db_busy api validate s Hv Hex Hty Hbusy). by intros ?%elem_of_nil. }
    rewrite (next_db_run api validate s _ Hv Hex Hty Hbusy (buildConf_db_result s Hty)).
    cbn [snd]. unfold checked.
    destruct (Api.check api _) as [[]|]; cbn [snd];
      rewrite !elem_of_cons, ?elem_of_nil; mem.
  - intros Hex. unfold trace.
    destruct (validate s) eqn:Hv;
      [|rewrite (next_invalid api validate s Hv); cbn [snd];
        rewrite elem_of_nil; mem].
    rewrite (next_excel api validate s Hv Hex).
    destruct (excelUploadSuccess s); cbn [snd];
      rewrite ?elem_of_cons, ?elem_of_nil; mem.
  - intros Hty. pose proof (Hexcl Hty) as Hex. unfold trace, exec.
    destruct (validate s) eqn:Hv;
      [|rewrite (next_invalid api validate s Hv); cbn [snd];
        rewrite elem_of_nil; mem].
    destruct (uploadLoading s) eqn:Hbusy.
    { rewrite (next_api_busy api validate s Hv Hex Hty Hbusy). cbn [snd].
      rewrite elem_of_nil. mem. }
    rewrite (next_api_run api validate s Hv Hex Hty Hbusy).
    destruct (Api.fetchExcelFromApi api _) as [data|]; cbn [fst snd];
      rewrite !elem_of_cons, elem_of_nil.
    + split; [split; [by eauto | by intros _; right; left]|].
      intros _. split_and!; [done | | done].
      change (form (fetched data s))
        with (<["originType" := VStr "api"]>
                (<["type" := VStr "excel"]>
                   (<["sheets" := VArr (sheet_value <$> sheets data)]>
                      (<["filename" := VStr (filename data)]> (form s))))).
      by rewrite field_insert_ne, field_insert by done.
    + split; [|mem]. split; [mem|].
      by intros (_ & _ & [? ?]).
  - intros Hex Hty. eexists. split; [exact (buildConf_db_result s Hty)|].
    unfold trace.
    destruct (validate s) eqn:Hv;
      [|rewrite (next_invalid api validate s Hv); cbn [snd];
        rewrite elem_of_nil; mem].
    destruct (checkLoading s) eqn:Hbusy.
    { rewrite (next_db_busy api validate s Hv Hex Hty Hbusy). cbn [snd].
      rewrite elem_of_nil. mem. }
    rewrite (next_db_run api validate s _ Hv Hex Hty Hbusy (buildConf_db_result s Hty)).
    cbn [snd]. unfold checked.
    destruct (Api.check api _) as [[]|]; cbn [snd];
      rewrite !elem_of_cons, ?elem_of_nil; mem.
  - intros Hm n. apply step_changes_nil. by apply concat_next_step_changes.
  - intros Hm Hex. unfold trace.
    destruct (validate s) eqn:Hv;
      [|rewrite (plain_next_invalid api validate s Hm Hv); cbn [snd];
        rewrite elem_of_nil; mem].
    rewrite (plain_next_excel api validate s Hm Hv Hex).
    destruct (excelUploadSuccess s); cbn [snd];
      rewrite ?elem_of_cons, ?elem_of_nil; mem.
  - intros Hm Hex. eexists. split; [exact (buildConf_concat_result s)|].
    unfold trace.
    destruct (validate s) eqn:Hv;
      [|rewrite (plain_next_invalid api validate s Hm Hv); cbn [snd];
        rewrite elem_of_nil; mem].
    destruct (checkLoading s) eqn:Hbusy.
    { rewrite (plain_next_busy api validate s Hm Hv Hex Hbusy). cbn [snd].
      rewrite elem_of_nil. mem. }
    rewrite (plain_next_run api validate s Hm Hv Hex Hbusy).
    cbn [snd]. unfold checked.
    destruct (Api.check api _) as [[]|]; cbn [snd];
      rewrite !elem_of_cons, ?elem_of_nil; mem.
Qed.

Lemma choose_tables_gate_witness :
  let run := @ApiForm.next ascii_engine marked_aes tree_json backend (Some always_valid) in
  is_string "api" (field "type" (form api_state)) = true
  ∧ Emit (changeActiveStep 2) ∈ trace run api_state
  ∧ field "type" (form (exec run api_state)) = VStr "excel".
Proof.
  intros run.
  assert (Hty : is_string "api" (field "type" (form api_state)) = true) by done.
  destruct (@choose_tables_gate ascii_engine marked_aes tree_json plain_utils backend
              always_valid api_state) as (_ & _ & _ & Hapi & _).
  destruct (Hapi Hty) as [Hiff Hthen].
  assert (Hin : Emit (changeActiveStep 2) ∈ trace run api_state).
  { apply Hiff. split_and!; [done | done | by eexists]. }
  split_and!; [done | exact Hin |].
  destruct (Hthen Hin) as (_ & Hexcel & _). exact Hexcel.
Defined.

(** C8. [next] in the concatenate mode. With fewer than two files it shows
    the two-files warning and sends no request. With two files or more and
    a name that is missing, empty or blank (empty once trimmed) it shows the
    name warning and sends no request. With two files or more and a name
    that is not blank it starts with the merge request; when the merge is
    rejected it shows the merge-failed toast; when it succeeds the merged
    file goes into the form, its sheets become the table list and the check
    list (the one merged sheet when the answer has one), and [next] goes on
    as [save] on that state and the same form instance, which for a valid
    form adds the source with the sheets of its own merge answer as tables.
    In no case is there a step event. *)
Theorem concatenate_advance `{!Aes, !Json, !Utils} api (validate : FormInstance) s :
  concatenateMode (props s) = true →
  let run := ConcatForm.next api (Some validate) in
  let save := ConcatForm.save api (Some validate) false in
  let formData := ConcatForm.merge_formData (multipleFiles s) in
  let blank := truthy (field "name" (form s)) = false
               ∨ ∃ n, field "name" (form s) = VStr n ∧ trim n = "" in
  ((length (multipleFiles s) < 2)%nat →
     run s = (Some (), s, [Message warning "请至少选择两个文件进行合并"]))
  ∧ ((2 ≤ length (multipleFiles s))%nat → blank →
     run s = (Some (), s, [Message warning "请输入数据源名称"]))
  ∧ ((2 ≤ length (multipleFiles s))%nat →
     ∀ n, field "name" (form s) = VStr n → trim n ≠ "" →
       formData = (file_part "files" <$> multipleFiles s)
                  ++ [text_part "separator" "_"; text_part "primary_key_col" "0"]
       ∧ (Api.concatenateExcels api formData = None →
            run s = (Some (), s,
                     [Call (concatenateExcels_request formData);
                      Message error "文件合并失败，请检查文件格式和内容";
                      ConsoleError "文件合并错误:"]))
       ∧ (∀ response, Api.concatenateExcels api formData = Some response →
            let s1 := merged response s in
            run s = (Some (), exec save s1,
                     Call (concatenateExcels_request formData) :: trace save s1)
            ∧ field "filename" (form s1) = VStr (filename response)
            ∧ tableList s1 = sheets response
            ∧ checkList s1 = tableName <$> sheets response
            ∧ (∀ sheet, sheets response = [sheet] → checkList s1 = [tableName sheet])
            ∧ (validate s1 = true →
               ∃ requestObj,
                 trace save s1
                 = [Call (concatenateExcels_request formData);
                    Call (add_request requestObj)]
                   ++ match Api.add api requestObj with
                      | Some _ => [Message success "纵向合并数据源创建成功！"; Emit refresh]
                      | None => [ConsoleError "创建纵向合并数据源失败:";
                                 Message error "创建纵向合并数据源失败，请检查文件格式"]
                      end
                 ∧ requestObj !! "tables"
                   = Some (VArr (ConcatForm.table_of_sheet <$> sheets response)))))
  ∧ (∀ n, Emit (changeActiveStep n) ∉ trace run s).
Proof.
  intros Hm run save formData blank. subst run save formData blank. split_and!.
  - intros Hfiles. by apply concat_next_few_files.
  - intros Hfiles Hblank. apply concat_next_no_name; [done..|].
    unfold ConcatForm.name_missing.
    destruct Hblank as [Hf|(n & Hn & Ht)].
    + by rewrite Hf.
    + rewrite Hn, Ht. by destruct (truthy (VStr n)).
  - intros Hfiles n Hn Ht.
    assert (Hname : ConcatForm.name_missing (form s) = Some false).
    { unfold ConcatForm.name_missing. rewrite Hn. cbn [truthy].
      destruct (String.eqb_spec n "") as [->|Hne]; [done|]. cbn [negb].
      by apply String.eqb_neq in Ht as ->. }
    split_and!.
    + done.
    + intros Hres. by apply concat_next_rejected.
    + intros response Hres s1. subst s1.
      assert (Hm' : concatenateMode (props (merged response s)) = true) by done.
      assert (Hfiles' : (2 ≤ length (multipleFiles (merged response s)))%nat) by done.
      split_and!; try done.
      * rewrite (concat_next_merged api validate s response Hm Hfiles Hname Hres).
        unfold exec, trace. destruct (validate (merged response s)) eqn:Hv.
        -- by rewrite (concat_save_run api validate false _ Hm' Hfiles' Hv).
        -- by rewrite (concat_save_invalid api validate false _ Hm' Hfiles' Hv).
      * change (form (merged response s))
          with (<["sheets" := VArr (sheet_value <$> sheets response)]>
                  (<["filename" := VStr (filename response)]> (form s))).
        by rewrite field_insert_ne, field_insert by done.
      * intros sheet Hs.
        change (checkList (merged response s)) with (tableName <$> sheets response).
        by rewrite Hs.
      * intros Hv. unfold trace.
        rewrite (concat_save_run api validate false _ Hm' Hfiles' Hv). cbn [snd].
        unfold concat_saved.
        change (multipleFiles (merged response s)) with (multipleFiles s).
        rewrite Hres. cbv zeta. cbn [snd].
        eexists. split; [reflexivity|]. apply lookup_insert_eq.
  - intros n. apply step_changes_nil. by apply concat_next_step_changes.
Qed.

Lemma concatenate_advance_witness :
  let s := concat_state "Q1 sales" two_files in
  let run := @ConcatForm.next marked_aes tree_json backend (Some always_valid) in
  concatenateMode (props s) = true
  ∧ (2 ≤ length (multipleFiles s))%nat
  ∧ field "name" (form s) = VStr "Q1 sales"
  ∧ trim "Q1 sales" ≠ ""
  ∧ ∃ rest,
      trace run s
      = Call (concatenateExcels_request (ConcatForm.merge_formData two_files)) :: rest.
Proof.
  intros s run.
  assert (Hm : concatenateMode (props s) = true) by done.
  assert (Hf : (2 ≤ length (multipleFiles s))%nat) by (simpl; lia).
  assert (Hn : field "name" (form s) = VStr "Q1 sales") by done.
  assert (Ht : trim "Q1 sales" ≠ "") by done.
  split_and!; [done..|].
  destruct (@concatenate_advance marked_aes tree_json plain_utils backend always_valid
              s Hm) as (_ & _ & Hgo & _).
  destruct (Hgo Hf _ Hn Ht) as (_ & _ & Hok).
  destruct (Hok _ eq_refl) as (Hrun & _).
  eexists. unfold trace at 1. unfold run. rewrite Hrun. reflexivity.
Defined.

(** A name of two blanks is not empty, and yet [next] on two files stops at
    the name warning without any request. *)
Lemma blank_name_stops_merge :
  let s := concat_state "  " two_files in
  concatenateMode (props s) = true
  ∧ length (multipleFiles s) = 2%nat
  ∧ field "name" (form s) = VStr "  "
  ∧ "  " ≠ ""
  ∧ @ConcatForm.next marked_aes tree_json backend (Some always_valid) s
    = (Some (), s, [Message warning "请输入数据源名称"]).
Proof.
  intros s. split_and!; [done..|].
  by apply concat_next_no_name.
Qed.

(** ** The configuration builder and its inverse *)

(** C10. [buildConf] writes the form it reads. A call that returns has
    stored the cipher text of the configuration it has just made in
    [configuration], the same text the record carries, and, for an [api]
    form, the plain JSON text of the certificate list in [certificate]; no
    other property and no other ref changes, and a form whose configuration
    was empty is not the same afterwards. A call on a relational form always
    returns; a call that throws leaves the state alone. [getSchema] leaves
    the form as [buildConf] does, and so does [check] for every type but
    [api]; [check] on an [api] form does not call [buildConf] and leaves the
    state as it was. In the revision with the concatenate mode [buildConf],
    [getSchema] and [check] do the same for [configuration]. *)
Theorem buildConf_writes_form `{!Engine, !Aes, !Json, !Utils, !Lossless} api s :
  let ty := field "type" (form s) in
  let s' := exec ApiForm.buildConf s in
  let s2 := exec ConcatForm.buildConf s in
  (∀ obj, result ApiForm.buildConf s = Some obj →
     (∃ configuration,
        field "configuration" (form s') = VStr (encrypted (JSON_stringify configuration))
        ∧ obj !! "configuration" = Some (VStr (encrypted (JSON_stringify configuration)))
        ∧ if is_string "api" ty
          then ∃ codes, ApiForm.successStatusCodes_of (form s) = Some codes
                 ∧ configuration = ApiForm.api_configuration (form s) codes
          else configuration = ApiForm.db_configuration (form s))
     ∧ (is_string "api" ty = true →
          field "certificate" (form s')
          = VStr (JSON_stringify (VArr (ApiForm.certificateList_of (form s)))))
     ∧ (∀ k, k ≠ "configuration" →
             (is_string "api" ty = true → k ≠ "certificate") →
             form s' !! k = form s !! k)
     ∧ s' = set_form (form s') s
     ∧ (field "configuration" (form s) = VStr "" → form s' ≠ form s))
  ∧ (is_string "api" ty = false → is_Some (result ApiForm.buildConf s))
  ∧ (result ApiForm.buildConf s = None → s' = s)
  ∧ form (exec (ApiForm.getSchema api) s) = form s'
  ∧ (is_string "api" ty = false → form (exec (ApiForm.check api) s) = form s')
  ∧ (is_string "api" ty = true → exec (ApiForm.check api) s = s)
  ∧ field "configuration" (form s2)
    = VStr (encrypted (JSON_stringify (ConcatForm.db_configuration (form s))))
  ∧ (∀ k, k ≠ "configuration" → form s2 !! k = form s !! k)
  ∧ s2 = set_form (form s2) s
  ∧ form (exec (ConcatForm.getSchema api) s) = form s2
  ∧ form (exec (ConcatForm.check api) s) = form s2.
Proof.
  intros ty s' s2. subst ty s' s2.
  assert (Hne : ∀ f text (g : gmap string value),
            field "configuration" f = VStr "" →
            g !! "configuration" = Some (VStr (encrypted text)) → g ≠ f).
  { intros f text g Hf Hg ->. unfold field in Hf. rewrite Hg in Hf.
    injection Hf as Hf. by apply encrypted_nonempty in Hf. }
  split_and!.
  - intros obj Hobj.
    destruct (is_string "api" (field "type" (form s))) eqn:Hty.
    + destruct (ApiForm.successStatusCodes_of (form s)) as [codes|] eqn:Hcodes.
      2: { destruct (buildConf_api_no_result s Hty Hcodes) as [Hr _]. congruence. }
      rewrite (buildConf_api_result s codes Hty Hcodes) in Hobj. injection Hobj as <-.
      unfold exec. rewrite (buildConf_api s codes Hty Hcodes). cbn [fst snd form set_form].
      split_and!.
      * eexists. split_and!.
        -- by rewrite field_insert_ne, field_insert by done.
        -- rewrite lookup_delete_all, decide_False by names.
           rewrite lookup_json_clone, lookup_insert_ne by done.
           by rewrite lookup_insert_eq.
        -- by exists codes.
      * intros _. by rewrite field_insert.
      * intros k Hk Hcert.
        rewrite lookup_insert_ne by (intros <-; by apply Hcert).
        by rewrite lookup_insert_ne.
      * by destruct s.
      * intros Hf. eapply Hne; [done|].
        rewrite lookup_insert_ne by done. apply lookup_insert_eq.
    + rewrite (buildConf_db_result s Hty) in Hobj. injection Hobj as <-.
      unfold exec. rewrite (buildConf_db s Hty). cbn [fst snd form set_form].
      split_and!.
      * eexists. split_and!.
        -- by rewrite field_insert.
        -- apply lookup_built_configuration. names.
        -- done.
      * done.
      * intros k Hk _. by rewrite lookup_insert_ne.
      * by destruct s.
      * intros Hf. eapply Hne; [done|]. apply lookup_insert_eq.
  - intros Hty. rewrite (buildConf_db_result s Hty). by eexists.
  - intros Hnone.
    destruct (is_string "api" (field "type" (form s))) eqn:Hty.
    + destruct (ApiForm.successStatusCodes_of (form s)) as [codes|] eqn:Hcodes.
      * by rewrite (buildConf_api_result s codes Hty Hcodes) in Hnone.
      * by destruct (buildConf_api_no_result s Hty Hcodes) as [_ ->].
    + by rewrite (buildConf_db_result s Hty) in Hnone.
  - apply getSchema_form.
  - intros Hty. by apply check_form_db.
  - intros Hty. by apply check_api.
  - unfold exec. rewrite (concat_buildConf s). cbn [fst snd form set_form].
    by rewrite field_insert.
  - intros k Hk. unfold exec. rewrite (concat_buildConf s). cbn [fst snd form set_form].
    by rewrite lookup_insert_ne.
  - unfold exec. rewrite (concat_buildConf s). by destruct s.
  - apply concat_getSchema_form.
  - apply concat_check_form.
Qed.

Lemma buildConf_writes_form_witness :
  let s' := exec (@ApiForm.buildConf ascii_engine marked_aes tree_json) mysql_state in
  is_string "api" (field "type" (form mysql_state)) = false
  ∧ field "configuration" (form mysql_state) = VStr ""
  ∧ form s' ≠ form mysql_state
  ∧ form (exec (@ApiForm.check ascii_engine marked_aes tree_json backend) mysql_state)
    = form s'.
Proof.
  intros s'.
  assert (Hty : is_string "api" (field "type" (form mysql_state)) = false) by done.
  assert (Hc : field "configuration" (form mysql_state) = VStr "") by done.
  destruct (@buildConf_writes_form ascii_engine marked_aes tree_json plain_utils
              marked_lossless backend mysql_state) as (Hbuilt & Hsome & _ & _ & Hcheck & _).
  destruct (Hsome Hty) as [obj Hobj].
  destruct (Hbuilt obj Hobj) as (_ & _ & _ & _ & Hne).
  split_and!; [done | done | exact (Hne Hc) | exact (Hcheck Hty)].
Defined.

(** [check] on an [api] form with a backend that answers: it starts the
    remote test and leaves the form as it was, while [buildConf] on the same
    state would have rewritten [configuration]. *)
Lemma check_api_leaves_form :
  form (exec (@ApiForm.check ascii_engine marked_aes tree_json backend) api_state) = form api_state
  ∧ trace (@ApiForm.check ascii_engine marked_aes tree_json backend) api_state
    = [Call (testApiExcel_request (ApiForm.apiReq api_form));
       Message success ("API联通正常，检测到" +:+ "1" +:+ "个Sheet")]
  ∧ form (exec (@ApiForm.buildConf ascii_engine marked_aes tree_json) api_state) ≠ form api_state.
Proof.
  assert (Hty : is_string "api" (field "type" (form api_state)) = true) by done.
  split_and!.
  - by rewrite check_api.
  - done.
  - assert (Hcodes : @ApiForm.successStatusCodes_of ascii_engine (form api_state)
                     = Some [VNum 200; VNum 201]) by done.
    rewrite (buildConf_api_form api_state _ Hty Hcodes). intros Heq.
    apply (f_equal (lookup "configuration")) in Heq.
    rewrite lookup_insert_ne, lookup_insert_eq in Heq by done.
    assert (Hc : form api_state !! "configuration" = Some (VStr "")) by done.
    rewrite Hc in Heq. discriminate Heq.
Qed.

(** C5. What the record [buildConf] returns shows of the secrets. The
    configuration is on the record as a cipher text only, which decrypts and
    parses to the object that holds the values. For a relational or [excel]
    form the record has no [username] and no [password] property, and the
    configuration holds both. For an [api] form the record has none of the
    six key and value properties of the header, cookie and parameter
    credentials, and the configuration holds the certificate list; but the
    record carries that list a second time as plain JSON text in
    [certificate], where every pair whose key and value are both filled in
    can be read without decrypting anything. The record of the revision with
    the concatenate mode has no [username] and no [password] either. *)
Theorem built_record_secrets `{!Engine, !Aes, !Json, !Utils, !Lossless} s obj :
  result ApiForm.buildConf s = Some obj →
  let certs := ApiForm.certificateList_of (form s) in
  (∃ text configuration,
     obj !! "configuration" = Some (VStr (encrypted text))
     ∧ decrypted (encrypted text) = Some text
     ∧ JSON_parse text = Some configuration
     ∧ if is_string "api" (field "type" (form s)) then
         prop "certificateList" configuration = VArr (map json_norm certs)
       else
         prop "username" configuration = json_reload (field "username" (form s))
         ∧ prop "password" configuration = json_reload (field "password" (form s)))
  ∧ (is_string "api" (field "type" (form s)) = false →
       obj !! "username" = None ∧ obj !! "password" = None)
  ∧ (is_string "api" (field "type" (form s)) = true →
       (∀ k, k ∈ api_auth_fields → obj !! k = None)
       ∧ (∃ plain, obj !! "certificate" = Some (VStr plain)
            ∧ JSON_parse plain = Some (VArr (map json_norm certs)))
       ∧ (∀ kf vf, (kf, vf) ∈ credential_pairs →
            truthy (field kf (form s)) && truthy (field vf (form s)) = true →
            ∃ target,
              json_norm (ApiForm.certificate_entry target (field kf (form s))
                           (field vf (form s)))
              ∈ map json_norm certs))
  ∧ (∀ obj2, result ConcatForm.buildConf s = Some obj2 →
       obj2 !! "username" = None ∧ obj2 !! "password" = None
       ∧ ∃ text, obj2 !! "configuration" = Some (VStr (encrypted text))).
Proof.
  intros Hobj certs. subst certs.
  destruct (is_string "api" (field "type" (form s))) eqn:Hty.
  - destruct (ApiForm.successStatusCodes_of (form s)) as [codes|] eqn:Hcodes.
    2: { destruct (buildConf_api_no_result s Hty Hcodes) as [Hr _]. congruence. }
    rewrite (buildConf_api_result s codes Hty Hcodes) in Hobj. injection Hobj as <-.
    split_and!.
    + eexists _, _. split_and!.
      * rewrite lookup_delete_all, decide_False by names.
        rewrite lookup_json_clone, lookup_insert_ne by done.
        by rewrite lookup_insert_eq.
      * apply decrypted_encrypted.
      * apply parse_stringify.
      * unfold ApiForm.api_configuration. by rewrite prop_json_norm by names.
    + done.
    + intros _. split_and!.
      * intros k Hk. apply lookup_built_deleted.
        revert k Hk. change (api_auth_fields ⊆ ApiForm.api_deleted). names.
      * eexists. split.
        -- rewrite lookup_delete_all, decide_False by names.
           by rewrite lookup_json_clone, lookup_insert_eq.
        -- apply parse_stringify.
      * intros kf vf Hin Hfilled. unfold credential_pairs in Hin.
        unfold ApiForm.certificateList_of, ApiForm.certificate_of.
        repeat (apply elem_of_cons in Hin as [[= -> ->]|Hin]);
          [| | |by apply elem_of_nil in Hin].
        -- exists "header". rewrite Hfilled. apply list_elem_of_fmap_2. left.
        -- exists "cookie". rewrite Hfilled. apply list_elem_of_fmap_2.
           apply elem_of_app. right. left.
        -- exists "param". rewrite Hfilled. apply list_elem_of_fmap_2.
           apply elem_of_app. right. apply elem_of_app. right. left.
    + intros obj2 Hobj2.
      rewrite (buildConf_concat_result s) in Hobj2. injection Hobj2 as <-.
      split_and!; [apply lookup_built_deleted; names .. |].
      eexists. apply lookup_built_configuration. names.
  - rewrite (buildConf_db_result s Hty) in Hobj. injection Hobj as <-.
    split_and!.
    + eexists _, _. split_and!.
      * apply lookup_built_configuration. names.
      * apply decrypted_encrypted.
      * apply parse_stringify.
      * apply prop_json_norm. names.
      * apply prop_json_norm. names.
    + intros _. split; apply lookup_built_deleted; names.
    + done.
    + intros obj2 Hobj2.
      rewrite (buildConf_concat_result s) in Hobj2. injection Hobj2 as <-.
      split_and!; [apply lookup_built_deleted; names .. |].
      eexists. apply lookup_built_configuration. names.
Qed.

Lemma built_record_secrets_witness :
  let built := result (@ApiForm.buildConf ascii_engine marked_aes tree_json) mysql_state in
  is_string "api" (field "type" (form mysql_state)) = false
  ∧ is_Some built
  ∧ built ≫= lookup "username" = None
  ∧ built ≫= lookup "password" = None.
Proof.
  intros built.
  assert (Hty : is_string "api" (field "type" (form mysql_state)) = false) by done.
  pose proof (@buildConf_db_result ascii_engine marked_aes tree_json mysql_state Hty) as Hobj.
  destruct (@built_record_secrets ascii_engine marked_aes tree_json plain_utils
              marked_lossless mysql_state _ Hobj) as (_ & Hdb & _).
  destruct (Hdb Hty) as [Hu Hp].
  split_and!; [done | by eexists | |]; subst built; rewrite Hobj; [exact Hu | exact Hp].
Defined.

(** An [api] form with a header credential: the record [buildConf] returns
    has a [certificate] property whose text parses, without any decryption,
    to the list that holds the header key and its secret value. *)
Lemma certificate_kept_in_plain_text :
  let built := result (@ApiForm.buildConf ascii_engine marked_aes tree_json) api_state in
  ∃ text,
    built ≫= lookup "certificate" = Some (VStr text)
    ∧ @JSON_parse tree_json text
      = Some (VArr [VObj [("target", VStr "header"); ("key", VStr "Authorization");
                          ("value", VStr "Bearer s3cret")]]).
Proof.
  intros built.
  assert (Hty : is_string "api" (field "type" (form api_state)) = true) by done.
  assert (Hcodes : @ApiForm.successStatusCodes_of ascii_engine (form api_state) = Some [VNum 200; VNum 201])
    by done.
  pose proof (@buildConf_api_result ascii_engine marked_aes tree_json api_state _ Hty Hcodes) as Hobj.
  eexists. subst built. rewrite Hobj. split.
  - cbn [mbind option_bind]. rewrite lookup_delete_all, decide_False by names.
    by rewrite lookup_json_clone, lookup_insert_eq.
  - cbn [JSON_stringify JSON_parse tree_json]. by rewrite tree_parse_stringify.
Qed.

(** C4. [initForm] on the record [buildConf] returns brings the
    configuration back into the form, as far as the defaults allow. Every
    value comes back as its JSON copy, which for a string, a number, a
    boolean, [null] or a missing property is the value itself. For a
    relational or [excel] form the ten connection properties are restored;
    [timeout] is restored unless it was falsy, when it comes back as 30, and
    [originType] unless it was falsy, when it comes back as "local". For an
    [api] form [endpoint] is restored; [method], [requestBody] and [timeout]
    are restored unless they were falsy, when they come back as "POST", the
    empty string and 30; [successStatusCodes] comes back as the parsed codes
    joined by commas, which is the text itself when it was a list of decimal
    integers within [±2^53] separated by commas alone, and "200,201" when
    the field was falsy; a pair of credential fields is restored when its
    key and its value were both filled in, and otherwise keeps what the form
    held before the load. *)
Theorem initForm_inverts_buildConf `{!Engine, !Aes, !Json, !Utils, !Lossless}
    api s s0 obj :
  result ApiForm.buildConf s = Some obj →
  let ty := field "type" (form s) in
  let was k := json_reload (field k (form s)) in
  let back k := field k (form (exec (ApiForm.initForm api (Some obj) false) s0)) in
  let back_or k d := back k = if truthy (field k (form s)) then was k else d in
  (∀ k, match field k (form s) with
        | VStr _ | VNum _ | VBool _ | VNull | VUndef => was k = field k (form s)
        | _ => True
        end)
  ∧ (is_string "api" ty = false →
       (∀ k, k ∈ db_keys → back k = was k)
       ∧ back_or "timeout" (VNum 30)
       ∧ back_or "originType" (VStr "local"))
  ∧ (is_string "api" ty = true →
       back "endpoint" = was "endpoint"
       ∧ back_or "method" (VStr "POST")
       ∧ back_or "requestBody" (VStr "")
       ∧ back_or "timeout" (VNum 30)
       ∧ (∃ codes, ApiForm.successStatusCodes_of (form s) = Some codes
            ∧ back "successStatusCodes" = VStr (join "," (map json_norm codes)))
       ∧ (∀ (n : Z) (ns : list Z),
            Forall (λ n, safe_integer n = true) (n :: ns) →
            field "successStatusCodes" (form s) = VStr (join "," (VNum <$> n :: ns)) →
            back "successStatusCodes" = field "successStatusCodes" (form s))
       ∧ (truthy (field "successStatusCodes" (form s)) = false →
            back "successStatusCodes" = VStr "200,201")
       ∧ (∀ kf vf, (kf, vf) ∈ credential_pairs →
            if truthy (field kf (form s)) && truthy (field vf (form s))
            then back kf = was kf ∧ back vf = was vf
            else back kf = field kf (form s0) ∧ back vf = field vf (form s0))).
Proof.
  intros Hobj ty was back back_or. subst ty was back back_or. cbv beta.
  split_and!.
  - intros k. by destruct (field k (form s)).
  - intros Hty. rewrite (initForm_built_db_form api s s0 obj Hty Hobj).
    set (c := json_norm (ApiForm.db_configuration (form s))).
    assert (Hprop : ∀ k, prop k c = json_reload (assoc k
              [("host", field "host" (form s)); ("port", field "port" (form s));
               ("username", field "username" (form s));
               ("password", field "password" (form s));
               ("database", field "database" (form s));
               ("extraJdbc", field "extraJdbc" (form s));
               ("dbSchema", field "dbSchema" (form s));
               ("filename", field "filename" (form s));
               ("sheets", field "sheets" (form s)); ("mode", field "mode" (form s));
               ("timeout", field "timeout" (form s));
               ("originType", or_else (field "originType" (form s)) (VStr "local"))])).
    { intros k. apply prop_json_norm. names. }
    split_and!.
    + intros k Hk. rewrite field_loaded_db. unfold db_keys in Hk.
      repeat (apply elem_of_cons in Hk as [->|Hk]);
        [rewrite !decide_False by done; rewrite decide_True by names;
         rewrite Hprop; reflexivity .. |].
      by apply elem_of_nil in Hk.
    + rewrite field_loaded_db. rewrite decide_False, decide_True by done.
      unfold timeout_or_30. rewrite Hprop. cbn [assoc String.eqb Ascii.eqb Bool.eqb].
      by rewrite truthy_json_reload.
    + rewrite field_loaded_db. rewrite decide_True by done.
      rewrite Hprop. cbn [assoc String.eqb Ascii.eqb Bool.eqb].
      by apply or_else_json_reload.
  - intros Hty.
    destruct (ApiForm.successStatusCodes_of (form s)) as [codes|] eqn:Hcodes.
    2: { destruct (buildConf_api_no_result s Hty Hcodes) as [Hr _]. congruence. }
    assert (Hback : field "successStatusCodes"
                      (form (exec (ApiForm.initForm api (Some obj) false) s0))
                    = VStr (join "," (map json_norm codes)))
      by exact (initForm_built_api_codes api s s0 obj codes Hty Hcodes Hobj).
    rewrite Hback.
    rewrite (initForm_built_api_form api s s0 obj codes Hty Hcodes Hobj).
    set (c := json_norm (ApiForm.api_configuration (form s) codes)).
    destruct (field_certified (form s) (loaded_api c (opened obj (form s0))))
      as [Hpairs Hrest].
    assert (Hprop : ∀ k, prop k c = json_reload (assoc k
              [("endpoint", field "endpoint" (form s));
               ("method", or_else (field "method" (form s)) (VStr "POST"));
               ("requestBody", or_else (field "requestBody" (form s)) (VStr ""));
               ("successStatusCodes", VArr codes);
               ("certificateList", VArr (ApiForm.certificateList_of (form s)));
               ("timeout", or_else (field "timeout" (form s)) (VNum 30));
               ("originType", VStr "api")])).
    { intros k. apply prop_json_norm. names. }
    split_and!.
    + rewrite Hrest by names. unfold loaded_api.
      rewrite !field_insert_ne, field_insert by done. by rewrite Hprop.
    + rewrite Hrest by names. unfold loaded_api.
      rewrite !field_insert_ne, field_insert by done. rewrite Hprop.
      cbn [assoc String.eqb Ascii.eqb Bool.eqb]. by apply or_else_json_reload.
    + rewrite Hrest by names. unfold loaded_api.
      rewrite !field_insert_ne, field_insert by done. rewrite Hprop.
      cbn [assoc String.eqb Ascii.eqb Bool.eqb]. by apply or_else_json_reload.
    + rewrite Hrest by names. unfold loaded_api.
      rewrite !field_insert_ne, field_insert by done.
      unfold timeout_or_30. rewrite Hprop. cbn [assoc String.eqb Ascii.eqb Bool.eqb].
      rewrite truthy_json_reload. unfold or_else.
      destruct (truthy (field "timeout" (form s))) eqn:Ht; [by rewrite Ht | done].
    + by exists codes.
    + intros n ns Hsafe Hf.
      assert (codes = VNum <$> n :: ns) as ->.
      { pose proof (successStatusCodes_of_join (form s) n ns Hsafe Hf). congruence. }
      assert (Hnorm : map json_norm (VNum <$> n :: ns) = VNum <$> n :: ns).
      { rewrite <- list_fmap_compose. by apply list_fmap_ext. }
      by rewrite Hf, Hnorm.
    + intros Hf.
      assert (codes = [VNum 200; VNum 201]) as ->.
      { pose proof (successStatusCodes_of_falsy (form s) Hf). congruence. }
      by vm_compute.
    + intros kf vf Hin. specialize (Hpairs kf vf Hin).
      destruct (truthy (field kf (form s)) && truthy (field vf (form s))); [done|].
      assert (Hframe : ∀ k, k ∈ api_auth_fields →
                field k (loaded_api c (opened obj (form s0))) = field k (form s0)).
      { intros k Hk. rewrite field_loaded_api, field_opened.
        - rewrite decide_False; [done|]. intros Hrec. revert Hk.
          unfold record_keys in Hrec.
          repeat (apply elem_of_cons in Hrec as [->|Hrec]);
            [names .. | by apply elem_of_nil in Hrec].
        - intros Hl. revert Hk.
          repeat (apply elem_of_cons in Hl as [->|Hl]);
            [names .. | by apply elem_of_nil in Hl]. }
      destruct Hpairs as [-> ->].
      unfold credential_pairs in Hin.
      repeat (apply elem_of_cons in Hin as [[= -> ->]|Hin]);
        [split; apply Hframe; names .. | by apply elem_of_nil in Hin].
Qed.

Lemma initForm_inverts_buildConf_witness :
  let built := @ApiForm.buildConf ascii_engine marked_aes tree_json in
  let load obj := @ApiForm.initForm ascii_engine marked_aes tree_json backend (Some obj) false in
  ∃ obj, result built mysql_state = Some obj
    ∧ field "password" (form (exec (load obj) (mounted props0 (ApiForm.form0 "pg"))))
      = VStr "hunter2"
    ∧ field "timeout" (form (exec (load obj) (mounted props0 (ApiForm.form0 "pg"))))
      = VNum 30.
Proof.
  intros built load.
  assert (Hty : is_string "api" (field "type" (form mysql_state)) = false) by done.
  pose proof (@buildConf_db_result ascii_engine marked_aes tree_json mysql_state Hty) as Hobj.
  eexists. split; [exact Hobj|].
  destruct (@initForm_inverts_buildConf ascii_engine marked_aes tree_json plain_utils
              marked_lossless backend mysql_state (mounted props0 (ApiForm.form0 "pg")) _ Hobj)
    as (_ & Hdb & _).
  destruct (Hdb Hty) as (Hkeys & Htimeout & _).
  unfold load. split.
  - rewrite (Hkeys "password") by names. by vm_compute.
  - rewrite Htimeout. by vm_compute.
Defined.

(** A relational form whose timeout is 0, which the input of the timeout
    allows, comes back with the timeout 30; an [api] form whose status codes
    were never set comes back with "200,201", and so does one whose status
    codes are "200, 201". *)
Lemma initForm_changes_timeout_and_codes :
  let built := @ApiForm.buildConf ascii_engine marked_aes tree_json in
  let load obj := @ApiForm.initForm ascii_engine marked_aes tree_json backend (Some obj) false in
  let s := set_form (<["timeout" := VNum 0]> mysql_form) mysql_state in
  let s2 := set_form (<["successStatusCodes" := VStr "200, 201"]> api_form) api_state in
  (∃ obj, result built s = Some obj
     ∧ field "timeout" (form s) = VNum 0
     ∧ field "timeout" (form (exec (load obj) (exec built s))) = VNum 30)
  ∧ (∃ obj, result built api_state = Some obj
       ∧ field "successStatusCodes" (form api_state) = VUndef
       ∧ field "successStatusCodes" (form (exec (load obj) (exec built api_state)))
         = VStr "200,201")
  ∧ (∃ obj, result built s2 = Some obj
       ∧ field "successStatusCodes" (form s2) = VStr "200, 201"
       ∧ field "successStatusCodes" (form (exec (load obj) (exec built s2)))
         = VStr "200,201").
Proof.
  intros built load s s2. split_and!.
  - assert (Hty : is_string "api" (field "type" (form s)) = false) by done.
    pose proof (@buildConf_db_result ascii_engine marked_aes tree_json s Hty) as Hobj.
    eexists. split_and!; [exact Hobj | done |].
    unfold load.
    rewrite (@initForm_built_db_form ascii_engine marked_aes tree_json
               marked_lossless backend s _ _ Hty Hobj).
    rewrite field_loaded_db. rewrite decide_False, decide_True by done.
    by vm_compute.
  - assert (Hty : is_string "api" (field "type" (form api_state)) = true) by done.
    assert (Hcodes : @ApiForm.successStatusCodes_of ascii_engine (form api_state)
                     = Some [VNum 200; VNum 201]) by done.
    pose proof (@buildConf_api_result ascii_engine marked_aes tree_json api_state _
                  Hty Hcodes) as Hobj.
    eexists. split_and!; [exact Hobj | done |].
    unfold load.
    rewrite (@initForm_built_api_codes ascii_engine marked_aes tree_json
               marked_lossless backend api_state _ _ _ Hty Hcodes Hobj).
    by vm_compute.
  - assert (Hty : is_string "api" (field "type" (form s2)) = true) by done.
    assert (Hcodes : @ApiForm.successStatusCodes_of ascii_engine (form s2)
                     = Some [VNum 200; VNum 201]) by (by vm_compute).
    pose proof (@buildConf_api_result ascii_engine marked_aes tree_json s2 _ Hty Hcodes)
      as Hobj.
    eexists. split_and!; [exact Hobj | done |].
    unfold load.
    rewrite (@initForm_built_api_codes ascii_engine marked_aes tree_json
               marked_lossless backend s2 _ _ _ Hty Hcodes Hobj).
    by vm_compute.
Qed.

(** * Further properties of the code *)

(** ** Selection reconciler *)

(** X1. The change handler of the select-all box. Checked: the selection
    becomes the old selection together with the names on screen, without
    duplicates. Cleared: the names on screen are filtered out of the
    selection, which keeps its order. Either way a name that is not on
    screen keeps its membership, the indeterminate mark is cleared, and the
    handler itself writes neither [checkAll] nor the keyword. *)
Theorem handleCheckAllChange_union_difference `{!Engine} s :
  let on := exec (handleCheckAllChange true) s in
  let off := exec (handleCheckAllChange false) s in
  list_to_set (C := gset string) (checkTableList on)
    = list_to_set (checkTableList s) ∪ list_to_set (visibleFiltered s)
  ∧ NoDup (checkTableList on)
  ∧ checkTableList off = filter (λ ele, ele ∉ visibleFiltered s) (checkTableList s)
  ∧ (∀ n, n ∉ visibleFiltered s →
       (n ∈ checkTableList on ↔ n ∈ checkTableList s)
       ∧ (n ∈ checkTableList off ↔ n ∈ checkTableList s))
  ∧ (∀ n, n ∈ visibleFiltered s → n ∈ checkTableList on ∧ n ∉ checkTableList off)
  ∧ checkList off = []
  ∧ isIndeterminate on = false ∧ isIndeterminate off = false
  ∧ checkAll on = checkAll s ∧ checkAll off = checkAll s
  ∧ visibleFiltered on = visibleFiltered s ∧ visibleFiltered off = visibleFiltered s.
Proof.
  intros on off. subst on off.
  rewrite !handleCheckAllChange_checkTableList.
  split_and!; try reflexivity.
  - apply set_eq. intros n.
    rewrite elem_of_union, !elem_of_list_to_set, elem_of_new_Set, elem_of_app. tauto.
  - apply NoDup_new_Set.
  - intros n Hn. rewrite elem_of_new_Set, elem_of_app, list_elem_of_filter. tauto.
  - intros n Hn. rewrite elem_of_new_Set, elem_of_app, list_elem_of_filter. tauto.
Qed.

(** X2. The selection never holds a name twice: if [checkTableList] has no
    duplicates, it has none after any sequence of keyword changes, select-all
    changes and checkbox-group changes, whatever the group reports. *)
Theorem checkTableList_NoDup `{!Engine} ops s :
  NoDup (checkTableList s) → NoDup (checkTableList (run ops s)).
Proof.
  revert s. induction ops as [|op ops IH]; intros s Hnd; [done|].
  simpl. apply IH. destruct op as [keyword|[]|explicit].
  - simpl step. by rewrite setFilter_checkTableList.
  - apply NoDup_new_Set.
  - change (NoDup (filter (λ ele, ele ∉ visibleFiltered s) (checkTableList s))).
    by apply NoDup_filter.
  - apply NoDup_new_Set.
Qed.

Lemma checkTableList_NoDup_witness :
  let ops := [SetFilter "a"; ToggleMany ["a1"; "a1"; "Ab"]; ToggleAll true] in
  NoDup (checkTableList abc) ∧ NoDup (checkTableList (@run ascii_engine ops abc)).
Proof.
  intros ops.
  assert (Hnd : NoDup (checkTableList abc)).
  { apply (bool_decide_unpack _). vm_compute. exact I. }
  split; [done|]. apply (@checkTableList_NoDup ascii_engine ops abc Hnd).
Defined.

(** X3. The checkbox group stays in line with the selection: if the boxes
    shown as checked are exactly the selected names on screen, they still
    are after any sequence of keyword changes, select-all changes and
    group changes that report names on screen. *)
Theorem checkList_follows_selection `{!Engine} ops s :
  rendered_consistent s → explicit_visible ops s →
  rendered_consistent (run ops s).
Proof.
  revert s. induction ops as [|op ops IH]; intros s Hs Hops; [done|].
  destruct Hops as [Hop Hops]. simpl. apply IH; [|done].
  apply step_rendered_consistent; [done|]. by intros explicit ->.
Qed.

Lemma checkList_follows_selection_witness :
  let s := exec (@setFilter ascii_engine "a") abc in
  let ops := [ToggleMany ["Ab"]; SetFilter "b"; ToggleAll true; SetFilter ""] in
  @rendered_consistent ascii_engine s ∧ @explicit_visible ascii_engine ops s
  ∧ @rendered_consistent ascii_engine (@run ascii_engine ops s)
  ∧ checkList (@run ascii_engine ops s) = checkTableList (@run ascii_engine ops s).
Proof.
  intros s ops.
  assert (Hs : @rendered_consistent ascii_engine s).
  { intros n. subst s. rewrite setFilter_checkTableList.
    rewrite (@setFilter_checkList ascii_engine abc "a") by done.
    rewrite list_elem_of_filter. tauto. }
  assert (Hops : @explicit_visible ascii_engine ops s).
  { repeat split; apply (bool_decide_unpack _); vm_compute; exact I. }
  split_and!; [done | done | | by vm_compute].
  apply (@checkList_follows_selection ascii_engine ops s Hs Hops).
Defined.

(** X4. How the handlers compose. Checking select-all and then clearing it
    leaves exactly the part of the former selection that is not on screen,
    in its order; and reporting the same checked names twice is the same
    as reporting them once. *)
Theorem toggle_compositions `{!Engine} s explicit :
  NoDup (checkTableList s) → explicit ⊆ visibleFiltered s →
  checkTableList (exec (handleCheckAllChange false) (exec (handleCheckAllChange true) s))
  = filter (λ ele, ele ∉ visibleFiltered s) (checkTableList s)
  ∧ checkTableList
      (exec (handleCheckedTablesChange explicit) (exec (handleCheckedTablesChange explicit) s))
    = checkTableList (exec (handleCheckedTablesChange explicit) s).
Proof.
  intros Hnd Hsub. split.
  - rewrite handleCheckAllChange_checkTableList.
    change (visibleFiltered (exec (handleCheckAllChange true) s)) with (visibleFiltered s).
    rewrite handleCheckAllChange_checkTableList.
    rewrite filter_new_Set, filter_app, filter_not_elem_of_all by done.
    simpl. apply new_Set_NoDup. by apply NoDup_filter.
  - rewrite (handleCheckedTablesChange_checkTableList (exec _ s)).
    change (visibleFiltered (exec (handleCheckedTablesChange explicit) s))
      with (visibleFiltered s).
    rewrite handleCheckedTablesChange_checkTableList.
    rewrite filter_new_Set, filter_app, (filter_not_elem_of_all explicit) by done.
    rewrite app_nil_r, list_filter_filter.
    rewrite new_Set_app_new_Set. f_equal. f_equal.
    apply list_filter_iff. tauto.
Qed.

Lemma toggle_compositions_witness :
  let s := exec (@setFilter ascii_engine "a") abc in
  NoDup (checkTableList s) ∧ ["Ab"] ⊆ @visibleFiltered ascii_engine s
  ∧ checkTableList
      (exec (@handleCheckAllChange ascii_engine false)
         (exec (@handleCheckAllChange ascii_engine true) s))
    = ["b1"].
Proof.
  intros s.
  assert (Hnd : NoDup (checkTableList s))
    by (apply (bool_decide_unpack _); vm_compute; exact I).
  assert (Hsub : ["Ab"] ⊆ @visibleFiltered ascii_engine s)
    by (apply (bool_decide_unpack _); vm_compute; exact I).
  split_and!; [done..|].
  rewrite (proj1 (@toggle_compositions ascii_engine s ["Ab"] Hnd Hsub)). by vm_compute.
Defined.

(** ** Saving *)

(** X5. [save] on a valid form asks for confirmation exactly when more than
    30 names are selected, and before anything else: with more than 30 the
    trace starts with the confirmation, with 30 or fewer there is none. When
    the user declines, nothing is sent, no event is emitted and the state,
    the form included, is as before. *)
Theorem save_confirms_above_30 `{!Engine, !Aes, !Json, !Utils} api (validate : FormInstance) confirmed s :
  validate s = true →
  let n := length (checkTableList s) in
  let tr := trace (ApiForm.save api (Some validate) confirmed) s in
  ((∃ c, Confirm c ∈ tr) ↔ (30 < n)%nat)
  ∧ ((30 < n)%nat → ∃ rest, tr = Confirm n :: rest ∧ ∀ c, Confirm c ∉ rest)
  ∧ ((30 < n)%nat →
     ApiForm.save api (Some validate) false s = (Some (), s, [Confirm n])).
Proof.
  intros Hv n tr. subst n tr.
  destruct (save_trace_shape api validate confirmed s) as (rest & Htr & Hrest).
  rewrite Hv in Htr. unfold confirmation in Htr. rewrite Htr.
  split_and!.
  - split.
    + intros [c Hc].
      destruct (bool_decide (30 < _)%nat) eqn:Hn; [by apply bool_decide_eq_true in Hn|].
      by apply Hrest in Hc.
    + intros Hn. eexists. rewrite bool_decide_eq_true_2 by done. left.
  - intros Hn. exists rest. by rewrite bool_decide_eq_true_2 by done.
  - intros Hn. by apply save_declined.
Qed.

Lemma save_confirms_above_30_witness :
  always_valid crowded = true
  ∧ (30 < length (checkTableList crowded))%nat
  ∧ @ApiForm.save ascii_engine marked_aes tree_json backend (Some always_valid) false crowded
    = (Some (), crowded, [Confirm 31]).
Proof.
  assert (Hv : always_valid crowded = true) by done.
  assert (Hn : (30 < length (checkTableList crowded))%nat) by (vm_compute; lia).
  split_and!; [done..|].
  apply (proj2 (proj2 (@save_confirms_above_30 ascii_engine marked_aes tree_json plain_utils
                         backend always_valid false crowded Hv)) Hn).
Defined.

(** X6. Where [save] sends the form once it is valid, small or confirmed,
    and built: a source without an id is added, with the selected rows of
    the table list as its tables; a source with an id is updated with the
    record alone, or, when its tables are being edited, only its chosen
    tables are sent. There is exactly that one request. When it succeeds
    the component closes (step 0, close, refresh; table list and check list
    emptied); when it is rejected nothing is emitted and the dialog stays.
    Either way the save flag is down again, and the selection and the
    keyword are still what they were. *)
Theorem save_routes `{!Engine, !Aes, !Json, !Utils} api (validate : FormInstance) confirmed s obj :
  validate s = true →
  ((length (checkTableList s) ≤ 30)%nat ∨ confirmed = true) →
  result ApiForm.buildConf (set_saveLoading true s) = Some obj →
  let s' := exec (ApiForm.save api (Some validate) confirmed) s in
  let tr := trace (ApiForm.save api (Some validate) confirmed) s in
  let id := field "id" (form s) in
  let tables := selected_tables s in
  let sent :=
    if truthy id then
      if isEditTable s then chooseTables_request id tables else update_request obj
    else add_request (<["tables" := VArr tables]> obj) in
  let answer :=
    if truthy id then
      if isEditTable s then Api.chooseTables api id tables else Api.update api obj
    else Api.add api (<["tables" := VArr tables]> obj) in
  calls tr = [sent]
  ∧ saveLoading s' = false
  ∧ checkTableList s' = checkTableList s
  ∧ keywords s' = keywords s
  ∧ form s' = form (exec ApiForm.buildConf s)
  ∧ (is_Some answer →
     tr = confirmation s
          ++ [Call sent; Emit (changeActiveStep 0); Emit close_event; Emit refresh]
     ∧ dialogVisible s' = false ∧ tableList s' = [] ∧ checkList s' = []
     ∧ excelUploadSuccess s' = false ∧ isCreate s' = true ∧ isEditTable s' = false)
  ∧ (answer = None →
     tr = confirmation s ++ [Call sent]
     ∧ dialogVisible s' = dialogVisible s ∧ tableList s' = tableList s
     ∧ checkList s' = checkList s).
Proof.
  intros Hv Hok Hobj s' tr id tables sent answer.
  assert (Htarget : save_target api obj (selected_tables s) s = (sent, answer)).
  { unfold save_target. subst sent answer id tables.
    destruct (truthy _); [by destruct (isEditTable s)|done]. }
  clearbody sent answer. subst s' tr id tables. unfold exec, trace.
  rewrite (save_run api validate confirmed s obj Hv Hok Hobj). cbn [fst snd].
  unfold saved. rewrite save_target_built, Htarget. cbn [fst snd].
  assert (Hconf : calls (confirmation s) = []).
  { unfold confirmation. by destruct (bool_decide _). }
  assert (Hform : form (exec ApiForm.buildConf (set_saveLoading true s))
                  = form (exec ApiForm.buildConf s)).
  { by apply buildConf_form_only. }
  destruct answer as [[]|]; cbn [fst snd].
  - split_and!; try done.
    unfold calls in *. by rewrite omap_app, Hconf.
  - split_and!; try done.
    unfold calls in *. by rewrite omap_app, Hconf.
Qed.

Lemma save_routes_witness :
  always_valid mysql_state = true
  ∧ (length (checkTableList mysql_state) ≤ 30)%nat
  ∧ is_Some (result (@ApiForm.buildConf ascii_engine marked_aes tree_json)
               (set_saveLoading true mysql_state))
  ∧ dialogVisible
      (exec (@ApiForm.save ascii_engine marked_aes tree_json backend (Some always_valid) false)
         mysql_state) = false.
Proof.
  assert (Hv : always_valid mysql_state = true) by done.
  assert (Hn : (length (checkTableList mysql_state) ≤ 30)%nat) by (simpl; lia).
  assert (Hty : is_string "api" (field "type" (form (set_saveLoading true mysql_state)))
                = false) by done.
  pose proof (@buildConf_db_result ascii_engine marked_aes tree_json _ Hty) as Hobj.
  split_and!; [done | done | by eexists |].
  destruct (@save_routes ascii_engine marked_aes tree_json plain_utils backend always_valid false
              mysql_state _ Hv (or_introl Hn) Hobj) as (_ & _ & _ & _ & _ & Hok & _).
  assert (Hid : truthy (field "id" (form mysql_state)) = false) by done.
  apply Hok. rewrite Hid. by eexists.
Defined.

(** ** The step controller *)

(** X7. What [next] emits. The only event it can emit is the change to the
    following step, and it emits it exactly when the form is valid and: for
    [excel], a file has been uploaded; for [api], no fetch is under way and
    the fetch it starts succeeds; for any other type, no check is under way
    and the connectivity check of the record just built answers true. For
    those other types the check request comes first in the trace, the event
    follows only a true answer and is followed by the request for the
    tables; a false answer gives the connection-failed toast instead. *)
Theorem next_step_gate `{!Engine, !Aes, !Json, !Utils} api (validate : FormInstance) s :
  let tr := trace (ApiForm.next api (Some validate)) s in
  let ty := field "type" (form s) in
  let advance := Emit (changeActiveStep (activeStep (props s) + 1)) in
  (advance ∈ tr ↔
     validate s = true ∧
     if is_string "excel" ty then excelUploadSuccess s = true
     else if is_string "api" ty then
       uploadLoading s = false
       ∧ is_Some (Api.fetchExcelFromApi api (ApiForm.apiReq (form s)))
     else
       checkLoading s = false
       ∧ ∃ obj, result ApiForm.buildConf s = Some obj ∧ Api.check api obj = Some true)
  ∧ (∀ e, Emit e ∈ tr → Emit e = advance)
  ∧ (validate s = true → is_string "excel" ty = false → is_string "api" ty = false →
     checkLoading s = false →
     ∃ obj, result ApiForm.buildConf s = Some obj
       ∧ tr = Call (check_request obj)
              :: match Api.check api obj with
                 | Some true => [advance; Call (getTablesByConf_request obj)]
                 | Some false => [Message error (t "ds.form.connect.failed")]
                 | None => []
                 end).
Proof.
  intros tr ty advance. subst tr ty advance. unfold trace.
  destruct (validate s) eqn:Hv.
  2: { rewrite (next_invalid api validate s Hv). cbn [snd].
       split_and!; [|by intros e ?%elem_of_nil|done].
       split; [by intros ?%elem_of_nil | by intros [? _]]. }
  destruct (is_string "excel" (field "type" (form s))) eqn:Hex.
  { rewrite (next_excel api validate s Hv Hex). cbn [snd].
    destruct (excelUploadSuccess s).
    - split_and!; [|by intros e ->%list_elem_of_singleton|done].
      split; [done | intros _; left].
    - split_and!; [|by intros e ?%elem_of_nil|done].
      split; [by intros ?%elem_of_nil | by intros [_ ?]]. }
  destruct (is_string "api" (field "type" (form s))) eqn:Hty.
  { destruct (uploadLoading s) eqn:Hbusy.
    - rewrite (next_api_busy api validate s Hv Hex Hty Hbusy). cbn [snd].
      split_and!; [|by intros e ?%elem_of_nil|done].
      split; [by intros ?%elem_of_nil | by intros [_ [? _]]].
    - rewrite (next_api_run api validate s Hv Hex Hty Hbusy).
      destruct (Api.fetchExcelFromApi api _); cbn [snd].
      + split_and!; [| |done].
        * split; [by eauto | intros _; right; left].
        * intros e [?|[?|?%elem_of_nil]%elem_of_cons]%elem_of_cons; done.
      + split_and!; [| |done].
        * split; [|by intros [_ [_ [? ?]]]].
          intros [?|[?|[?|?%elem_of_nil]%elem_of_cons]%elem_of_cons]%elem_of_cons; done.
        * intros e [?|[?|[?|?%elem_of_nil]%elem_of_cons]%elem_of_cons]%elem_of_cons; done. }
  pose proof (buildConf_db_result s Hty) as Hobj.
  destruct (checkLoading s) eqn:Hbusy.
  { rewrite (next_db_busy api validate s Hv Hex Hty Hbusy). cbn [snd].
    split_and!; [|by intros e ?%elem_of_nil|done].
    split; [by intros ?%elem_of_nil | by intros [_ [? _]]]. }
  rewrite (next_db_run api validate s _ Hv Hex Hty Hbusy Hobj). cbn [snd].
  unfold checked. rewrite Hobj.
  destruct (Api.check api _) as [[]|] eqn:Hcheck; cbn [snd].
  - split_and!.
    + split; [intros _; split_and!; [done..|]; by eexists | intros _; right; left].
    + intros e [?|[?|[?|?%elem_of_nil]%elem_of_cons]%elem_of_cons]%elem_of_cons; done.
    + intros _ _ _ _. eexists. split; [done|]. by rewrite Hcheck.
  - split_and!.
    + split.
      * intros [?|[?|?%elem_of_nil]%elem_of_cons]%elem_of_cons; done.
      * intros (_ & _ & obj & [= <-] & Hc). congruence.
    + intros e [?|[?|?%elem_of_nil]%elem_of_cons]%elem_of_cons; done.
    + intros _ _ _ _. eexists. split; [done|]. by rewrite Hcheck.
  - split_and!.
    + split.
      * intros [?|?%elem_of_nil]%elem_of_cons; done.
      * intros (_ & _ & obj & [= <-] & Hc). congruence.
    + intros e [?|?%elem_of_nil]%elem_of_cons; done.
    + intros _ _ _ _. eexists. split; [done|]. by rewrite Hcheck.
Qed.

Lemma next_step_gate_witness :
  always_valid mysql_state = true
  ∧ is_string "excel" (field "type" (form mysql_state)) = false
  ∧ is_string "api" (field "type" (form mysql_state)) = false
  ∧ checkLoading mysql_state = false
  ∧ Emit (changeActiveStep 2)
    ∈ trace (@ApiForm.next ascii_engine marked_aes tree_json backend (Some always_valid)) mysql_state.
Proof.
  assert (Hv : always_valid mysql_state = true) by done.
  assert (Hex : is_string "excel" (field "type" (form mysql_state)) = false) by done.
  assert (Hty : is_string "api" (field "type" (form mysql_state)) = false) by done.
  assert (Hbusy : checkLoading mysql_state = false) by done.
  split_and!; [done..|].
  destruct (proj2 (proj2 (@next_step_gate ascii_engine marked_aes tree_json plain_utils backend
                            always_valid mysql_state)) Hv Hex Hty Hbusy)
    as (obj & _ & ->).
  right. left.
Defined.

(** X8. A fetch from an API that succeeds turns the form into an [excel]
    form that remembers where it came from: the type is [excel], the origin
    is [api], the file name and the sheets are those of the answer, the
    sheets are the table list, and the upload counts as done. The record
    built from that form has the relational shape: its configuration holds
    the file name, the sheets and the origin [api]. A fetch that fails
    leaves the state as it was and shows the failure toast. *)
Theorem next_api_fetch_outcome `{!Engine, !Aes, !Json, !Utils, !Lossless}
    api (validate : FormInstance) s :
  validate s = true →
  is_string "api" (field "type" (form s)) = true →
  uploadLoading s = false →
  let s' := exec (ApiForm.next api (Some validate)) s in
  match Api.fetchExcelFromApi api (ApiForm.apiReq (form s)) with
  | Some data =>
      field "type" (form s') = VStr "excel"
      ∧ field "originType" (form s') = VStr "api"
      ∧ field "filename" (form s') = VStr (filename data)
      ∧ field "sheets" (form s') = VArr (sheet_value <$> sheets data)
      ∧ tableList s' = sheets data
      ∧ excelUploadSuccess s' = true
      ∧ uploadLoading s' = false
      ∧ ∃ obj blob text configuration,
          result ApiForm.buildConf s' = Some obj
          ∧ obj !! "configuration" = Some (VStr blob)
          ∧ decrypted blob = Some text
          ∧ JSON_parse text = Some configuration
          ∧ prop "originType" configuration = VStr "api"
          ∧ prop "filename" configuration = VStr (filename data)
          ∧ prop "endpoint" configuration = VUndef
  | None =>
      s' = s
      ∧ trace (ApiForm.next api (Some validate)) s
        = [Call (fetchExcelFromApi_request (ApiForm.apiReq (form s)));
           ConsoleError "Fetch Excel from API failed:";
           Message error "通过API获取Excel失败"]
  end.
Proof.
  intros Hv Hty Hbusy s'. subst s'.
  assert (Hex : is_string "excel" (field "type" (form s)) = false).
  { destruct (field "type" (form s)) as [| | | | |ty| |]; try done. simpl in *.
    apply String.eqb_eq in Hty as ->. done. }
  unfold exec, trace. rewrite (next_api_run api validate s Hv Hex Hty Hbusy).
  destruct (Api.fetchExcelFromApi api _) as [data|]; cbn [fst snd].
  - assert (Hform : form (fetched data s)
        = <["originType" := VStr "api"]>
            (<["type" := VStr "excel"]>
               (<["sheets" := VArr (sheet_value <$> sheets data)]>
                  (<["filename" := VStr (filename data)]> (form s))))) by done.
    assert (Hf : ∀ k, field k (form (fetched data s))
                      = field k (<["originType" := VStr "api"]>
            (<["type" := VStr "excel"]>
               (<["sheets" := VArr (sheet_value <$> sheets data)]>
                  (<["filename" := VStr (filename data)]> (form s)))))) by done.
    assert (Htype : field "type" (form (fetched data s)) = VStr "excel").
    { rewrite Hf. by rewrite field_insert_ne, field_insert by done. }
    assert (Hor : field "originType" (form (fetched data s)) = VStr "api").
    { rewrite Hf. by rewrite field_insert. }
    assert (Hfn : field "filename" (form (fetched data s)) = VStr (filename data)).
    { rewrite Hf. by rewrite !field_insert_ne, field_insert by done. }
    split_and!; try done.
    { rewrite Hf. by rewrite !field_insert_ne, field_insert by done. }
    assert (Hty' : is_string "api" (field "type" (form (fetched data s))) = false)
      by by rewrite Htype.
    eexists _, _, _, _. split_and!.
    + apply (buildConf_db_result _ Hty').
    + apply lookup_built_configuration. names.
    + apply decrypted_encrypted.
    + apply parse_stringify.
    + unfold ApiForm.db_configuration. rewrite prop_json_norm by names.
      cbn [assoc String.eqb Ascii.eqb Bool.eqb]. by rewrite Hor.
    + unfold ApiForm.db_configuration. rewrite prop_json_norm by names.
      cbn [assoc String.eqb Ascii.eqb Bool.eqb]. by rewrite Hfn.
    + unfold ApiForm.db_configuration. by rewrite prop_json_norm by names.
  - split; [|done]. destruct s. simpl in Hbusy. by subst.
Qed.

Lemma next_api_fetch_outcome_witness :
  always_valid api_state = true
  ∧ is_string "api" (field "type" (form api_state)) = true
  ∧ uploadLoading api_state = false
  ∧ field "type"
      (form (exec (@ApiForm.next ascii_engine marked_aes tree_json backend (Some always_valid)) api_state))
    = VStr "excel".
Proof.
  assert (Hv : always_valid api_state = true) by done.
  assert (Hty : is_string "api" (field "type" (form api_state)) = true) by done.
  assert (Hbusy : uploadLoading api_state = false) by done.
  split_and!; [done..|].
  pose proof (@next_api_fetch_outcome ascii_engine marked_aes tree_json plain_utils marked_lossless
                backend always_valid api_state Hv Hty Hbusy) as Hout.
  cbv zeta in Hout. cbn [Api.fetchExcelFromApi backend] in Hout.
  by destruct Hout as (-> & _).
Defined.

(** X9. [next] in the concatenate mode, before the merge. It does not ask
    the form to validate. With fewer than two files it shows the two-files
    warning and does nothing else, whatever the name. With two files and a
    name that is missing, empty or made of white space only, it shows the
    name warning and does nothing else. Otherwise the first thing it does is
    the merge request for the files, the separator "_" and the key column 0;
    when that request is rejected it shows the merge-failed toast and the
    state is as before. In no case does it change the step. *)
Theorem concat_next_guards `{!Aes, !Json, !Utils} api (validate : FormInstance) s :
  concatenateMode (props s) = true →
  let run := ConcatForm.next api (Some validate) s in
  let formData := ConcatForm.merge_formData (multipleFiles s) in
  ((length (multipleFiles s) < 2)%nat →
     run = (Some (), s, [Message warning "请至少选择两个文件进行合并"]))
  ∧ ((2 ≤ length (multipleFiles s))%nat →
     ConcatForm.name_missing (form s) = Some true →
     run = (Some (), s, [Message warning "请输入数据源名称"]))
  ∧ (∀ n, field "name" (form s) = VStr n →
       ConcatForm.name_missing (form s) = Some (String.eqb (trim n) ""))
  ∧ ((2 ≤ length (multipleFiles s))%nat →
     ConcatForm.name_missing (form s) = Some false →
     ∃ rest, run.2 = Call (concatenateExcels_request formData) :: rest
       ∧ formData = (file_part "files" <$> multipleFiles s)
                    ++ [text_part "separator" "_"; text_part "primary_key_col" "0"]
       ∧ (Api.concatenateExcels api formData = None →
          run = (Some (), s,
                 [Call (concatenateExcels_request formData);
                  Message error "文件合并失败，请检查文件格式和内容";
                  ConsoleError "文件合并错误:"])))
  ∧ step_changes run.2 = [].
Proof.
  intros Hm run formData. subst run formData. split_and!.
  - intros Hfiles. by apply concat_next_few_files.
  - intros Hfiles Hname. by apply concat_next_no_name.
  - intros n Hn. unfold ConcatForm.name_missing. rewrite Hn. simpl.
    destruct (String.eqb_spec n "") as [->|Hne]; [done|]. done.
  - intros Hfiles Hname.
    destruct (Api.concatenateExcels api _) as [response|] eqn:Hres.
    + rewrite (concat_next_merged api validate s response Hm Hfiles Hname Hres).
      eexists. by split_and!.
    + rewrite (concat_next_rejected api validate s Hm Hfiles Hname Hres).
      eexists. by split_and!.
  - destruct (decide (length (multipleFiles s) < 2)%nat) as [Hfiles|Hfiles].
    { by rewrite (concat_next_few_files api validate s Hm Hfiles). }
    assert (Hfiles' : (2 ≤ length (multipleFiles s))%nat) by lia.
    destruct (ConcatForm.name_missing (form s)) as [[]|] eqn:Hname.
    { by rewrite (concat_next_no_name api validate s Hm Hfiles' Hname). }
    2: { by rewrite (concat_next_name_throws api validate s Hm Hfiles' Hname). }
    destruct (Api.concatenateExcels api (ConcatForm.merge_formData (multipleFiles s)))
      as [response|] eqn:Hres.
    2: { by rewrite (concat_next_rejected api validate s Hm Hfiles' Hname Hres). }
    rewrite (concat_next_merged api validate s response Hm Hfiles' Hname Hres).
    cbn [snd]. destruct (validate (merged response s)); [|done].
    unfold concat_saved.
    change (multipleFiles (merged response s)) with (multipleFiles s). rewrite Hres.
    cbv zeta. cbn [snd]. by destruct (Api.add api _).
Qed.

Lemma concat_next_guards_witness :
  concatenateMode (props (concat_state " 　 " two_files)) = true
  ∧ (2 ≤ length (multipleFiles (concat_state " 　 " two_files)))%nat
  ∧ ConcatForm.name_missing (form (concat_state " 　 " two_files)) = Some true
  ∧ @ConcatForm.next marked_aes tree_json backend (Some always_valid)
      (concat_state " 　 " two_files)
    = (Some (), concat_state " 　 " two_files, [Message warning "请输入数据源名称"]).
Proof.
  assert (Hm : concatenateMode (props (concat_state " 　 " two_files)) = true) by done.
  assert (Hf : (2 ≤ length (multipleFiles (concat_state " 　 " two_files)))%nat)
    by (simpl; lia).
  assert (Hn : ConcatForm.name_missing (form (concat_state " 　 " two_files)) = Some true)
    by done.
  split_and!; [done..|].
  apply (proj1 (proj2 (@concat_next_guards marked_aes tree_json plain_utils backend
                         always_valid _ Hm)) Hf Hn).
Defined.



(** X11. The busy flags of [next]. While a fetch is under way [next] on an
    [api] form does nothing at all, and so does [next] on a relational form
    while a check is under way: no request, no event, the state untouched.
    And a run of [next] that starts with both flags down ends with both
    flags down, whatever the backend answered. *)
Theorem next_busy_flags `{!Engine, !Aes, !Json, !Utils} api (validate : FormInstance) s :
  let ty := field "type" (form s) in
  let s' := exec (ApiForm.next api (Some validate)) s in
  (is_string "excel" ty = false → is_string "api" ty = true → uploadLoading s = true →
   ApiForm.next api (Some validate) s = (Some (), s, []))
  ∧ (is_string "excel" ty = false → is_string "api" ty = false → checkLoading s = true →
     ApiForm.next api (Some validate) s = (Some (), s, []))
  ∧ (checkLoading s = false → uploadLoading s = false →
     checkLoading s' = false ∧ uploadLoading s' = false).
Proof.
  intros ty s'. subst ty s'. split_and!.
  - intros Hex Hty Hbusy. destruct (validate s) eqn:Hv.
    + by apply next_api_busy.
    + by apply next_invalid.
  - intros Hex Hty Hbusy. destruct (validate s) eqn:Hv.
    + by apply next_db_busy.
    + by apply next_invalid.
  - intros Hc Hu. unfold exec.
    destruct (validate s) eqn:Hv; [|by rewrite (next_invalid api validate s Hv)].
    destruct (is_string "excel" (field "type" (form s))) eqn:Hex;
      [by rewrite (next_excel api validate s Hv Hex)|].
    destruct (is_string "api" (field "type" (form s))) eqn:Hty.
    + rewrite (next_api_run api validate s Hv Hex Hty Hu).
      by destruct (Api.fetchExcelFromApi api _).
    + pose proof (buildConf_db_result s Hty) as Hobj.
      rewrite (next_db_run api validate s _ Hv Hex Hty Hc Hobj). cbn [fst snd].
      split; [done|]. unfold checked.
      destruct (Api.check api _) as [[]|]; [|done..].
      by destruct (Api.getTablesByConf api _).
Qed.

Lemma next_busy_flags_witness :
  let s := set_checkLoading true mysql_state in
  is_string "excel" (field "type" (form s)) = false
  ∧ is_string "api" (field "type" (form s)) = false
  ∧ checkLoading s = true
  ∧ @ApiForm.next ascii_engine marked_aes tree_json backend (Some always_valid) s = (Some (), s, []).
Proof.
  intros s.
  assert (Hex : is_string "excel" (field "type" (form s)) = false) by done.
  assert (Hty : is_string "api" (field "type" (form s)) = false) by done.
  assert (Hbusy : checkLoading s = true) by done.
  split_and!; [done..|].
  apply (proj1 (proj2 (@next_busy_flags ascii_engine marked_aes tree_json plain_utils backend
                         always_valid s)) Hex Hty Hbusy).
Defined.

(** ** The configuration builder *)

(** X12. The record [buildConf] returns never has the
    [username] and [password] properties of a relational form, nor the
    [headerKey], [headerValue], [cookieKey], [cookieValue], [paramKey] and
    [paramValue] properties of an [api] form: these values go into the
    configuration, which is on the record as a cipher text only, and which
    decrypts and parses to an object that holds them. For [api] the
    certificate list, which is made of the same keys and values, is on the
    record a second time as plain JSON text in [certificate]. *)
Theorem buildConf_secrets `{!Engine, !Aes, !Json, !Utils, !Lossless} :
  (∀ s obj,
     is_string "api" (field "type" (form s)) = false →
     result ApiForm.buildConf s = Some obj →
     obj !! "username" = None ∧ obj !! "password" = None
     ∧ ∃ blob text configuration,
         obj !! "configuration" = Some (VStr blob)
         ∧ blob = encrypted text
         ∧ decrypted blob = Some text
         ∧ JSON_parse text = Some configuration
         ∧ prop "username" configuration = json_reload (field "username" (form s))
         ∧ prop "password" configuration = json_reload (field "password" (form s)))
  ∧ (∀ s obj,
       result ConcatForm.buildConf s = Some obj →
       obj !! "username" = None ∧ obj !! "password" = None
       ∧ ∃ blob text configuration,
           obj !! "configuration" = Some (VStr blob)
           ∧ blob = encrypted text
           ∧ decrypted blob = Some text
           ∧ JSON_parse text = Some configuration
           ∧ prop "username" configuration = json_reload (field "username" (form s))
           ∧ prop "password" configuration = json_reload (field "password" (form s)))
  ∧ (∀ s obj,
       is_string "api" (field "type" (form s)) = true →
       result ApiForm.buildConf s = Some obj →
       (∀ k, k ∈ api_auth_fields → obj !! k = None)
       ∧ (∃ blob text configuration,
            obj !! "configuration" = Some (VStr blob)
            ∧ blob = encrypted text
            ∧ decrypted blob = Some text
            ∧ JSON_parse text = Some configuration
            ∧ prop "certificateList" configuration
              = json_norm (VArr (ApiForm.certificateList_of (form s))))
       ∧ obj !! "certificate"
         = Some (VStr (JSON_stringify (VArr (ApiForm.certificateList_of (form s)))))
       ∧ JSON_parse (JSON_stringify (VArr (ApiForm.certificateList_of (form s))))
         = Some (json_norm (VArr (ApiForm.certificateList_of (form s))))).
Proof.
  split_and!.
  - intros s obj Hty Hobj.
    rewrite (buildConf_db_result s Hty) in Hobj. injection Hobj as <-.
    split_and!; [apply lookup_built_deleted; names .. |].
    eexists _, _, _. split_and!.
    + apply lookup_built_configuration. names.
    + done.
    + apply decrypted_encrypted.
    + apply parse_stringify.
    + apply prop_json_norm. names.
    + apply prop_json_norm. names.
  - intros s obj Hobj.
    rewrite (buildConf_concat_result s) in Hobj. injection Hobj as <-.
    split_and!; [apply lookup_built_deleted; names .. |].
    eexists _, _, _. split_and!.
    + apply lookup_built_configuration. names.
    + done.
    + apply decrypted_encrypted.
    + apply parse_stringify.
    + apply prop_json_norm. names.
    + apply prop_json_norm. names.
  - intros s obj Hty Hobj.
    destruct (ApiForm.successStatusCodes_of (form s)) as [codes|] eqn:Hcodes.
    2: { destruct (buildConf_api_no_result s Hty Hcodes) as [Hr _]. congruence. }
    rewrite (buildConf_api_result s codes Hty Hcodes) in Hobj. injection Hobj as <-.
    split_and!.
    + intros k Hk. apply lookup_built_deleted.
      revert k Hk. change (api_auth_fields ⊆ ApiForm.api_deleted). names.
    + eexists _, _, _. split_and!.
      * rewrite lookup_delete_all, decide_False by names.
        rewrite lookup_json_clone, lookup_insert_ne by done.
        by rewrite lookup_insert_eq.
      * done.
      * apply decrypted_encrypted.
      * apply parse_stringify.
      * unfold ApiForm.api_configuration. rewrite prop_json_norm by names. done.
    + rewrite lookup_delete_all, decide_False by names.
      by rewrite lookup_json_clone, lookup_insert_eq.
    + apply parse_stringify.
Qed.

Lemma buildConf_secrets_witness :
  let built := result (@ApiForm.buildConf ascii_engine marked_aes tree_json) mysql_state in
  is_string "api" (field "type" (form mysql_state)) = false
  ∧ is_Some built
  ∧ built ≫= lookup "password" = None.
Proof.
  intros built.
  assert (Hty : is_string "api" (field "type" (form mysql_state)) = false) by done.
  pose proof (@buildConf_db_result ascii_engine marked_aes tree_json mysql_state Hty) as Hobj.
  split_and!; [done | by eexists |].
  destruct (proj1 (@buildConf_secrets ascii_engine marked_aes tree_json plain_utils marked_lossless)
              mysql_state _ Hty Hobj) as (_ & Hpw & _).
  subst built. rewrite Hobj. exact Hpw.
Defined.

(** X13. Every call of [buildConf] that returns writes
    the form: it stores a new cipher text in [configuration] (and, for an
    [api] form, the plain JSON text of the certificate list in
    [certificate]), leaves every other property and every other ref alone,
    and returns a copy of the form without some properties; a form that had
    no configuration is therefore not the same afterwards. [getSchema], and
    [check] for every type but [api], leave the form as [buildConf] does;
    [check] on an [api] form runs the remote test without [buildConf] and
    leaves the whole state as it was. *)
Theorem buildConf_rewrites_form `{!Engine, !Aes, !Json, !Utils, !Lossless} :
  (∀ s,
     is_string "api" (field "type" (form s)) = false →
     let f' := <["configuration" :=
                  VStr (encrypted (JSON_stringify (ApiForm.db_configuration (form s))))]>
                 (form s) in
     exec ApiForm.buildConf s = set_form f' s
     ∧ result ApiForm.buildConf s = Some (delete_all ApiForm.db_deleted (json_clone f'))
     ∧ (field "configuration" (form s) = VStr "" → f' ≠ form s))
  ∧ (∀ s codes,
       is_string "api" (field "type" (form s)) = true →
       ApiForm.successStatusCodes_of (form s) = Some codes →
       let f' := <["certificate" :=
                    VStr (JSON_stringify (VArr (ApiForm.certificateList_of (form s))))]>
                 (<["configuration" :=
                     VStr (encrypted
                             (JSON_stringify (ApiForm.api_configuration (form s) codes)))]>
                    (form s)) in
       exec ApiForm.buildConf s = set_form f' s
       ∧ result ApiForm.buildConf s = Some (delete_all ApiForm.api_deleted (json_clone f'))
       ∧ (field "configuration" (form s) = VStr "" → f' ≠ form s))
  ∧ (∀ s,
       let f' := <["configuration" :=
                    VStr (encrypted (JSON_stringify (ConcatForm.db_configuration (form s))))]>
                   (form s) in
       exec ConcatForm.buildConf s = set_form f' s
       ∧ result ConcatForm.buildConf s
         = Some (delete_all ConcatForm.db_deleted (json_clone f'))
       ∧ (field "configuration" (form s) = VStr "" → f' ≠ form s))
  ∧ (∀ api s,
       form (exec (ApiForm.getSchema api) s) = form (exec ApiForm.buildConf s)
       ∧ form (exec (ConcatForm.getSchema api) s) = form (exec ConcatForm.buildConf s)
       ∧ form (exec (ConcatForm.check api) s) = form (exec ConcatForm.buildConf s))
  ∧ (∀ api s,
       is_string "api" (field "type" (form s)) = false →
       form (exec (ApiForm.check api) s) = form (exec ApiForm.buildConf s))
  ∧ (∀ api s,
       is_string "api" (field "type" (form s)) = true →
       exec (ApiForm.check api) s = s).
Proof.
  assert (Hne : ∀ f blob (g : gmap string value),
            field "configuration" f = VStr "" →
            g !! "configuration" = Some (VStr (encrypted blob)) → g ≠ f).
  { intros f blob g Hf Hg ->. unfold field in Hf. rewrite Hg in Hf.
    injection Hf as Hf. by apply encrypted_nonempty in Hf. }
  split_and!.
  - intros s Hty f'. unfold exec, result. rewrite (buildConf_db s Hty).
    split_and!; [done..|]. intros Hf. eapply Hne; [done|]. apply lookup_insert_eq.
  - intros s codes Hty Hcodes f'. unfold exec, result.
    rewrite (buildConf_api s codes Hty Hcodes).
    split_and!; [done..|]. intros Hf. eapply Hne; [done|].
    subst f'. rewrite lookup_insert_ne by done. apply lookup_insert_eq.
  - intros s f'. split_and!; [done..|]. intros Hf. eapply Hne; [done|].
    apply lookup_insert_eq.
  - intros api s. split_and!.
    + apply getSchema_form.
    + apply concat_getSchema_form.
    + apply concat_check_form.
  - intros api s Hty. by apply check_form_db.
  - intros api s Hty. by apply check_api.
Qed.

Lemma buildConf_rewrites_form_witness :
  is_string "api" (field "type" (form mysql_state)) = false
  ∧ field "configuration" (form mysql_state) = VStr ""
  ∧ form (exec (@ApiForm.buildConf ascii_engine marked_aes tree_json) mysql_state) ≠ form mysql_state.
Proof.
  assert (Hty : is_string "api" (field "type" (form mysql_state)) = false) by done.
  assert (Hc : field "configuration" (form mysql_state) = VStr "") by done.
  split_and!; [done..|].
  destruct (proj1 (@buildConf_rewrites_form ascii_engine marked_aes tree_json plain_utils marked_lossless)
              mysql_state Hty) as (Hexec & _ & Hne).
  rewrite Hexec. exact (Hne Hc).
Defined.

(** ** Loading a record *)

(** X14. Building a relational form and loading the record back. [initForm]
    on the record [buildConf] returns, without the table list, returns
    normally, opens the dialog in edit mode and restores the ten connection
    properties and [id], [name], [description] and [type] as the JSON copies
    of what the form held when it was built; [timeout] comes back as 30 when
    it was falsy and [originType] as "local" when it was falsy;
    [configuration] is the cipher text [buildConf] stored; every other
    property of the form keeps the value it had before the load. *)
Theorem initForm_restores_relational `{!Engine, !Aes, !Json, !Utils, !Lossless} api s s0 obj :
  is_string "api" (field "type" (form s)) = false →
  result ApiForm.buildConf s = Some obj →
  let s' := exec (ApiForm.initForm api (Some obj) false) s0 in
  result (ApiForm.initForm api (Some obj) false) s0 = Some ()
  ∧ dialogVisible s' = true ∧ isCreate s' = false
  ∧ (∀ k, k ∈ db_keys → field k (form s') = json_reload (field k (form s)))
  ∧ (∀ k, k ∈ ["id"; "name"; "description"; "type"] →
          field k (form s') = json_reload (field k (form s)))
  ∧ field "timeout" (form s')
    = (if truthy (field "timeout" (form s))
       then json_reload (field "timeout" (form s)) else VNum 30)
  ∧ field "originType" (form s')
    = (if truthy (field "originType" (form s))
       then json_reload (field "originType" (form s)) else VStr "local")
  ∧ field "configuration" (form s')
    = field "configuration" (form (exec ApiForm.buildConf s))
  ∧ (∀ k, k ∉ db_keys → k ∉ record_keys → k ≠ "timeout" → k ≠ "originType" →
          field k (form s') = field k (form s0)).
Proof.
  intros Hty Hobj s'.
  rewrite (buildConf_db_result s Hty) in Hobj. injection Hobj as <-.
  rewrite (buildConf_db_form s Hty), field_insert.
  set (blob := encrypted (JSON_stringify (ApiForm.db_configuration (form s)))) in *.
  set (obj := delete_all ApiForm.db_deleted _) in *.
  assert (Hc : field "configuration" obj = VStr blob).
  { apply field_built_configuration. names. }
  assert (Hty' : is_string "api" (field "type" obj) = false).
  { unfold obj. rewrite field_built by (done || names).
    by rewrite is_string_json_reload. }
  assert (Hsync := initForm_sync_db obj blob _ _ s0 Hc (encrypted_nonempty _)
                     (decrypted_encrypted _) (parse_stringify _)
                     ltac:(done) ltac:(done) Hty').
  destruct (initForm_loaded api obj s0 _ _ Hsync) as (Hres & Hform & Hdv & Hic & _).
  subst s'. rewrite Hform, Hdv, Hic, form_opened_state.
  set (c := json_norm (ApiForm.db_configuration (form s))) in *.
  assert (Hprop : ∀ k, prop k c = json_reload (assoc k
            [("host", field "host" (form s)); ("port", field "port" (form s));
             ("username", field "username" (form s));
             ("password", field "password" (form s));
             ("database", field "database" (form s));
             ("extraJdbc", field "extraJdbc" (form s));
             ("dbSchema", field "dbSchema" (form s));
             ("filename", field "filename" (form s));
             ("sheets", field "sheets" (form s)); ("mode", field "mode" (form s));
             ("timeout", field "timeout" (form s));
             ("originType", or_else (field "originType" (form s)) (VStr "local"))])).
  { intros k. apply prop_json_norm. names. }
  split_and!.
  - exact Hres.
  - by destruct s0.
  - by destruct s0.
  - intros k Hk. rewrite field_loaded_db.
    unfold db_keys in Hk.
    repeat (apply elem_of_cons in Hk as [->|Hk]);
      [rewrite !decide_False by done; rewrite decide_True by names;
       rewrite Hprop; reflexivity .. |].
    by apply elem_of_nil in Hk.
  - intros k Hk. rewrite field_loaded_db, field_opened.
    repeat (apply elem_of_cons in Hk as [->|Hk]);
      [rewrite !decide_False by (done || names); rewrite decide_True by names;
       apply field_built; (done || names) .. |].
    by apply elem_of_nil in Hk.
  - rewrite field_loaded_db. rewrite decide_False, decide_True by done.
    unfold timeout_or_30. rewrite Hprop. cbn [assoc String.eqb Ascii.eqb Bool.eqb].
    by rewrite truthy_json_reload.
  - rewrite field_loaded_db. rewrite decide_True by done.
    rewrite Hprop. cbn [assoc String.eqb Ascii.eqb Bool.eqb].
    by apply or_else_json_reload.
  - rewrite field_loaded_db, field_opened.
    rewrite !decide_False by (done || names). rewrite decide_True by names.
    exact Hc.
  - intros k Hdb Hrec Ht Ho. rewrite field_loaded_db, field_opened.
    by rewrite !decide_False by done.
Qed.

Lemma initForm_restores_relational_witness :
  let built := @ApiForm.buildConf ascii_engine marked_aes tree_json in
  let load obj := @ApiForm.initForm ascii_engine marked_aes tree_json backend (Some obj) false in
  is_string "api" (field "type" (form mysql_state)) = false
  ∧ ∃ obj, result built mysql_state = Some obj
      ∧ field "host" (form (exec (load obj) (mounted props0 (ApiForm.form0 "pg"))))
        = VStr "db.internal".
Proof.
  intros built load.
  assert (Hty : is_string "api" (field "type" (form mysql_state)) = false) by done.
  pose proof (@buildConf_db_result ascii_engine marked_aes tree_json mysql_state Hty) as Hobj.
  split; [done|]. eexists. split; [exact Hobj|].
  destruct (@initForm_restores_relational ascii_engine marked_aes tree_json plain_utils marked_lossless
              backend mysql_state (mounted props0 (ApiForm.form0 "pg")) _ Hty Hobj)
    as (_ & _ & _ & Hdb & _).
  unfold load. rewrite (Hdb "host") by names. by vm_compute.
Defined.

(** X15. Building an [api] form and loading the record back. [initForm] on
    the record [buildConf] returns returns normally and logs no parse
    error. The form then has [originType] "api", the endpoint as its JSON
    copy, [method], [requestBody] and [timeout] as their JSON copies or, when
    they were falsy, "POST", the empty string and 30; [successStatusCodes] is
    the comma-joined list of the integers that were parsed out of it, with
    nothing between the commas where a piece was not a number. A credential
    pair comes back only when its key and its value were both filled in;
    otherwise both fields keep what the form held before the load. *)
Theorem initForm_restores_api `{!Engine, !Aes, !Json, !Utils, !Lossless} api s s0 obj codes :
  is_string "api" (field "type" (form s)) = true →
  ApiForm.successStatusCodes_of (form s) = Some codes →
  result ApiForm.buildConf s = Some obj →
  let s' := exec (ApiForm.initForm api (Some obj) false) s0 in
  result (ApiForm.initForm api (Some obj) false) s0 = Some ()
  ∧ trace (ApiForm.initForm api (Some obj) false) s0 = [ClearValidate]
  ∧ dialogVisible s' = true ∧ isCreate s' = false
  ∧ field "originType" (form s') = VStr "api"
  ∧ field "endpoint" (form s') = json_reload (field "endpoint" (form s))
  ∧ field "method" (form s')
    = (if truthy (field "method" (form s))
       then json_reload (field "method" (form s)) else VStr "POST")
  ∧ field "requestBody" (form s')
    = (if truthy (field "requestBody" (form s))
       then json_reload (field "requestBody" (form s)) else VStr "")
  ∧ field "timeout" (form s')
    = (if truthy (field "timeout" (form s))
       then json_reload (field "timeout" (form s)) else VNum 30)
  ∧ field "successStatusCodes" (form s') = VStr (join "," (map json_norm codes))
  ∧ field "certificateList" (form s')
    = VArr (map json_norm (ApiForm.certificateList_of (form s)))
  ∧ (∀ kf vf, (kf, vf) ∈ credential_pairs →
       if truthy (field kf (form s)) && truthy (field vf (form s))
       then field kf (form s') = json_reload (field kf (form s))
            ∧ field vf (form s') = json_reload (field vf (form s))
       else field kf (form s') = field kf (form s0)
            ∧ field vf (form s') = field vf (form s0)).
Proof.
  intros Hty Hcodes Hobj s'.
  rewrite (buildConf_api_result s codes Hty Hcodes) in Hobj. injection Hobj as <-.
  set (blob := encrypted (JSON_stringify (ApiForm.api_configuration (form s) codes))) in *.
  set (certificate := JSON_stringify (VArr (ApiForm.certificateList_of (form s)))) in *.
  set (obj := delete_all ApiForm.api_deleted _) in *.
  assert (Hc : field "configuration" obj = VStr blob).
  { unfold obj. rewrite field_delete_all, decide_False by names.
    by rewrite field_json_clone, field_insert_ne, field_insert. }
  assert (Hcert : field "certificate" obj = VStr certificate).
  { unfold obj. rewrite field_delete_all, decide_False by names.
    by rewrite field_json_clone, field_insert. }
  assert (Hty' : is_string "api" (field "type" obj) = true).
  { unfold obj. rewrite field_delete_all, decide_False by names.
    rewrite field_json_clone, !field_insert_ne by done.
    by rewrite is_string_json_reload. }
  assert (Hsync := initForm_sync_api obj blob _ _ certificate
                     (map json_norm (ApiForm.certificateList_of (form s)))
                     s0 Hc (encrypted_nonempty _)
                     (decrypted_encrypted _) (parse_stringify _)
                     ltac:(done) ltac:(done) Hty' Hcert (stringify_nonempty _)
                     (parse_stringify _) (certificateList_readable _)).
  destruct (initForm_loaded api obj s0 _ _ Hsync) as (Hres & Hform & Hdv & Hic & Htr).
  subst s'. rewrite Hform, Hdv, Hic, form_opened_state.
  set (c := json_norm (ApiForm.api_configuration (form s) codes)) in *.
  destruct (field_certified (form s) (loaded_api c (opened obj (form s0))))
    as [Hpairs Hrest].
  assert (Hprop : ∀ k, prop k c = json_reload (assoc k
            [("endpoint", field "endpoint" (form s));
             ("method", or_else (field "method" (form s)) (VStr "POST"));
             ("requestBody", or_else (field "requestBody" (form s)) (VStr ""));
             ("successStatusCodes", VArr codes);
             ("certificateList", VArr (ApiForm.certificateList_of (form s)));
             ("timeout", or_else (field "timeout" (form s)) (VNum 30));
             ("originType", VStr "api")])).
  { intros k. apply prop_json_norm. names. }
  split_and!.
  - exact Hres.
  - exact Htr.
  - by destruct s0.
  - by destruct s0.
  - rewrite Hrest by names. unfold loaded_api.
    by rewrite !field_insert_ne, field_insert by done.
  - rewrite Hrest by names. unfold loaded_api.
    rewrite !field_insert_ne, field_insert by done. by rewrite Hprop.
  - rewrite Hrest by names. unfold loaded_api.
    rewrite !field_insert_ne, field_insert by done. rewrite Hprop.
    cbn [assoc String.eqb Ascii.eqb Bool.eqb]. by apply or_else_json_reload.
  - rewrite Hrest by names. unfold loaded_api.
    rewrite !field_insert_ne, field_insert by done. rewrite Hprop.
    cbn [assoc String.eqb Ascii.eqb Bool.eqb]. by apply or_else_json_reload.
  - rewrite Hrest by names. unfold loaded_api.
    rewrite !field_insert_ne, field_insert by done.
    unfold timeout_or_30. rewrite Hprop. cbn [assoc String.eqb Ascii.eqb Bool.eqb].
    rewrite truthy_json_reload. unfold or_else.
    destruct (truthy (field "timeout" (form s))) eqn:Ht; [by rewrite Ht | done].
  - rewrite Hrest by names. unfold loaded_api.
    rewrite !field_insert_ne, field_insert by done. by rewrite Hprop.
  - rewrite Hrest by names. unfold loaded_api.
    rewrite field_insert. by rewrite Hprop.
  - intros kf vf Hin. specialize (Hpairs kf vf Hin).
    destruct (truthy (field kf (form s)) && truthy (field vf (form s))); [done|].
    assert (Hframe : ∀ k, k ∈ api_auth_fields →
              field k (loaded_api c (opened obj (form s0))) = field k (form s0)).
    { intros k Hk. rewrite field_loaded_api, field_opened.
      - rewrite decide_False; [done|]. intros Hrec. revert Hk.
        unfold record_keys in Hrec.
        repeat (apply elem_of_cons in Hrec as [->|Hrec]);
          [names .. | by apply elem_of_nil in Hrec].
      - intros Hl. revert Hk.
        repeat (apply elem_of_cons in Hl as [->|Hl]);
          [names .. | by apply elem_of_nil in Hl]. }
    destruct Hpairs as [-> ->].
    unfold credential_pairs in Hin.
    repeat (apply elem_of_cons in Hin as [[= -> ->]|Hin]);
      [split; apply Hframe; names .. | by apply elem_of_nil in Hin].
Qed.

Lemma initForm_restores_api_witness :
  let built := @ApiForm.buildConf ascii_engine marked_aes tree_json in
  let load obj := @ApiForm.initForm ascii_engine marked_aes tree_json backend (Some obj) false in
  is_string "api" (field "type" (form api_state)) = true
  ∧ @ApiForm.successStatusCodes_of ascii_engine (form api_state) = Some [VNum 200; VNum 201]
  ∧ ∃ obj, result built api_state = Some obj
      ∧ field "successStatusCodes"
          (form (exec (load obj) (mounted props0 (ApiForm.form0 "api"))))
        = VStr "200,201".
Proof.
  intros built load.
  assert (Hty : is_string "api" (field "type" (form api_state)) = true) by done.
  assert (Hcodes : @ApiForm.successStatusCodes_of ascii_engine (form api_state) = Some [VNum 200; VNum 201])
    by done.
  pose proof (@buildConf_api_result ascii_engine marked_aes tree_json api_state _ Hty Hcodes) as Hobj.
  split_and!; [done | done |]. eexists. split; [exact Hobj|].
  destruct (@initForm_restores_api ascii_engine marked_aes tree_json plain_utils marked_lossless
              backend api_state (mounted props0 (ApiForm.form0 "api")) _ _ Hty Hcodes Hobj)
    as (_ & _ & _ & _ & _ & _ & _ & _ & _ & Hst & _).
  unfold load. rewrite Hst. by vm_compute.
Defined.

(** X16. A record whose configuration cannot be read. When the
    configuration of the record is a non-empty text that does not decrypt,
    or decrypts to a text that does not parse, or parses to [null],
    [initForm] throws: the dialog is not opened and no request is sent, with
    or without [editTable]. By then the form has already taken [id], [name],
    [description], [type] and [configuration] from the record, the component
    has left the create mode and the keyword is empty; every other property
    of the form but [originType] is as it was. *)
Theorem initForm_unreadable_configuration `{!Engine, !Aes, !Json, !Utils}
    api item editTable blob s0 :
  field "configuration" item = VStr blob → blob ≠ "" →
  decrypted blob = None
  ∨ (∃ text, decrypted blob = Some text
       ∧ (JSON_parse text = None ∨ JSON_parse text = Some VNull)) →
  let s' := exec (ApiForm.initForm api (Some item) editTable) s0 in
  result (ApiForm.initForm api (Some item) editTable) s0 = None
  ∧ trace (ApiForm.initForm api (Some item) editTable) s0 = [ClearValidate]
  ∧ dialogVisible s' = dialogVisible s0
  ∧ isCreate s' = false ∧ isEditTable s' = false ∧ keywords s' = ""
  ∧ (∀ k, k ∈ record_keys → field k (form s') = field k item)
  ∧ (∀ k, k ∉ record_keys → k ≠ "originType" → field k (form s') = field k (form s0)).
Proof.
  intros Hc Hne Hbad s'.
  destruct (load_unreadable item blob
              (set_form (opened item (form s0))
                 (set_isCreate false (set_keywords "" (set_isEditTable false s0)))) Hbad)
    as (f & Hload & Hf).
  assert (Hsync : ApiForm.initForm_sync (Some item) editTable s0
                  = (None,
                     set_form f (set_isCreate false
                                   (set_keywords "" (set_isEditTable false s0))),
                     [ClearValidate])).
  { unfold ApiForm.initForm_sync. do 3 mstep.
    erewrite run_bind_throw; [reflexivity|].
    do 6 mstep. rewrite Hc. cbn [truthy].
    assert (Hb : negb (String.eqb blob "") = true).
    { apply negb_true_iff. by apply String.eqb_neq. }
    rewrite Hb. unfold when. cbv beta iota.
    erewrite run_bind_throw; cycle 1.
    { rewrite <- Hc.
      match goal with |- _ ?st = _ =>
        replace st with (set_form (opened item (form s0))
                           (set_isCreate false (set_keywords ""
                              (set_isEditTable false s0))))
          by by destruct s0 end.
      rewrite Hc. exact Hload. }
    by destruct s0. }
  assert (Hrun : ApiForm.initForm api (Some item) editTable s0
                 = (None,
                    (if negb (String.eqb (keywords s0) "")
                     then exec watch_keywords
                            (set_form f (set_isCreate false
                               (set_keywords "" (set_isEditTable false s0))))
                     else set_form f (set_isCreate false
                               (set_keywords "" (set_isEditTable false s0)))),
                    [ClearValidate])).
  { unfold ApiForm.initForm. mstep.
    apply run_bind_throw. by apply initForm_watched. }
  subst s'. unfold result, trace, exec. rewrite Hrun. cbn [fst snd].
  assert (Hfields : ∀ k, field k f
            = if decide (k = "originType") then field k f
              else if decide (k ∈ record_keys) then field k item else field k (form s0)).
  { intros k. destruct (decide (k = "originType")) as [->|Hk]; [done|].
    rewrite Hf by done. destruct s0. apply field_opened. }
  destruct (negb (String.eqb (keywords s0) "")).
  - split_and!; try (by destruct s0).
    + intros k Hk. change (field k f = field k item).
      rewrite Hfields, decide_False, decide_True; [done | done |].
      intros ->. revert Hk. names.
    + intros k Hk Ho. change (field k f = field k (form s0)).
      by rewrite Hfields, !decide_False.
  - split_and!; try (by destruct s0).
    + intros k Hk. change (field k f = field k item).
      rewrite Hfields, decide_False, decide_True; [done | done |].
      intros ->. revert Hk. names.
    + intros k Hk Ho. change (field k f = field k (form s0)).
      by rewrite Hfields, !decide_False.
Qed.

Lemma initForm_unreadable_configuration_witness :
  let item := <["configuration" := VStr "tampered"]> mysql_form in
  field "configuration" item = VStr "tampered"
  ∧ @decrypted marked_aes "tampered" = None
  ∧ result (@ApiForm.initForm ascii_engine marked_aes tree_json backend (Some item) true)
      (mounted props0 (ApiForm.form0 "mysql")) = None.
Proof.
  intros item.
  assert (Hc : field "configuration" item = VStr "tampered") by done.
  assert (Hd : @decrypted marked_aes "tampered" = None) by done.
  split_and!; [done | done |].
  apply (@initForm_unreadable_configuration ascii_engine marked_aes tree_json plain_utils
           backend item true "tampered" (mounted props0 (ApiForm.form0 "mysql")) Hc);
    [done | by left].
Defined.

(** X17. [initForm] without a record, in both revisions. It returns
    normally, puts the blank form in place, enters the create mode, empties
    the keyword, the checkbox group and the table list and opens the dialog.
    It does not touch the selection [checkTableList], which survives from
    whatever was edited before. When the keyword was not empty its watcher
    runs on the emptied table list, so that the select-all box ends up
    checked and not indeterminate; otherwise both keep their values. *)
Theorem initForm_blank `{!Engine, !Aes, !Json, !Utils} api editTable s0 :
  let fresh blank s' :=
    form s' = blank ∧ isCreate s' = true ∧ isEditTable s' = false
    ∧ dialogVisible s' = true ∧ keywords s' = ""
    ∧ checkList s' = [] ∧ tableList s' = []
    ∧ checkTableList s' = checkTableList s0
    ∧ checkAll s' = (if String.eqb (keywords s0) "" then checkAll s0 else true)
    ∧ isIndeterminate s'
      = (if String.eqb (keywords s0) "" then isIndeterminate s0 else false) in
  (result (ApiForm.initForm api None editTable) s0 = Some ()
   ∧ trace (ApiForm.initForm api None editTable) s0 = [ClearValidate]
   ∧ fresh ApiForm.blank_form (exec (ApiForm.initForm api None editTable) s0))
  ∧ (result (ConcatForm.initForm api None editTable) s0 = Some ()
     ∧ trace (ConcatForm.initForm api None editTable) s0 = [ClearValidate]
     ∧ fresh ConcatForm.blank_form (exec (ConcatForm.initForm api None editTable) s0)).
Proof.
  intros fresh.
  assert (Hfresh : ∀ blank,
            fresh blank (if negb (String.eqb (keywords s0) "")
                         then exec watch_keywords (reset_state blank s0)
                         else reset_state blank s0)).
  { intros blank. unfold fresh. destruct (String.eqb (keywords s0) ""); cbn [negb].
    - split_and!; by destruct s0.
    - destruct (watch_keywords_no_tables (reset_state blank s0)) as (Hcl & Hca & Hi).
      { by destruct s0. }
      split_and!; [by destruct s0 .. | exact Hcl | by destruct s0 | by destruct s0
                  | exact Hca | exact Hi]. }
  split.
  - assert (Hsync : ApiForm.initForm_sync None editTable s0
                    = (Some (), reset_state ApiForm.blank_form s0, [ClearValidate]))
      by by destruct s0.
    assert (Hrun : ApiForm.initForm api None editTable s0
                   = (Some (),
                      (if negb (String.eqb (keywords s0) "")
                       then exec watch_keywords (reset_state ApiForm.blank_form s0)
                       else reset_state ApiForm.blank_form s0),
                      [ClearValidate])).
    { unfold ApiForm.initForm. mstep.
      erewrite run_bind by by apply initForm_watched. reflexivity. }
    unfold result, trace, exec. rewrite Hrun. cbn [fst snd].
    split_and!; [done | done | apply Hfresh].
  - assert (Hsync : ConcatForm.initForm_sync None editTable s0
                    = (Some (), reset_state ConcatForm.blank_form s0, [ClearValidate]))
      by by destruct s0.
    assert (Hrun : ConcatForm.initForm api None editTable s0
                   = (Some (),
                      (if negb (String.eqb (keywords s0) "")
                       then exec watch_keywords (reset_state ConcatForm.blank_form s0)
                       else reset_state ConcatForm.blank_form s0),
                      [ClearValidate])).
    { unfold ConcatForm.initForm. mstep.
      erewrite run_bind by by apply concat_initForm_watched. reflexivity. }
    unfold result, trace, exec. rewrite Hrun. cbn [fst snd].
    split_and!; [done | done | apply Hfresh].
Qed.

(** X18. Opening a source to choose its tables: what the callbacks of the
    table-list request do for a source that is not an Excel file. The
    handler itself never throws. When [buildConf] returns, the tables are
    requested with the record it built and the loading flag is down at the
    end, whether that request succeeds or not; if it succeeds the table list
    is the answer and the checkbox group is cut down to the stored names
    that are still tables of the source, and if it fails the group holds the
    stored names as they came. When [buildConf] throws nothing is requested
    and the loading flag stays up. *)
Theorem edit_table_reconciles `{!Engine, !Aes, !Json, !Utils} api item res s :
  is_string "excel" (field "type" item) = false →
  Api.tableList api (field "id" item) = Some res →
  let s' := exec (ApiForm.initForm_tableList api item) s in
  result (ApiForm.initForm_tableList api item) s = Some ()
  ∧ match result ApiForm.buildConf s with
    | None =>
        trace (ApiForm.initForm_tableList api item) s = []
        ∧ tableListLoading s' = true ∧ checkList s' = res
        ∧ tableList s' = tableList s
    | Some obj =>
        trace (ApiForm.initForm_tableList api item) s
        = [Call (getTablesByConf_request obj)]
        ∧ tableListLoading s' = false
        ∧ match Api.getTablesByConf api obj with
          | Some table =>
              tableList s' = table
              ∧ checkList s' = filter (λ ele, ele ∈ tableName <$> table) res
              ∧ (∀ ele, ele ∈ checkList s' → ele ∈ tableName <$> tableList s')
          | None => tableList s' = tableList s ∧ checkList s' = res
          end
    end.
Proof.
  intros Hty Hres s'.
  set (s1 := set_tableListLoading true (set_checkList res s)).
  pose proof (buildConf_exec s1) as Hrun.
  destruct (buildConf_form_only s s1 eq_refl) as [Hsame _].
  rewrite <- Hsame in Hrun.
  set (s2 := set_form (form (exec ApiForm.buildConf s1)) s1) in *.
  destruct (result ApiForm.buildConf s) as [obj|].
  all: subst s'; unfold result, exec, trace, ApiForm.initForm_tableList; rewrite Hres.
  - destruct (Api.getTablesByConf api obj) as [table|] eqn:Htab.
    + erewrite run_settle_resolved; cycle 1.
      { mstep. rewrite Hty. mstep.
        erewrite run_bind by exact Hrun. cbv beta iota. mstep. rewrite Htab.
        erewrite run_settle_resolved; cycle 1.
        { reflexivity. }
        { reflexivity. }
        cbn [fst snd app]. reflexivity. }
      { reflexivity. }
      cbn [fst snd app]. split_and!; try done.
      intros ele Hele.
      change (ele ∈ filter (λ ele, ele ∈ tableName <$> table) res) in Hele.
      change (ele ∈ tableName <$> table).
      by apply list_elem_of_filter in Hele as [? _].
    + erewrite run_settle_resolved; cycle 1.
      { mstep. rewrite Hty. mstep.
        erewrite run_bind by exact Hrun. cbv beta iota. mstep. rewrite Htab.
        erewrite run_settle_rejected by reflexivity.
        cbn [fst snd app]. reflexivity. }
      { reflexivity. }
      cbn [fst snd app]. by split_and!.
  - erewrite run_settle_thrown; cycle 1.
    { mstep. rewrite Hty. mstep. by apply run_bind_throw. }
    { reflexivity. }
    cbn [fst snd app]. by split_and!.
Qed.

Lemma edit_table_reconciles_witness :
  let item := <["id" := VNum 7]> mysql_form in
  is_string "excel" (field "type" item) = false
  ∧ Api.tableList backend (field "id" item) = Some ["orders"]
  ∧ result (@ApiForm.initForm_tableList ascii_engine marked_aes tree_json backend item) mysql_state
    = Some ().
Proof.
  intros item.
  assert (Hty : is_string "excel" (field "type" item) = false) by done.
  assert (Hres : Api.tableList backend (field "id" item) = Some ["orders"]) by done.
  split_and!; [done | done |].
  exact (proj1 (@edit_table_reconciles ascii_engine marked_aes tree_json plain_utils backend item
                  ["orders"] mysql_state Hty Hres)).
Defined.

(** ** The drawer and the form *)

(** X19. What the form of the revision with the concatenate mode can emit.
    Whatever the state and the answers of the backend: the cancel button
    emits only the change to step 0 and [close]; the back button only the
    change to the step before; [next] only the change to the step after
    and, in the concatenate mode, no change of step at all but only
    [refresh]; [save] only [refresh] in the concatenate mode and otherwise
    the change to step 0, [close] and [refresh]; [initForm] only the change
    to step 2. *)
Theorem form_events `{!Engine, !Aes, !Json, !Utils} api s ev :
  (∀ b, Emit ev ∈ trace (press api b) s → button_event (props s) b ev)
  ∧ (∀ item editTable,
       Emit ev ∈ trace (ConcatForm.initForm api item editTable) s →
       ev = changeActiveStep 2).
Proof.
  split.
  - intros b Hin.
    destruct (confined_press api b (props s) s eq_refl) as [_ Htr].
    rewrite Forall_forall in Htr. by apply (Htr _ Hin).
  - intros item editTable Hin.
    destruct (confined_initForm api item editTable (props s) s eq_refl) as [_ Htr].
    rewrite Forall_forall in Htr. by apply (Htr _ Hin).
Qed.

Lemma form_events_witness :
  Emit close_event ∈ trace (@press ascii_engine marked_aes tree_json plain_utils backend cancel_button)
                       mysql_state
  ∧ button_event (props mysql_state) cancel_button close_event.
Proof.
  assert (Hin : Emit close_event
                ∈ trace (@press ascii_engine marked_aes tree_json plain_utils backend cancel_button)
                    mysql_state).
  { change (Emit close_event ∈ [Emit (changeActiveStep 0); Emit close_event]).
    apply elem_of_cons. right. apply elem_of_cons. by left. }
  split; [exact Hin|].
  exact (proj1 (@form_events ascii_engine marked_aes tree_json plain_utils backend mysql_state
                  close_event) cancel_button Hin).
Defined.

(** X20. The step of the drawer stays between 0 and 2. In every state the
    drawer can reach by its own handlers and by the events of the form it
    renders, where a button of the form counts only while it is shown,
    [activeStep] is 0, 1 or 2. *)
Theorem drawer_step_in_range `{!Engine, !Aes, !Json, !Utils} api d :
  reachable api d → 0 ≤ Drawer.activeStep d ≤ 2.
Proof.
  induction 1 as [|d res _ IH|d _ IH|d _ IH|d name type _ IH _|d _ IH _
                 |d s b _ IH Hshown Hprops Hb|d s item editTable _ IH Hshown Hprops];
    try (cbn; lia).
  - apply (on_trace_preserves (λ d, 0 ≤ Drawer.activeStep d ≤ 2)); [done|].
    destruct (confined_press api b (props s) s eq_refl) as [_ Htr].
    eapply Forall_impl; [exact Htr|].
    intros e He ev -> d' Hd'. specialize (He ev eq_refl).
    rewrite Hprops in He.
    destruct b as [| |dsFormRef|dsFormRef confirmed]; cbn in He.
    + destruct He as [-> | ->]; cbn; lia.
    + subst ev. apply changeActiveStep_bounds.
      cbn in Hb. rewrite Hprops in Hb. cbn in Hb.
      apply andb_true_iff in Hb as [Hb _]. apply negb_true_iff, Z.eqb_neq in Hb. lia.
    + destruct (Drawer.concatenateMode d); subst ev; [cbn; lia|].
      apply changeActiveStep_bounds. lia.
    + destruct (Drawer.concatenateMode d); [subst ev; cbn; lia|].
      destruct He as [-> | [-> | ->]]; cbn; lia.
  - apply (on_trace_preserves (λ d, 0 ≤ Drawer.activeStep d ≤ 2)); [done|].
    destruct (confined_initForm api item editTable (props s) s eq_refl) as [_ Htr].
    eapply Forall_impl; [exact Htr|].
    intros e He ev -> d' Hd'. rewrite (He ev eq_refl). cbn. lia.
Qed.

Lemma drawer_step_in_range_witness :
  let d := (Drawer.handleConcatenateDatasource Drawer.initial).1 in
  @reachable ascii_engine marked_aes tree_json plain_utils backend d
  ∧ 0 ≤ Drawer.activeStep d ≤ 2.
Proof.
  intros d.
  assert (Hd : @reachable ascii_engine marked_aes tree_json plain_utils backend d).
  { apply reach_concatenate, reach_initial. }
  split; [exact Hd|].
  exact (@drawer_step_in_range ascii_engine marked_aes tree_json plain_utils backend d Hd).
Defined.

(** X21. The concatenate mode outlives a save. While the drawer is in the
    concatenate mode, no event of [next] or of [save] takes it out of that
    mode, whatever the backend answers: the only event they emit is
    [refresh], and the listener of [refresh] does not reset the mode. If the
    drawer is then asked to edit a source, the form is in the concatenate
    mode and in edit mode at once. The cancel button does leave the mode,
    and so does the handler that opens the drawer for a new source. *)
Theorem concatenate_mode_outlives_save `{!Engine, !Aes, !Json, !Utils}
    api d s dsFormRef confirmed :
  props s = props_of d →
  Drawer.concatenateMode d = true →
  let after b := (on_trace (trace (press api b) s) d).1 in
  Drawer.concatenateMode (after (next_button dsFormRef)) = true
  ∧ Drawer.concatenateMode (after (save_button dsFormRef confirmed)) = true
  ∧ (∀ b res,
       b = next_button dsFormRef ∨ b = save_button dsFormRef confirmed →
       let d' := (Drawer.handleEditDatasource res (after b)).1 in
       Drawer.editDatasource d' = true
       ∧ concatenateMode (props_of d') = true
       ∧ Drawer.form_shown d' = true)
  ∧ Drawer.concatenateMode (after cancel_button) = false
  ∧ (∀ b, Drawer.concatenateMode (Drawer.handleAddDatasource (after b)).1 = false).
Proof.
  intros Hprops Hmode after.
  assert (Hkeep : ∀ b, b = next_button dsFormRef ∨ b = save_button dsFormRef confirmed →
            Drawer.concatenateMode (after b) = true).
  { intros b Hb. unfold after.
    apply (on_trace_preserves (λ d, Drawer.concatenateMode d = true)); [done|].
    destruct (confined_press api b (props s) s eq_refl) as [_ Htr].
    eapply Forall_impl; [exact Htr|].
    intros e He ev -> d' Hd'. specialize (He ev eq_refl).
    rewrite Hprops in He.
    destruct Hb as [-> | ->]; cbn in He; rewrite Hmode in He; by subst ev. }
  split_and!.
  - apply Hkeep. by left.
  - apply Hkeep. by right.
  - intros b res Hb d'. subst d'.
    cbn [Drawer.handleEditDatasource fst props_of concatenateMode Drawer.concatenateMode
         Drawer.editDatasource Drawer.form_shown].
    by rewrite (Hkeep b Hb).
  - unfold after. change (trace (press api cancel_button) s)
      with [Emit (changeActiveStep 0); Emit close_event].
    reflexivity.
  - done.
Qed.

Lemma concatenate_mode_outlives_save_witness :
  let d := (Drawer.handleConcatenateDatasource Drawer.initial).1 in
  let s := concat_state "2024" two_files in
  let d' := (on_trace (trace (@press ascii_engine marked_aes tree_json plain_utils backend
                                (next_button (Some always_valid))) s) d).1 in
  props s = props_of d
  ∧ Drawer.concatenateMode d = true
  ∧ Drawer.concatenateMode d' = true
  ∧ Drawer.datasourceConfigVisible d' = false.
Proof.
  intros d s d'.
  assert (Hprops : props s = props_of d) by reflexivity.
  assert (Hmode : Drawer.concatenateMode d = true) by reflexivity.
  split_and!; [done | done | |].
  - exact (proj1 (@concatenate_mode_outlives_save ascii_engine marked_aes tree_json plain_utils
                    backend d s (Some always_valid) false Hprops Hmode)).
  - by vm_compute.
Defined.

(** ** Checking the connection *)

(** X22. What [check] reports. It never throws and sends exactly one
    request. For an [api] form it leaves every ref alone, sends the
    endpoint and the credential fields as they are in the form, and shows
    one toast: the number of sheets on success, an error (with a console
    error first) when the request is rejected. For any other form it sends
    the record [buildConf] makes, writes nothing but the form's
    [configuration], and shows the success toast for a true answer and the
    failure toast for a false one; a rejected request shows nothing. *)
Theorem check_reports `{!Engine, !Aes, !Json, !Utils} api s :
  result (ApiForm.check api) s = Some ()
  ∧ (is_string "api" (field "type" (form s)) = true →
       exec (ApiForm.check api) s = s
       ∧ (∀ k, k ∈ "endpoint" :: api_auth_fields →
               prop k (ApiForm.apiReq (form s)) = field k (form s))
       ∧ trace (ApiForm.check api) s
         = Call (testApiExcel_request (ApiForm.apiReq (form s)))
           :: match Api.testApiExcel api (ApiForm.apiReq (form s)) with
              | Some sheet_names =>
                  [Message success
                     ("API联通正常，检测到" +:+ pretty (length sheet_names) +:+ "个Sheet")]
              | None =>
                  [ConsoleError "Test API Excel failed:";
                   Message error "API联通或文件类型校验失败"]
              end)
  ∧ (is_string "api" (field "type" (form s)) = false →
       ∃ obj,
         result ApiForm.buildConf s = Some obj
         ∧ exec (ApiForm.check api) s = exec ApiForm.buildConf s
         ∧ (∀ k, k ≠ "configuration" →
                 field k (form (exec (ApiForm.check api) s)) = field k (form s))
         ∧ trace (ApiForm.check api) s
           = Call (check_request obj)
             :: match Api.check api obj with
                | Some true => [Message success (t "ds.form.connect.success")]
                | Some false => [Message error (t "ds.form.connect.failed")]
                | None => []
                end).
Proof.
  destruct (is_string "api" (field "type" (form s))) eqn:Hty.
  - assert (Hrun : ApiForm.check api s
                   = (Some (), s,
                      Call (testApiExcel_request (ApiForm.apiReq (form s)))
                      :: match Api.testApiExcel api (ApiForm.apiReq (form s)) with
                         | Some sheet_names =>
                             [Message success
                                ("API联通正常，检测到" +:+ pretty (length sheet_names)
                                 +:+ "个Sheet")]
                         | None =>
                             [ConsoleError "Test API Excel failed:";
                              Message error "API联通或文件类型校验失败"]
                         end)).
    { unfold ApiForm.check. mstep. rewrite Hty.
      destruct (Api.testApiExcel api (ApiForm.apiReq (form s))) as [names|].
      - erewrite run_bind by reflexivity. cbv beta iota.
        erewrite run_settle_resolved by reflexivity. reflexivity.
      - erewrite run_bind by reflexivity. cbv beta iota.
        erewrite run_settle_caught by reflexivity. reflexivity. }
    unfold result, exec, trace. rewrite Hrun. split_and!; [done | | done].
    intros _. split_and!; [done | | done].
    intros k Hk. unfold api_auth_fields in Hk.
    repeat (apply elem_of_cons in Hk as [->|Hk]); [reflexivity .. |].
    by apply elem_of_nil in Hk.
  - pose proof (buildConf_db s Hty) as Hb. cbv zeta in Hb.
    set (f' := <["configuration" := _]> (form s)) in Hb.
    set (obj := delete_all ApiForm.db_deleted (json_clone f')) in Hb.
    assert (Hrun : ApiForm.check api s
                   = (Some (), set_form f' s,
                      Call (check_request obj)
                      :: match Api.check api obj with
                         | Some true => [Message success (t "ds.form.connect.success")]
                         | Some false => [Message error (t "ds.form.connect.failed")]
                         | None => []
                         end)).
    { unfold ApiForm.check. mstep. rewrite Hty.
      erewrite run_bind by exact Hb. cbv beta iota.
      destruct (Api.check api obj) as [[]|].
      - erewrite run_bind by reflexivity. cbv beta iota.
        erewrite run_settle_resolved by reflexivity. reflexivity.
      - erewrite run_bind by reflexivity. cbv beta iota.
        erewrite run_settle_resolved by reflexivity. reflexivity.
      - erewrite run_bind by reflexivity. cbv beta iota.
        erewrite run_settle_rejected by reflexivity. reflexivity. }
    unfold result, exec, trace. rewrite Hrun, Hb. split_and!; [done | done |].
    intros _. exists obj. split_and!; [done | done | | done].
    intros k Hk. subst f'. cbn [fst snd form set_form]. by rewrite field_insert_ne.
Qed.

Lemma check_reports_witness :
  is_string "api" (field "type" (form api_state)) = true
  ∧ exec (@ApiForm.check ascii_engine marked_aes tree_json backend) api_state = api_state.
Proof.
  assert (Hty : is_string "api" (field "type" (form api_state)) = true) by done.
  split; [done|].
  destruct (@check_reports ascii_engine marked_aes tree_json plain_utils backend api_state)
    as (_ & Hapi & _).
  exact (proj1 (Hapi Hty)).
Defined.

(** X23. [getSchema] replaces the list of schemas, in both revisions. It
    empties the list first, so that afterwards the list is exactly the
    answer of the backend, and empty when the request is rejected: nothing
    of an earlier answer is left. It sends one request with the record
    [buildConf] makes. *)
Theorem getSchema_replaces `{!Engine, !Aes, !Json, !Utils} api s :
  (is_string "api" (field "type" (form s)) = false →
     ∃ obj,
       result ApiForm.buildConf s = Some obj
       ∧ result (ApiForm.getSchema api) s = Some ()
       ∧ trace (ApiForm.getSchema api) s = [Call (getSchema_request obj)]
       ∧ schemaList (exec (ApiForm.getSchema api) s)
         = default [] (Api.getSchema api obj))
  ∧ (∃ obj,
       result ConcatForm.buildConf s = Some obj
       ∧ result (ConcatForm.getSchema api) s = Some ()
       ∧ trace (ConcatForm.getSchema api) s = [Call (getSchema_request obj)]
       ∧ schemaList (exec (ConcatForm.getSchema api) s)
         = default [] (Api.getSchema api obj)).
Proof.
  split.
  - intros Hty.
    pose proof (buildConf_db (set_schemaList [] s) Hty) as Hb. cbv zeta in Hb.
    pose proof (buildConf_db_result s Hty) as Hobj.
    change (form (set_schemaList [] s)) with (form s) in Hb.
    set (f' := <["configuration" := _]> (form s)) in *.
    set (obj := delete_all ApiForm.db_deleted (json_clone f')) in *.
    exists obj. split; [done|].
    assert (Hrun : ApiForm.getSchema api s
                   = (Some (),
                      set_schemaList (default [] (Api.getSchema api obj))
                        (set_form f' (set_schemaList [] s)),
                      [Call (getSchema_request obj)])).
    { unfold ApiForm.getSchema. mstep.
      erewrite run_bind by exact Hb. cbv beta iota.
      destruct (Api.getSchema api obj) as [res|].
      - erewrite run_bind by reflexivity. cbv beta iota.
        erewrite run_settle_resolved by reflexivity. by destruct s.
      - erewrite run_bind by reflexivity. cbv beta iota.
        erewrite run_settle_rejected by reflexivity. by destruct s. }
    unfold result, exec, trace. rewrite Hrun. by split_and!.
  - pose proof (concat_buildConf (set_schemaList [] s)) as Hb. cbv zeta in Hb.
    change (form (set_schemaList [] s)) with (form s) in Hb.
    set (f' := <["configuration" := _]> (form s)) in *.
    set (obj := delete_all ConcatForm.db_deleted (json_clone f')) in *.
    exists obj. split; [reflexivity|].
    assert (Hrun : ConcatForm.getSchema api s
                   = (Some (),
                      set_schemaList (default [] (Api.getSchema api obj))
                        (set_form f' (set_schemaList [] s)),
                      [Call (getSchema_request obj)])).
    { unfold ConcatForm.getSchema. mstep.
      erewrite run_bind by exact Hb. cbv beta iota.
      destruct (Api.getSchema api obj) as [res|].
      - erewrite run_bind by reflexivity. cbv beta iota.
        erewrite run_settle_resolved by reflexivity. by destruct s.
      - erewrite run_bind by reflexivity. cbv beta iota.
        erewrite run_settle_rejected by reflexivity. by destruct s. }
    unfold result, exec, trace. rewrite Hrun. by split_and!.
Qed.

Lemma getSchema_replaces_witness :
  is_string "api" (field "type" (form mysql_state)) = false
  ∧ schemaList (exec (@ApiForm.getSchema ascii_engine marked_aes tree_json backend)
                  (set_schemaList ["old"] mysql_state))
    = ["public"].
Proof.
  assert (Hty : is_string "api" (field "type" (form (set_schemaList ["old"] mysql_state)))
                = false) by done.
  split; [done|].
  destruct (proj1 (@getSchema_replaces ascii_engine marked_aes tree_json plain_utils backend
                     (set_schemaList ["old"] mysql_state)) Hty)
    as (obj & _ & _ & _ & ->).
  reflexivity.
Defined.

(** ** The files of the concatenate mode *)

(** X24. Editing the list of files. The change handler of the file picker
    replaces the list by the raw files of the picker's list: every entry
    that has a raw file gives one file, entries without one are skipped,
    and the files stand in the order and number of the picker's entries;
    what was in the list before plays no part. The merge request of [next]
    on that list carries these files in that same order, each under the key
    "files", followed by the separator and the key column. [removeFile] at a
    position inside the list takes out that one file and keeps the others in
    their order; at a position past the end it changes nothing. With two
    files or fewer in the concatenate mode, once a file is removed both
    [next] and [save] only show the two-files warning. *)
Theorem file_list_edits `{!Aes, !Json, !Utils}
    api (validate : FormInstance) confirmed fileList index s :
  let picked := exec (ConcatForm.handleMultipleFileChange fileList) s in
  let removed := exec (ConcatForm.removeFile index) s in
  (∀ f, f ∈ multipleFiles picked ↔ Some f ∈ fileList)
  ∧ (length (multipleFiles picked) ≤ length fileList)%nat
  ∧ Some <$> multipleFiles picked = filter is_Some fileList
  ∧ (∀ i f, multipleFiles picked !! i = Some f ↔
            filter is_Some fileList !! i = Some (Some f))
  ∧ (concatenateMode (props s) = true →
     (2 ≤ length (filter is_Some fileList))%nat →
     ConcatForm.name_missing (form s) = Some false →
     ∃ rest,
       trace (ConcatForm.next api (Some validate)) picked
       = Call (concatenateExcels_request
                 ((file_part "files" <$> multipleFiles picked)
                  ++ [text_part "separator" "_"; text_part "primary_key_col" "0"]))
         :: rest)
  ∧ ((length (multipleFiles s) ≤ index)%nat → multipleFiles removed = multipleFiles s)
  ∧ ((index < length (multipleFiles s))%nat →
       S (length (multipleFiles removed)) = length (multipleFiles s)
       ∧ (∀ i, (i < index)%nat → multipleFiles removed !! i = multipleFiles s !! i)
       ∧ (∀ i, (index ≤ i)%nat → multipleFiles removed !! i = multipleFiles s !! S i))
  ∧ ((index < length (multipleFiles s) ≤ 2)%nat →
     concatenateMode (props s) = true →
       ConcatForm.next api (Some validate) removed
       = (Some (), removed, [Message warning "请至少选择两个文件进行合并"])
       ∧ ConcatForm.save api (Some validate) confirmed removed
         = (Some (), removed, [Message warning "请至少选择两个文件进行合并"])).
Proof.
  intros picked removed.
  assert (Hrem : multipleFiles removed = delete index (multipleFiles s)).
  { subst removed. change (take index (multipleFiles s) ++ drop (S index) (multipleFiles s)
                           = delete index (multipleFiles s)).
    by rewrite delete_take_drop. }
  assert (Hpick : Some <$> multipleFiles picked = filter is_Some fileList).
  { change (Some <$> omap id fileList = filter is_Some fileList).
    apply fmap_Some_omap_id. }
  split_and!.
  - intros f. change (f ∈ omap id fileList ↔ Some f ∈ fileList).
    rewrite list_elem_of_omap. split.
    + by intros ([f'|] & Hin & [= <-]).
    + intros Hin. by exists (Some f).
  - change (length (omap id fileList) ≤ length fileList)%nat.
    apply length_omap_id.
  - exact Hpick.
  - intros i f. rewrite <- Hpick, list_lookup_fmap.
    destruct (multipleFiles picked !! i); simpl; naive_solver.
  - intros Hm Hfiles Hname.
    rewrite <- Hpick, length_fmap in Hfiles.
    destruct (Api.concatenateExcels api (ConcatForm.merge_formData (multipleFiles picked)))
      as [response|] eqn:Hres; unfold trace.
    + rewrite (concat_next_merged api validate picked response Hm Hfiles Hname Hres).
      by eexists.
    + rewrite (concat_next_rejected api validate picked Hm Hfiles Hname Hres).
      by eexists.
  - intros Hlen. rewrite Hrem.
    apply list_eq. intros i. destruct (decide (i < index)%nat).
    + by rewrite list_lookup_delete_lt.
    + rewrite list_lookup_delete_ge by lia.
      rewrite !lookup_ge_None_2 by lia. done.
  - intros Hlen. rewrite Hrem. split_and!.
    + rewrite length_delete by by apply lookup_lt_is_Some. lia.
    + intros i Hi. by apply list_lookup_delete_lt.
    + intros i Hi. by apply list_lookup_delete_ge.
  - intros [Hlt Hle] Hm.
    assert (Hfew : (length (multipleFiles removed) < 2)%nat).
    { rewrite Hrem, length_delete by by apply lookup_lt_is_Some. lia. }
    split.
    + by apply concat_next_few_files.
    + by apply concat_save_few_files.
Qed.

Lemma file_list_edits_witness :
  let s := concat_state "2024" two_files in
  (0 < length (multipleFiles s) ≤ 2)%nat
  ∧ concatenateMode (props s) = true
  ∧ trace (@ConcatForm.next marked_aes tree_json backend (Some always_valid))
      (exec (ConcatForm.removeFile 0) s)
    = [Message warning "请至少选择两个文件进行合并"].
Proof.
  intros s.
  assert (Hlen : (0 < length (multipleFiles s) ≤ 2)%nat) by (simpl; lia).
  assert (Hm : concatenateMode (props s) = true) by done.
  split_and!; [lia | lia | done |].
  destruct (@file_list_edits marked_aes tree_json plain_utils backend always_valid false
              [] 0%nat s) as (_ & _ & _ & _ & _ & _ & _ & Hguard).
  destruct (Hguard Hlen Hm) as [Hnext _].
  unfold trace. by rewrite Hnext.
Defined.

(** ** The status codes *)

(** X25. The status codes of an [api] form through building and loading.
    When the field holds a text that is not empty and whose pieces between
    the commas, trimmed, are read by [parseInt] as integers within
    [±2^53], [buildConf] stores exactly these integers in the configuration
    and [initForm] on the record it returns fills the field with their
    decimal forms joined by commas: the blanks around a piece, leading
    zeros and whatever follows the digits are gone, so "200, 201" and
    "0200,201" both come back as "200,201". A text that already is a list
    of such integers in decimal form, separated by commas alone, comes back
    unchanged. When the field is empty (or otherwise falsy) the codes 200
    and 201 are stored and the field comes back as "200,201". *)
Theorem status_codes_round_trip `{!Engine, !Aes, !Json, !Utils, !Lossless} api s s0 obj :
  is_string "api" (field "type" (form s)) = true →
  result ApiForm.buildConf s = Some obj →
  let loaded := form (exec (ApiForm.initForm api (Some obj) false) s0) in
  (∀ (text : string) (ns : list Z),
     field "successStatusCodes" (form s) = VStr text →
     text ≠ "" →
     (λ code, parseInt (trim code)) <$> split "," text = VNum <$> ns →
     Forall (λ n, safe_integer n = true) ns →
     ApiForm.successStatusCodes_of (form s) = Some (VNum <$> ns)
     ∧ field "successStatusCodes" loaded = VStr (join "," (VNum <$> ns))
     ∧ join "," (VNum <$> ns) = join "," (VStr ∘ pretty <$> ns))
  ∧ (∀ text, text ∈ ["200, 201"; "0200,201"; " 200 ,201abc"] →
     field "successStatusCodes" (form s) = VStr text →
     field "successStatusCodes" loaded = VStr "200,201")
  ∧ (∀ (n : Z) (ns : list Z),
     Forall (λ n, safe_integer n = true) (n :: ns) →
     field "successStatusCodes" (form s) = VStr (join "," (VNum <$> n :: ns)) →
     ApiForm.successStatusCodes_of (form s) = Some (VNum <$> n :: ns)
     ∧ field "successStatusCodes" loaded = field "successStatusCodes" (form s))
  ∧ (truthy (field "successStatusCodes" (form s)) = false →
     ApiForm.successStatusCodes_of (form s) = Some [VNum 200; VNum 201]
     ∧ field "successStatusCodes" loaded = VStr "200,201").
Proof.
  intros Hty Hobj loaded. subst loaded.
  assert (Hnorm : ∀ ns : list Z, map json_norm (VNum <$> ns) = VNum <$> ns).
  { intros ns. rewrite <- list_fmap_compose. by apply list_fmap_ext. }
  assert (Hread : ∀ (text : string) (ns : list Z),
             field "successStatusCodes" (form s) = VStr text →
             text ≠ "" →
             (λ code, parseInt (trim code)) <$> split "," text = VNum <$> ns →
             ApiForm.successStatusCodes_of (form s) = Some (VNum <$> ns)
             ∧ field "successStatusCodes"
                 (form (exec (ApiForm.initForm api (Some obj) false) s0))
               = VStr (join "," (VNum <$> ns))).
  { intros text ns Hf Htext Hpieces.
    assert (Hcodes : ApiForm.successStatusCodes_of (form s) = Some (VNum <$> ns)).
    { unfold ApiForm.successStatusCodes_of. rewrite Hf. cbn [truthy].
      apply String.eqb_neq in Htext. rewrite Htext. cbn [negb].
      by rewrite Hpieces. }
    split; [done|].
    by rewrite (initForm_built_api_codes api s s0 obj _ Hty Hcodes Hobj), Hnorm. }
  split_and!.
  - intros text ns Hf Htext Hpieces Hsafe.
    destruct (Hread text ns Hf Htext Hpieces) as [Hcodes Hback].
    split_and!; [done | done |].
    clear -Hsafe. induction Hsafe as [|n ns Hn Hsafe IH]; [done|].
    destruct ns as [|m ns].
    + cbn. unfold number_text. by rewrite Hn.
    + change (join "," (VNum <$> n :: m :: ns))
        with (number_text n +:+ "," +:+ join "," (VNum <$> m :: ns)).
      change (join "," (VStr ∘ pretty <$> n :: m :: ns))
        with (pretty n +:+ "," +:+ join "," (VStr ∘ pretty <$> m :: ns)).
      rewrite IH. unfold number_text. by rewrite Hn.
  - intros text Htext Hf.
    assert (Hpieces : (λ code, parseInt (trim code)) <$> split "," text
                      = VNum <$> [200; 201]).
    { rewrite !elem_of_cons, elem_of_nil in Htext.
      destruct Htext as [->|[->|[->|[]]]]; by vm_compute. }
    assert (Hne : text ≠ "").
    { rewrite !elem_of_cons, elem_of_nil in Htext.
      by destruct Htext as [->|[->|[->|[]]]]. }
    destruct (Hread text [200; 201] Hf Hne Hpieces) as [_ ->].
    by vm_compute.
  - intros n ns Hsafe Hf.
    pose proof (successStatusCodes_of_join (form s) n ns Hsafe Hf) as Hcodes.
    split; [done|].
    by rewrite (initForm_built_api_codes api s s0 obj _ Hty Hcodes Hobj), Hf, Hnorm.
  - intros Hf.
    pose proof (successStatusCodes_of_falsy (form s) Hf) as Hcodes.
    split; [done|].
    rewrite (initForm_built_api_codes api s s0 obj _ Hty Hcodes Hobj).
    by vm_compute.
Qed.

Lemma status_codes_round_trip_witness :
  let s := set_form (<["successStatusCodes" := VStr "204 , 0200,-1"]> api_form) api_state in
  let load obj := @ApiForm.initForm ascii_engine marked_aes tree_json backend (Some obj) false in
  is_string "api" (field "type" (form s)) = true
  ∧ ∃ obj, result (@ApiForm.buildConf ascii_engine marked_aes tree_json) s = Some obj
      ∧ field "successStatusCodes" (form (exec (load obj) api_state))
        = VStr "204,200,-1".
Proof.
  intros s load.
  assert (Hty : is_string "api" (field "type" (form s)) = true) by done.
  assert (Hf : field "successStatusCodes" (form s) = VStr "204 , 0200,-1") by done.
  assert (Hne : "204 , 0200,-1" ≠ "") by done.
  assert (Hpieces : (λ code, @parseInt ascii_engine (trim code)) <$> split "," "204 , 0200,-1"
                    = VNum <$> [204; 200; -1]) by (by vm_compute).
  assert (Hsafe : Forall (λ n, safe_integer n = true) [204; 200; -1])
    by (repeat constructor).
  assert (Hcodes : @ApiForm.successStatusCodes_of ascii_engine (form s)
                   = Some (VNum <$> [204; 200; -1])) by (by vm_compute).
  pose proof (@buildConf_api_result ascii_engine marked_aes tree_json s _ Hty Hcodes) as Hobj.
  split; [done|]. eexists. split; [exact Hobj|].
  destruct (@status_codes_round_trip ascii_engine marked_aes tree_json plain_utils
              marked_lossless backend s api_state _ Hty Hobj) as [Hread _].
  destruct (Hread _ _ Hf Hne Hpieces Hsafe) as (_ & Hback & _).
  unfold load. rewrite Hback. by vm_compute.
Defined.

(** ** The search box *)

(** X26. Which rows the search shows. A row of the table list is on screen
    exactly when its name, in lower case, contains the keyword in lower
    case, where lower case is what [toLowerCase] of the engine makes of a
    string; the rows on screen keep the order of the table list. Two
    keywords with the same lower case show the same rows. A keyword of
    ASCII that extends another one shows no row that the shorter one
    hides. *)
Theorem search_visibility `{!Engine} s :
  (∀ ele, ele ∈ tableListWithSearch s ↔
          ele ∈ tableList s
          ∧ ∃ pre post,
              toLowerCase (tableName ele) = pre +:+ toLowerCase (keywords s) +:+ post)
  ∧ tableListWithSearch s `sublist_of` tableList s
  ∧ (∀ k, k ≠ "" → keywords s ≠ "" →
          toLowerCase k = toLowerCase (keywords s) →
          tableListWithSearch (set_keywords k s) = tableListWithSearch s)
  ∧ (∀ pre post ele,
       is_ascii pre = true → is_ascii (keywords s) = true → is_ascii post = true →
       ele ∈ tableListWithSearch (set_keywords (pre +:+ keywords s +:+ post) s) →
       ele ∈ tableListWithSearch s).
Proof.
  split_and!.
  - apply elem_of_tableListWithSearch.
  - apply tableListWithSearch_sublist.
  - intros k Hk Hs Hlow. unfold tableListWithSearch.
    change (keywords (set_keywords k s)) with k.
    change (tableList (set_keywords k s)) with (tableList s).
    cbn [truthy]. rewrite Hlow.
    apply String.eqb_neq in Hk, Hs. by rewrite Hk, Hs.
  - intros pre post ele Hpre Hkey Hpost. rewrite !elem_of_tableListWithSearch.
    change (keywords (set_keywords (pre +:+ keywords s +:+ post) s))
      with (pre +:+ keywords s +:+ post).
    change (tableList (set_keywords (pre +:+ keywords s +:+ post) s)) with (tableList s).
    intros [Hin (a & b & Hname)]. split; [done|].
    rewrite (toLowerCase_app pre) in Hname
      by (done || by rewrite is_ascii_app, Hkey, Hpost).
    rewrite (toLowerCase_app (keywords s)) in Hname by done.
    exists (a +:+ toLowerCase pre), (toLowerCase post +:+ b).
    by rewrite Hname, !append_assoc.
Qed.

Lemma search_visibility_witness :
  let s := exec (@setFilter ascii_engine "ord") five in
  "ORD" ≠ "" ∧ keywords s ≠ ""
  ∧ @toLowerCase ascii_engine "ORD" = @toLowerCase ascii_engine (keywords s)
  ∧ @tableListWithSearch ascii_engine (set_keywords "ORD" s)
    = @tableListWithSearch ascii_engine s.
Proof.
  intros s.
  assert (Hk : "ORD" ≠ "") by done.
  assert (Hs : keywords s ≠ "") by done.
  assert (Hlow : @toLowerCase ascii_engine "ORD" = @toLowerCase ascii_engine (keywords s))
    by done.
  split_and!; [done | done | done |].
  destruct (@search_visibility ascii_engine s) as (_ & _ & Hcase & _).
  exact (Hcase "ORD" Hk Hs Hlow).
Defined.

(** ** Loading a record in the revision with the concatenate mode *)

(** X27. Building a form and loading the record back, in the revision with
    the concatenate mode. [initForm] on the record [buildConf] returns opens
    the dialog in edit mode and restores the ten connection properties and
    [id], [name], [description] and [type] as the JSON copies of what the
    form held when it was built; [timeout] comes back as 30 when it was
    falsy; [configuration] is the cipher text [buildConf] stored. Every
    other property, [originType] among them, keeps the value the form had
    before the load. *)
Theorem initForm_restores_concat `{!Engine, !Aes, !Json, !Utils, !Lossless} api s s0 obj :
  result ConcatForm.buildConf s = Some obj →
  let s' := exec (ConcatForm.initForm api (Some obj) false) s0 in
  result (ConcatForm.initForm api (Some obj) false) s0 = Some ()
  ∧ trace (ConcatForm.initForm api (Some obj) false) s0 = [ClearValidate]
  ∧ dialogVisible s' = true ∧ isCreate s' = false
  ∧ (∀ k, k ∈ db_keys → field k (form s') = json_reload (field k (form s)))
  ∧ (∀ k, k ∈ ["id"; "name"; "description"; "type"] →
          field k (form s') = json_reload (field k (form s)))
  ∧ field "timeout" (form s')
    = (if truthy (field "timeout" (form s))
       then json_reload (field "timeout" (form s)) else VNum 30)
  ∧ field "configuration" (form s')
    = field "configuration" (form (exec ConcatForm.buildConf s))
  ∧ (∀ k, k ∉ db_keys → k ∉ record_keys → k ≠ "timeout" →
          field k (form s') = field k (form s0)).
Proof.
  intros Hobj s'.
  rewrite (buildConf_concat_result s) in Hobj. injection Hobj as <-.
  change (form (exec ConcatForm.buildConf s))
    with (<["configuration" :=
             VStr (encrypted (JSON_stringify (ConcatForm.db_configuration (form s))))]>
            (form s)).
  rewrite field_insert.
  set (blob := encrypted (JSON_stringify (ConcatForm.db_configuration (form s)))) in *.
  set (obj := delete_all ConcatForm.db_deleted _) in *.
  assert (Hc : field "configuration" obj = VStr blob).
  { apply field_built_configuration. names. }
  assert (Hsync := concat_initForm_sync_db obj blob _ _ s0 Hc (encrypted_nonempty _)
                     (decrypted_encrypted _) (parse_stringify _)
                     ltac:(done) ltac:(done)).
  destruct (concat_initForm_loaded api obj s0 _ _ Hsync)
    as (Hres & Hform & Hdv & Hic & Htr).
  subst s'. rewrite Hform, Hdv, Hic, form_opened_state.
  set (c := json_norm (ConcatForm.db_configuration (form s))) in *.
  assert (Hprop : ∀ k, prop k c = json_reload (assoc k
            [("host", field "host" (form s)); ("port", field "port" (form s));
             ("username", field "username" (form s));
             ("password", field "password" (form s));
             ("database", field "database" (form s));
             ("extraJdbc", field "extraJdbc" (form s));
             ("dbSchema", field "dbSchema" (form s));
             ("filename", field "filename" (form s));
             ("sheets", field "sheets" (form s)); ("mode", field "mode" (form s));
             ("timeout", field "timeout" (form s))])).
  { intros k. apply prop_json_norm. names. }
  split_and!.
  - exact Hres.
  - exact Htr.
  - by destruct s0.
  - by destruct s0.
  - intros k Hk. rewrite field_concat_loaded_db.
    unfold db_keys in Hk.
    repeat (apply elem_of_cons in Hk as [->|Hk]);
      [rewrite !decide_False by done; rewrite decide_True by names;
       rewrite Hprop; reflexivity .. |].
    by apply elem_of_nil in Hk.
  - intros k Hk. rewrite field_concat_loaded_db, field_opened.
    repeat (apply elem_of_cons in Hk as [->|Hk]);
      [rewrite !decide_False by (done || names); rewrite decide_True by names;
       apply field_built; (done || names) .. |].
    by apply elem_of_nil in Hk.
  - rewrite field_concat_loaded_db. rewrite decide_True by done.
    unfold timeout_or_30. rewrite Hprop. cbn [assoc String.eqb Ascii.eqb Bool.eqb].
    by rewrite truthy_json_reload.
  - rewrite field_concat_loaded_db, field_opened.
    rewrite !decide_False by (done || names). rewrite decide_True by names.
    exact Hc.
  - intros k Hdb Hrec Ht. rewrite field_concat_loaded_db, field_opened.
    by rewrite !decide_False by done.
Qed.

Lemma initForm_restores_concat_witness :
  let s := concat_state "2024" two_files in
  let load obj := @ConcatForm.initForm ascii_engine marked_aes tree_json backend (Some obj) false in
  ∃ obj, result (@ConcatForm.buildConf marked_aes tree_json) s = Some obj
    ∧ field "name" (form (exec (load obj) (mounted props0 (ConcatForm.form0 "mysql"))))
      = VStr "2024".
Proof.
  intros s load.
  pose proof (@buildConf_concat_result marked_aes tree_json s) as Hobj.
  eexists. split; [exact Hobj|].
  destruct (@initForm_restores_concat ascii_engine marked_aes tree_json plain_utils marked_lossless
              backend s (mounted props0 (ConcatForm.form0 "mysql")) _ Hobj)
    as (_ & _ & _ & _ & _ & Hrec & _).
  unfold load. rewrite (Hrec "name") by names. by vm_compute.
Defined.
